(** * Model-identity codec and label hierarchy of the SAM CIFAR-100 scripts

    A shallow embedding of the filename decoding functions of
    [src/evaluate.py], [src/embeddings.py] and [src/evaluate_multiclass.py]
    and of the label tables of [src/utility/cifar_utils.py], followed by the
    properties of these functions.  The search for model files, the
    choice of labels and loaders in [main], the crop size of the loaders,
    the file name written by [src/train_multiclass.py] and the sampling
    of the validation set in [src/validation_data.py] are embedded as
    well.

    Python values are embedded as follows: [str] as [string] (one [ascii]
    per code point below 256), [int] as [Z], a raised exception as [Err e]
    in the [result] type, the value [None] as [VNone].  Integers are
    unbounded; the interpreter's configurable limit on the number of digits
    [int] and [str] convert is left out.  The one float of the decoders,
    [crop_size / 4] in evaluate_multiclass.py, is the integer rounded to
    the nearest binary64 value and divided by 4. *)

From Stdlib Require Import ZArith String Ascii List Bool Lia.
From Stdlib Require Import Decimal DecimalString DecimalZ DecimalPos DecimalFacts.
From stdpp Require Import gmap strings.

Local Open Scope Z_scope.
Set Warnings "-register-all".
#[local] Arguments String.append !_ _ / : simpl nomatch.

(** ** Exceptions and the error monad *)

(** The exceptions the modelled code can raise.  [ValueError] carries the
    message given by the source (or, for the built-in [int], the fixed part
    of the interpreter's message); [TypeError] likewise. *)
Inductive exn : Type :=
| ValueError (msg : string)
| TypeError (msg : string)
| IndexError (msg : string)
| KeyError (key : string)
| StopIteration
| OverflowError (msg : string).

Inductive result (A : Type) : Type :=
| Ok (a : A)
| Err (e : exn).
Arguments Ok {A} a.
Arguments Err {A} e.

Definition bind {A B : Type} (m : result A) (k : A -> result B) : result B :=
  match m with
  | Ok a => k a
  | Err e => Err e
  end.

Declare Scope py_scope.
Delimit Scope py_scope with py.
Notation "'let*' x ':=' m 'in' k" := (bind m (fun x => k))
  (at level 10, x name, m at level 100, k at level 200) : py_scope.
Local Open Scope py_scope.

(** The Python values that flow through the decoders. *)
Inductive value : Type :=
| VNone
| VInt (z : Z)
| VStr (s : string)
| VTuple (items : list value).

(** ** The [str] and [int] primitives used by the decoders *)

Module Py.

(** [old in s] on strings. *)
Fixpoint contains (pat s : string) : bool :=
  match s with
  | EmptyString => String.prefix pat EmptyString
  | String _ s' => String.prefix pat s || contains pat s'
  end.

(** [s.replace(old, new)].  The scan goes left to right; [skip] counts
    the characters of a matched occurrence still to be passed over, so
    occurrences never overlap.  With an empty [old] Python puts [new]
    before every character and at the end. *)
Fixpoint replace_from (old new : string) (skip : nat) (s : string) : string :=
  match s with
  | EmptyString => EmptyString
  | String c s' =>
      match skip with
      | S k => replace_from old new k s'
      | O =>
          if String.prefix old s
          then new +:+ replace_from old new (Nat.pred (String.length old)) s'
          else String c (replace_from old new O s')
      end
  end.

Fixpoint intersperse_after (new s : string) : string :=
  match s with
  | EmptyString => EmptyString
  | String c s' => String c (new +:+ intersperse_after new s')
  end.

Definition replace (old new s : string) : string :=
  match old with
  | EmptyString => new +:+ intersperse_after new s
  | String _ _ => replace_from old new O s
  end.

(** [s.split(sep)] for a one-character separator, the only form the
    source uses ("_", "." and "/").  The result is never empty. *)
Fixpoint split (sep : ascii) (s : string) : list string :=
  match s with
  | EmptyString => [EmptyString]
  | String c s' =>
      if Ascii.eqb c sep then EmptyString :: split sep s'
      else match split sep s' with
           | [] => [String c EmptyString]
           | tok :: rest => String c tok :: rest
           end
  end.

(** [l[-1]] on a list. *)
Definition last_item (l : list string) : result string :=
  match rev l with
  | [] => Err (IndexError "list index out of range")
  | x :: _ => Ok x
  end.

(** The characters [int] strips from both ends of a string, among the
    code points below 256: the ASCII white space 9..13 and 32, and the
    two other spaces U+0085 and U+00A0, which [int] turns into a blank
    first.  The separators U+001C..U+001F are not among them. *)
Definition is_space (c : ascii) : bool :=
  let n := nat_of_ascii c in
  ((9 <=? n) && (n <=? 13) || (n =? 32) || (n =? 133) || (n =? 160))%nat.

Definition is_digit (c : ascii) : bool :=
  let n := nat_of_ascii c in ((48 <=? n) && (n <=? 57))%nat.

Fixpoint lstrip (s : string) : string :=
  match s with
  | EmptyString => EmptyString
  | String c s' => if is_space c then lstrip s' else s
  end.

Fixpoint rstrip (s : string) : string :=
  match s with
  | EmptyString => EmptyString
  | String c s' =>
      match rstrip s' with
      | EmptyString => if is_space c then EmptyString else String c EmptyString
      | r => String c r
      end
  end.

Definition strip (s : string) : string := rstrip (lstrip s).

(** Digit grouping: a single underscore is accepted between two digits
    and ignored; anywhere else it makes the literal invalid. *)
Fixpoint drop_underscores (after_digit : bool) (s : string) : option string :=
  match s with
  | EmptyString => Some EmptyString
  | String c s' =>
      if Ascii.eqb c "_" then
        match after_digit, s' with
        | true, String d _ =>
            if is_digit d then drop_underscores false s' else None
        | _, _ => None
        end
      else option_map (String c) (drop_underscores (is_digit c) s')
  end.

Definition invalid_literal : exn :=
  ValueError "invalid literal for int() with base 10".

(** [int(s)] for a string: white space is stripped, one sign is
    accepted, then at least one decimal digit. *)
Definition int_of_str (s : string) : result Z :=
  let t := strip s in
  let '(neg, body) :=
    match t with
    | String "-" r => (true, r)
    | String "+" r => (false, r)
    | _ => (false, t)
    end in
  match drop_underscores false body with
  | Some (String c ds) =>
      match NilEmpty.uint_of_string (String c ds) with
      | Some u => Ok (if neg then - Z.of_uint u else Z.of_uint u)
      | None => Err invalid_literal
      end
  | _ => Err invalid_literal
  end.

Definition none_type_error : exn :=
  TypeError "int() argument must be a string, a bytes-like object or a number, not 'NoneType'".

(** [int(x)] on the values that reach it. *)
Definition int (v : value) : result Z :=
  match v with
  | VInt z => Ok z
  | VStr s => int_of_str s
  | VNone => Err none_type_error
  | VTuple _ => Err (TypeError "int() argument must be a string, a bytes-like object or a number, not 'tuple'")
  end.

(** [str(n)] for an integer. *)
Definition str (z : Z) : string := NilEmpty.string_of_int (Z.to_int z).

(** [next(it)] on an iterator given by the list of what it yields. *)
Definition next {A : Type} (it : list A) : result A :=
  match it with
  | [] => Err StopIteration
  | x :: _ => Ok x
  end.

(** [itertools.compress(data, selectors)]. *)
Fixpoint compress {A : Type} (data : list A) (selectors : list bool) : list A :=
  match data, selectors with
  | d :: data', s :: selectors' =>
      if s then d :: compress data' selectors' else compress data' selectors'
  | _, _ => []
  end.

(** [x[0]] on a string or a tuple. *)
Definition getitem0 (v : value) : result value :=
  match v with
  | VStr (String c _) => Ok (VStr (String c EmptyString))
  | VStr EmptyString => Err (IndexError "string index out of range")
  | VTuple (x :: _) => Ok x
  | VTuple [] => Err (IndexError "tuple index out of range")
  | VNone => Err (TypeError "'NoneType' object is not subscriptable")
  | VInt _ => Err (TypeError "'int' object is not subscriptable")
  end.

(** [s.startswith(prefix)]. *)
Definition startswith (prefix s : string) : bool := String.prefix prefix s.

(** [s.endswith(suffix)]. *)
Fixpoint endswith (suffix s : string) : bool :=
  String.eqb suffix s
  || match s with
     | EmptyString => false
     | String _ s' => endswith suffix s'
     end.

(** [os.path.join(a, b)] on POSIX paths. *)
Definition os_path_join (a b : string) : string :=
  if startswith "/" b then b
  else match a with
       | EmptyString => a +:+ b
       | String _ _ => if endswith "/" a then a +:+ b else a +:+ "/" +:+ b
       end.

(** [l[i] = v] on a list: a negative index counts from the end. *)
Definition setitem {A : Type} (l : list A) (i : Z) (v : A) : result (list A) :=
  let n := Z.of_nat (length l) in
  if (0 <=? i) && (i <? n) then Ok (<[Z.to_nat i := v]> l)
  else if (- n <=? i) && (i <? 0) then Ok (<[Z.to_nat (n + i) := v]> l)
  else Err (IndexError "list assignment index out of range").

End Py.

(** ** [src/utility/cifar_utils.py]: the label tables *)

Module Cifar_utils.

Definition coarse_classes : list string :=
  [ "aquatic_mammals"; "fish"; "flowers"; "food_containers";
    "fruit_and_vegetables"; "household_electrical_devices";
    "household_furniture"; "insects"; "large_carnivores";
    "large_man-made_outdoor_things"; "large_natural_outdoor_scenes";
    "large_omnivores_and_herbivores"; "medium_mammals";
    "non-insect_invertebrates"; "people"; "reptiles"; "small_mammals";
    "trees"; "vehicles_1"; "vehicles_2" ].

(** A [dict] with [str] keys, kept as the list of its items in insertion
    order: [keys()] iterates in that order. *)
Definition coarse_class_to_idx : list (string * Z) :=
  [ ("aquatic_mammals", 0); ("fish", 1); ("flowers", 2);
    ("food_containers", 3); ("fruit_and_vegetables", 4);
    ("household_electrical_devices", 5); ("household_furniture", 6);
    ("insects", 7); ("large_carnivores", 8);
    ("large_man-made_outdoor_things", 9);
    ("large_natural_outdoor_scenes", 10);
    ("large_omnivores_and_herbivores", 11); ("medium_mammals", 12);
    ("non-insect_invertebrates", 13); ("people", 14); ("reptiles", 15);
    ("small_mammals", 16); ("trees", 17); ("vehicles_1", 18);
    ("vehicles_2", 19) ].

Definition dict_keys (d : list (string * Z)) : list string := map fst d.

(** [d[key]]: the value of the item with that key, [KeyError] without. *)
Fixpoint dict_getitem (d : list (string * Z)) (key : string) : result Z :=
  match d with
  | [] => Err (KeyError key)
  | (k, v) :: d' => if String.eqb k key then Ok v else dict_getitem d' key
  end.

Definition fine_idx_to_coarse : list Z :=
  [ 4; 1; 14; 8; 0; 6; 7; 7; 18; 3;
    3; 14; 9; 18; 7; 11; 3; 9; 7; 11;
    6; 11; 5; 10; 7; 6; 13; 15; 3; 15;
    0; 11; 1; 10; 12; 14; 16; 9; 11; 5;
    5; 19; 8; 8; 15; 13; 14; 17; 18; 10;
    16; 4; 17; 4; 2; 0; 17; 4; 18; 17;
    10; 3; 2; 12; 12; 16; 12; 1; 9; 19;
    2; 10; 0; 1; 16; 12; 9; 13; 15; 13;
    16; 19; 2; 4; 6; 19; 5; 5; 8; 19;
    18; 1; 2; 15; 6; 0; 17; 8; 14; 13 ].

(** [enumerate(l)]: the items paired with their positions from [start]. *)
Fixpoint enumerate_from {A : Type} (start : Z) (l : list A) : list (Z * A) :=
  match l with
  | [] => []
  | x :: l' => (start, x) :: enumerate_from (start + 1) l'
  end.

Definition enumerate {A : Type} (l : list A) : list (Z * A) :=
  enumerate_from 0 l.

(** [dict(enumerate(fine_idx_to_coarse))]; the keys are distinct, so no
    item overrides another. *)
Definition fine_to_coarse_idxs : gmap Z Z :=
  list_to_map (enumerate fine_idx_to_coarse).

(** [d.get(key)]: the value, or [None] when the key is absent; it never
    raises. *)
Definition dict_get (d : gmap Z Z) (key : Z) : value :=
  match d !! key with
  | Some v => VInt v
  | None => VNone
  end.

Definition fine_classes : list string :=
  [
    "apple"; "aquarium_fish"; "baby"; "bear"; "beaver"; "bed"; "bee";
    "beetle"; "bicycle"; "bottle"; "bowl"; "boy"; "bridge"; "bus";
    "butterfly"; "camel"; "can"; "castle"; "caterpillar"; "cattle";
    "chair"; "chimpanzee"; "clock"; "cloud"; "cockroach"; "couch";
    "crab"; "crocodile"; "cup"; "dinosaur"; "dolphin"; "elephant";
    "flatfish"; "forest"; "fox"; "girl"; "hamster"; "house";
    "kangaroo"; "keyboard"; "lamp"; "lawn_mower"; "leopard"; "lion";
    "lizard"; "lobster"; "man"; "maple_tree"; "motorcycle"; "mountain";
    "mouse"; "mushroom"; "oak_tree"; "orange"; "orchid"; "otter";
    "palm_tree"; "pear"; "pickup_truck"; "pine_tree"; "plain"; "plate";
    "poppy"; "porcupine"; "possum"; "rabbit"; "raccoon"; "ray"; "road";
    "rocket"; "rose"; "sea"; "seal"; "shark"; "shrew"; "skunk";
    "skyscraper"; "snail"; "snake"; "spider"; "squirrel"; "streetcar";
    "sunflower"; "sweet_pepper"; "table"; "tank"; "telephone";
    "television"; "tiger"; "tractor"; "train"; "trout"; "tulip";
    "turtle"; "wardrobe"; "whale"; "willow_tree"; "wolf"; "woman";
    "worm" ].

(** [dict(items)]: the items are inserted in order, a later item
    overriding an earlier one with the same key. *)
Definition dict_of_items {K V : Type} `{Countable K} (items : list (K * V))
    : gmap K V :=
  foldl (fun d item => <[fst item := snd item]> d) empty items.

Definition coarse_idx_to_class : gmap Z string :=
  dict_of_items
  [
    (0, "aquatic_mammals"); (1, "fish"); (2, "flowers");
    (3, "food_containers"); (4, "fruit_and_vegetables");
    (5, "household_electrical_devices"); (6, "household_furniture");
    (7, "insects"); (8, "large_carnivores");
    (9, "large_man-made_outdoor_things");
    (10, "large_natural_outdoor_scenes");
    (11, "large_omnivores_and_herbivores"); (12, "medium_mammals");
    (13, "non-insect_invertebrates"); (14, "people"); (15, "reptiles");
    (16, "small_mammals"); (17, "trees"); (18, "vehicles_1");
    (19, "vehicles_2") ].

(** [dict([L[::-1] for L in enumerate(coarse_classes)])]. *)
Definition coarse_idxs : gmap string Z :=
  dict_of_items (map (fun L => (snd L, fst L)) (enumerate coarse_classes)).

End Cifar_utils.

(** ** [src/evaluate.py] *)

Module Evaluate.
Import Cifar_utils.

Definition get_granularity (name : string) : result string :=
  if Py.contains "coarse" name then Ok "coarse"
  else if Py.contains "fine" name then Ok "fine"
  else Err (ValueError "granularity not found").

(** The [for element in name.split("_")] loop of [get_parameter]; falling
    off its end returns [None]. *)
Fixpoint get_parameter_loop (param extension : string)
    (elements : list string) : result value :=
  match elements with
  | [] => Ok VNone
  | element :: rest =>
      if Py.contains param element then
        let* n := Py.int (VStr (Py.replace extension ""
                                  (Py.replace param "" element))) in
        Ok (VInt n)
      else get_parameter_loop param extension rest
  end.

Definition get_parameter (name param : string) : result value :=
  let* ext := Py.last_item (Py.split "." name) in
  let extension := "." +:+ ext in
  if negb (existsb (String.eqb param)
             ["class"; "crop"; "kernel"; "width"; "depth"])
  then Err (ValueError "invalid parameter input")
  else get_parameter_loop param extension (Py.split "_" name).

Definition get_parameters (model_filename : string)
    : result (string * Z * Z * Z * Z * Z) :=
  let* granularity := get_granularity model_filename in
  let* class_id := bind (get_parameter model_filename "class") Py.int in
  let* crop_size := bind (get_parameter model_filename "crop") Py.int in
  let* kernel_size := bind (get_parameter model_filename "kernel") Py.int in
  let* width_factor := bind (get_parameter model_filename "width") Py.int in
  let* depth := bind (get_parameter model_filename "depth") Py.int in
  Ok (granularity, class_id, crop_size, kernel_size, width_factor, depth).

(** The "all_" test comes first and returns a pair; the other branch
    returns a string. *)
Definition superclass_to_idx (filename : string) : result value :=
  if Py.contains "all_" filename then
    Ok (VTuple [VStr (Py.replace "all_" "" filename); VNone])
  else
    let keys := dict_keys coarse_class_to_idx in
    let* superclass :=
      Py.next (Py.compress keys (map (fun k => Py.contains k filename) keys)) in
    let* superclass_idx := dict_getitem coarse_class_to_idx superclass in
    Ok (VStr (Py.replace superclass ("class" +:+ Py.str superclass_idx)
                filename)).

Definition parse_model_path (model_path : string) : result value :=
  let* model_name := Py.last_item (Py.split "/" model_path) in
  let model_name := Py.replace "model_" "" (Py.replace ".pt" "" model_name) in
  superclass_to_idx model_name.

(** The decoding done at the head of the loop body of [main]:
    [model_filename = parse_model_path(model_path)[0]] followed by
    [get_parameters(model_filename)]. *)
Definition main_decode (model_path : string)
    : result (string * Z * Z * Z * Z * Z) :=
  let* parsed := parse_model_path model_path in
  let* model_filename := Py.getitem0 parsed in
  match model_filename with
  | VStr s => get_parameters s
  | _ => Err (TypeError "argument is not iterable")
  end.

(** [find_model_files], from what [os.walk(model_path)] yields: the
    triples (root, directories, files) in the order of the walk. *)
Definition find_model_files (walk : list (string * list string * list string))
    : list string :=
  flat_map
    (fun entry =>
       let root := fst (fst entry) in
       let files := snd entry in
       map (Py.os_path_join root)
         (List.filter
            (fun file => Py.startswith "model_" file && Py.endswith ".pt" file)
            files))
    walk.

(** The choice of [n_labels] in [main], from the decoded granularity. *)
Definition main_n_labels (granularity : string) : result Z :=
  if String.eqb granularity "coarse" then Ok 20
  else if String.eqb granularity "fine" then Ok 100
  else Err (ValueError "model filename does not contain granularity").

End Evaluate.

(** ** [src/embeddings.py] *)

Module Embeddings.
Import Cifar_utils.

Definition get_granularity (name : string) : result string :=
  if Py.contains "coarse" name then Ok "coarse"
  else if Py.contains "fine" name then Ok "fine"
  else Err (ValueError "granularity not found").

Fixpoint get_parameter_loop (param extension : string)
    (elements : list string) : result value :=
  match elements with
  | [] => Ok VNone
  | element :: rest =>
      if Py.contains param element then
        let* n := Py.int (VStr (Py.replace extension ""
                                  (Py.replace param "" element))) in
        Ok (VInt n)
      else get_parameter_loop param extension rest
  end.

Definition get_parameter (name param : string) : result value :=
  let* ext := Py.last_item (Py.split "." name) in
  let extension := "." +:+ ext in
  if negb (existsb (String.eqb param)
             ["class"; "crop"; "kernel"; "width"; "depth"])
  then Err (ValueError "invalid parameter input")
  else get_parameter_loop param extension (Py.split "_" name).

Definition get_parameters (model_filename : string)
    : result (string * Z * Z * Z * Z * Z) :=
  let* granularity := get_granularity model_filename in
  let* class_id := bind (get_parameter model_filename "class") Py.int in
  let* crop_size := bind (get_parameter model_filename "crop") Py.int in
  let* kernel_size := bind (get_parameter model_filename "kernel") Py.int in
  let* width_factor := bind (get_parameter model_filename "width") Py.int in
  let* depth := bind (get_parameter model_filename "depth") Py.int in
  Ok (granularity, class_id, crop_size, kernel_size, width_factor, depth).

(** The "_all_" test comes first; both branches return a string. *)
Definition superclass_to_idx (filename : string) : result string :=
  if Py.contains "_all_" filename then
    Ok (Py.replace "_all_" "_class-1_" filename)
  else
    let keys := dict_keys coarse_class_to_idx in
    let* superclass :=
      Py.next (Py.compress keys (map (fun k => Py.contains k filename) keys)) in
    let* superclass_idx := dict_getitem coarse_class_to_idx superclass in
    Ok (Py.replace superclass ("class" +:+ Py.str superclass_idx) filename).

Definition parse_model_path (model_path : string) : result string :=
  let* model_name := Py.last_item (Py.split "/" model_path) in
  let model_name := Py.replace "model_" "" (Py.replace ".pt" "" model_name) in
  superclass_to_idx model_name.

(** The decoding done in the loop body of [main]:
    [model_filename = parse_model_path(str(mp))] followed by
    [get_parameters(model_filename)]. *)
Definition main_decode (mp : string) : result (string * Z * Z * Z * Z * Z) :=
  let* model_filename := parse_model_path mp in
  get_parameters model_filename.

(** [list(map(fine_to_coarse_idxs.get, targets))], the remapping of the
    targets that [get_test_dataloader] and [get_validation_dataloader]
    both do. *)
Definition remap_targets (targets : list Z) : list value :=
  map (dict_get fine_to_coarse_idxs) targets.

(** The targets of the data set that [get_test_dataloader(coarse)]
    returns, from the targets of the data set it loads. *)
Definition get_test_dataloader (coarse : bool) (targets : list Z) : list value :=
  if coarse then remap_targets targets else map VInt targets.

(** The same for [get_validation_dataloader(coarse)]. *)
Definition get_validation_dataloader (coarse : bool) (targets : list Z)
    : list value :=
  if coarse then remap_targets targets else map VInt targets.

(** [find_model_files], from what [os.walk(model_path)] yields: the
    triples (root, directories, files) in the order of the walk. *)
Definition find_model_files (walk : list (string * list string * list string))
    : list string :=
  flat_map
    (fun entry =>
       let root := fst (fst entry) in
       let files := snd entry in
       map (Py.os_path_join root)
         (List.filter
            (fun file => Py.startswith "model_" file && Py.endswith ".pt" file)
            files))
    walk.

(** The choice made in [main] from the decoded granularity: [n_labels]
    and the test and validation loaders, given by their targets. *)
Definition main_select (granularity : string)
    (test_targets validation_targets : list Z)
    : result (Z * list value * list value) :=
  let test_fine := get_test_dataloader false test_targets in
  let test_coarse := get_test_dataloader true test_targets in
  let validation_fine := get_validation_dataloader false validation_targets in
  let validation_coarse := get_validation_dataloader true validation_targets in
  if String.eqb granularity "coarse" then Ok (20, test_coarse, validation_coarse)
  else if String.eqb granularity "fine" then Ok (100, test_fine, validation_fine)
  else Err (ValueError "model filename does not contain granularity").

End Embeddings.

(** The transforms of a torchvision pipeline that the scripts build;
    [RandomCrop] carries its [size] attribute, a pair. *)
Inductive transform : Type :=
| RandomCrop (size : Z * Z)
| RandomHorizontalFlip
| ToTensor
| Normalize
| Cutout.

(** ** [src/evaluate_multiclass.py] *)

Module Evaluate_multiclass.

Fixpoint get_parameter_loop (param extension : string)
    (elements : list string) : result value :=
  match elements with
  | [] => Ok VNone
  | element :: rest =>
      if Py.contains param element then
        let* n := Py.int (VStr (Py.replace extension ""
                                  (Py.replace param "" element))) in
        Ok (VInt n)
      else get_parameter_loop param extension rest
  end.

Definition get_parameter (name param : string) : result value :=
  let* ext := Py.last_item (Py.split "." name) in
  let extension := "." +:+ ext in
  if negb (existsb (String.eqb param) ["crop"; "kernel"; "width"; "depth"])
  then Err (ValueError "invalid parameter input")
  else get_parameter_loop param extension (Py.split "_" name).

(** The integer nearest to [a] among those a double holds: [a] itself
    when it has at most 53 significant bits, otherwise [a] rounded to 53
    significant bits, to nearest, ties to the even significand. *)
Definition round_double (a : Z) : Z :=
  let n := Z.log2 (Z.abs a) + 1 in
  if n <=? 53 then a
  else
    let shift := n - 53 in
    let q := Z.shiftr (Z.abs a) shift in
    let r := Z.abs a - Z.shiftl q shift in
    let half := Z.shiftl 1 (shift - 1) in
    let q' := if (half <? r) || ((r =? half) && Z.odd q) then q + 1 else q in
    Z.sgn a * Z.shiftl q' shift.

(** [int(a / 4)] for an integer [a].  [a / 4] is the double nearest to
    the exact quotient; dividing by 4 only lowers the exponent, so it is
    [round_double a] over 4, and OverflowError is raised when that is
    2^1024 or more in absolute value.  [int] then truncates towards
    zero. *)
Definition int_truediv_4 (a : Z) : result Z :=
  let r := round_double a in
  if 2 ^ 1026 <=? Z.abs r
  then Err (OverflowError "integer division result too large for a float")
  else Ok (Z.quot r 4).

Definition get_parameters (model_filename : string)
    : result (Z * Z * Z * Z) :=
  let* crop_size := bind (get_parameter model_filename "crop") Py.int in
  let* kernel_size := int_truediv_4 crop_size in
  let* width_factor := bind (get_parameter model_filename "width") Py.int in
  let* depth := bind (get_parameter model_filename "depth") Py.int in
  Ok (crop_size, kernel_size, width_factor, depth).

Definition parse_model_path (model_path : string) : result string :=
  let* model_name := Py.last_item (Py.split "/" model_path) in
  Ok (Py.replace "model_" "" (Py.replace ".pt" "" model_name)).

Definition main_decode (model_path : string) : result (Z * Z * Z * Z) :=
  let* model_filename := parse_model_path model_path in
  get_parameters model_filename.

(** [find_model_files], from what [os.walk(model_path)] yields: the
    triples (root, directories, files) in the order of the walk. *)
Definition find_model_files (walk : list (string * list string * list string))
    : list string :=
  flat_map
    (fun entry =>
       let root := fst (fst entry) in
       let files := snd entry in
       map (Py.os_path_join root)
         (List.filter
            (fun file => Py.startswith "model_" file && Py.endswith ".pt" file)
            files))
    walk.

(** [set_crop_size], on the list of transforms of the loader's data set. *)
Definition set_crop_size (transforms : list transform) (crop_size : Z)
    : list transform :=
  map (fun t => match t with
                | RandomCrop _ => RandomCrop (crop_size, crop_size)
                | _ => t
                end) transforms.

(** The transforms [get_test_dataloader] composes. *)
Definition get_test_dataloader : list transform :=
  [RandomCrop (32, 32); ToTensor; Normalize].

End Evaluate_multiclass.

(** ** [src/train_multiclass.py] *)

Module Train_multiclass.

(** The transforms [get_dataset(train)] composes. *)
Definition get_dataset (train : bool) : list transform :=
  if train
  then [RandomCrop (32, 32); RandomHorizontalFlip; ToTensor; Normalize; Cutout]
  else [ToTensor; Normalize].

Definition set_crop_size (transforms : list transform) (crop_size : Z)
    : list transform :=
  map (fun t => match t with
                | RandomCrop _ => RandomCrop (crop_size, crop_size)
                | _ => t
                end) transforms.

(** The file name under which the model is saved,
    [f"wrn100class_crop{crop_size}_width{width_factor}_depth{depth}.pt"]. *)
Definition model_filename (crop_size width_factor depth : Z) : string :=
  "wrn100class_crop" +:+ Py.str crop_size +:+ "_width" +:+ Py.str width_factor
  +:+ "_depth" +:+ Py.str depth +:+ ".pt".

(** The [kernel_size] the model is built with. *)
Definition kernel_size : Z := 6.

End Train_multiclass.

(** ** [src/validation_data.py] *)

Module Validation_data.
Import Cifar_utils.

Section WithRandom.

(** The state of the random number generator, and the choice that
    [random.sample(population, k)] makes in a state when [k] is at most
    the size of the population, with the state it leaves. *)
Context {rng : Type} (choose : rng -> list Z -> nat -> list Z * rng).

(** [random.sample(population, k)]. *)
Definition random_sample (st : rng) (population : list Z) (k : nat)
    : result (list Z * rng) :=
  if (length population <? k)%nat
  then Err (ValueError "Sample larger than population or is negative")
  else Ok (choose st population k).

(** The [indices] of one pass of the loop: the positions of the targets
    equal to [cls]. *)
Definition class_indices (targets : list Z) (cls : Z) : list Z :=
  let mask := map (fun t => t =? cls) targets in
  map fst (List.filter snd (enumerate mask)).

(** The loop [for cls in class_numbers], with the generator's state and
    [sampled_indices] threaded through it. *)
Fixpoint sample_classes (st : rng) (targets : list Z)
    (class_numbers : list Z) (sampled_indices : list Z) : result (list Z) :=
  match class_numbers with
  | [] => Ok sampled_indices
  | cls :: rest =>
      let indices := class_indices targets cls in
      let* drawn := random_sample st indices 200 in
      sample_classes (snd drawn) targets rest (sampled_indices ++ fst drawn)
  end.

(** The loop [for i in sampled_indices: dataset_mask[i] = True]. *)
Fixpoint set_mask (dataset_mask : list bool) (sampled_indices : list Z)
    : result (list bool) :=
  match sampled_indices with
  | [] => Ok dataset_mask
  | i :: rest =>
      let* dataset_mask := Py.setitem dataset_mask i true in
      set_mask dataset_mask rest
  end.

(** [make_validation_dataset], from the targets and the data of the
    training set to those of the validation set. *)
Definition make_validation_dataset {A : Type} (st : rng) (targets : list Z)
    (data : list A) : result (list Z * list A) :=
  let class_numbers := seqZ 0 100 in
  let* sampled_indices := sample_classes st targets class_numbers [] in
  let* dataset_mask := set_mask (replicate (Z.to_nat 50000) false) sampled_indices in
  Ok (Py.compress targets dataset_mask, Py.compress data dataset_mask).

End WithRandom.

End Validation_data.

(** [sep.join(toks)]. *)
Fixpoint join (sep : string) (toks : list string) : string :=
  match toks with
  | [] => EmptyString
  | [t] => t
  | t :: toks' => t +:+ sep +:+ join sep toks'
  end.

(** The names the decoders read are written when a model is trained, by
    code that is not among the sources; [Codec] holds the naming
    convention. *)
Module Codec.
Import Cifar_utils.

Inductive granularity : Type := Coarse | Fine.

Inductive superclass : Type :=
| All
| Index (i : Z).

Definition marker (g : granularity) : string :=
  match g with
  | Coarse => "coarse"
  | Fine => "fine"
  end.

(** What the decoders return for the superclass: the index, or -1 for the
    placeholder (the token "class-1" that embeddings.py substitutes). *)
Definition class_id (sc : superclass) : Z :=
  match sc with
  | All => -1
  | Index i => i
  end.

Definition class_token (sc : superclass) : string :=
  match sc with
  | All => "all"
  | Index i => "class" +:+ Py.str i
  end.

Definition name_token (sc : superclass) : string :=
  match sc with
  | All => "all"
  | Index i => nth (Z.to_nat i) coarse_classes ""
  end.

(** Modelled from the spec: the tokens of a name, which the encoder,
    missing from the sources, joins (models are saved under names built
    by string interpolation at training time).  Section 6 of the
    specification gives a granularity marker, a token for the superclass
    and the tokens "crop<v>", "kernel<v>", "width<v>" and "depth<v>".
    The superclass token is "class<idx>" or the placeholder "all"
    (section 6), or the literal superclass name, or is left out
    (section 4.1): [None] stands for a name without one.  The list is in
    the order of the decoded tuple. *)
Definition tokens (g : granularity) (superclass_token : option string)
    (crop kernel width depth : Z) : list string :=
  marker g
  :: match superclass_token with
     | Some t => [t]
     | None => []
     end
  ++ ["crop" +:+ Py.str crop; "kernel" +:+ Py.str kernel;
      "width" +:+ Py.str width; "depth" +:+ Py.str depth].

(** Modelled from the spec: the name made of a list of tokens, section 6:
    "model_", the tokens joined by "_", and ".pt".  The specification
    fixes no order of the tokens: the names of a tuple are
    [name_of_tokens toks] for every permutation [toks] of its
    [tokens]. *)
Definition name_of_tokens (toks : list string) : string :=
  "model_" +:+ join "_" toks +:+ ".pt".

(** Modelled from the spec: one name of the convention, that with the
    tokens in the order of the decoded tuple,
    [name_of_tokens (tokens g (Some superclass_token) ...)]. *)
Definition filename (g : granularity) (superclass_token : string)
    (crop kernel width depth : Z) : string :=
  "model_" +:+ marker g +:+ "_" +:+ superclass_token
  +:+ "_crop" +:+ Py.str crop +:+ "_kernel" +:+ Py.str kernel
  +:+ "_width" +:+ Py.str width +:+ "_depth" +:+ Py.str depth +:+ ".pt".

(** Modelled from the spec: the name in the order of the tuple with the
    superclass token "class<idx>", or "all", of section 6. *)
Definition encode (g : granularity) (sc : superclass)
    (crop kernel width depth : Z) : string :=
  filename g (class_token sc) crop kernel width depth.

(** Modelled from the spec: the name in the order of the tuple with the
    superclass written by its coarse class name, or "all", the form
    section 4.1 describes and [superclass_to_idx] expects. *)
Definition encode_named (g : granularity) (sc : superclass)
    (crop kernel width depth : Z) : string :=
  filename g (name_token sc) crop kernel width depth.

End Codec.

(** ** Definitions used in the statements and proofs *)

Section Auxiliary.
Import Cifar_utils Codec.

Fixpoint string_forall (P : ascii -> bool) (s : string) : bool :=
  match s with
  | EmptyString => true
  | String c s' => P c && string_forall P s'
  end.

(** The pattern is not empty and its first character is outside [P]. *)
Definition head_not (P : ascii -> bool) (pat : string) : bool :=
  match pat with
  | EmptyString => false
  | String a _ => negb (P a)
  end.

Definition nonempty (s : string) : bool :=
  match s with
  | EmptyString => false
  | String _ _ => true
  end.

Definition avoids (P : ascii -> bool) (pat : string) : bool :=
  string_forall (fun c => negb (P c)) pat.

(** A variable piece: not empty, all its characters in [P]. *)
Definition is_gap (P : ascii -> bool) (d : string) : bool :=
  string_forall P d && nonempty d.

Definition sep_free (sep : ascii) (s : string) : bool :=
  string_forall (fun c => negb (Ascii.eqb c sep)) s.

(** The characters of a printed integer. *)
Definition is_num (c : ascii) : bool := Py.is_digit c || Ascii.eqb c "-".

Definition not_space (c : ascii) : bool := negb (Py.is_space c).

(** Fixed pieces [segs] alternating with variable pieces [gaps]:
    [seg0 gap0 seg1 gap1 ...], ending with a piece of [segs] when there is
    one more of them than of [gaps], and with the last of [gaps] when they
    are as many. *)
Fixpoint interleave (segs gaps : list string) : string :=
  match segs, gaps with
  | [], _ => EmptyString
  | seg :: _, [] => seg
  | seg :: segs', gap :: gaps' =>
      match segs', gaps' with
      | [], [] => seg +:+ gap
      | _, _ => seg +:+ gap +:+ interleave segs' gaps'
      end
  end.

Definition interleaved (segs gaps : list string) : Prop :=
  length segs = length gaps \/ length segs = S (length gaps).

Definition as_value (r : result string) : result value :=
  match r with
  | Ok s => Ok (VStr s)
  | Err e => Err e
  end.

Definition is_coarse (c : Z) (v : value) : bool :=
  match v with
  | VInt z => z =? c
  | _ => false
  end.

(** How many of the remapped targets carry the coarse index [c]. *)
Definition group_size (c : Z) (targets : list value) : nat :=
  length (List.filter (is_coarse c) targets).

(** How many fine indices the table sends to the coarse index [c]. *)
Definition fine_count (c : Z) : nat :=
  length (List.filter (fun z => z =? c) fine_idx_to_coarse).

(** The scan over [d.keys()] and the lookup [d[superclass]] that both
    [superclass_to_idx] share, with what follows them as [k]. *)
Definition scan_superclass {B : Type} (d : list (string * Z))
    (filename : string) (k : string -> Z -> result B) : result B :=
  let keys := dict_keys d in
  let* superclass :=
    Py.next (Py.compress keys (map (fun k => Py.contains k filename) keys)) in
  let* superclass_idx := dict_getitem d superclass in
  k superclass superclass_idx.

(** What [parse_model_path] makes of a name of the convention: the tokens
    without "model_" and ".pt", the superclass as "class<idx>". *)
Definition stripped (g : granularity) (cls crop kernel width depth : Z) : string :=
  marker g +:+ "_class" +:+ Py.str cls
  +:+ "_crop" +:+ Py.str crop +:+ "_kernel" +:+ Py.str kernel
  +:+ "_width" +:+ Py.str width +:+ "_depth" +:+ Py.str depth.

(** The four values of a name, printed. *)
Definition values (crop kernel width depth : Z) : list string :=
  [Py.str crop; Py.str kernel; Py.str width; Py.str depth].

(** A name as the fixed text up to the crop size, [head], and the rest. *)
Definition with_head (head : string) (gaps : list string) : string :=
  interleave [head; "_kernel"; "_width"; "_depth"] gaps.

Definition valid_superclass (sc : superclass) : Prop :=
  match sc with
  | All => True
  | Index i => 0 <= i < 20
  end.

Definition is_underscore (c : ascii) : bool := Ascii.eqb c "_".

(** What [parse_model_path] makes of a name written by
    train_multiclass.py: the name without ".pt". *)
Definition train_stem (crop width depth : Z) : string :=
  "wrn100class_crop" +:+ Py.str crop +:+ "_width" +:+ Py.str width
  +:+ "_depth" +:+ Py.str depth.

(** The tokens of a name of the convention, in the order of the tuple. *)
Definition convention_tokens (g : granularity)
    (cls crop kernel width depth : Z) : list string :=
  [marker g; "class" +:+ Py.str cls; "crop" +:+ Py.str crop;
   "kernel" +:+ Py.str kernel; "width" +:+ Py.str width;
   "depth" +:+ Py.str depth].

(** A token without "_" that holds no parameter name and no granularity
    marker. *)
Definition plain_token (t : string) : bool :=
  sep_free "_" t
  && forallb (fun p => negb (Py.contains p t))
       ["class"; "crop"; "kernel"; "width"; "depth"; "coarse"; "fine"].

(** The tokens of a list, each followed by "_", and each preceded by
    "_": [join "_" (A ++ t :: B)] is [lead A], [t] and [trail B]. *)
Fixpoint lead (toks : list string) : string :=
  match toks with
  | [] => EmptyString
  | t :: toks' => t +:+ "_" +:+ lead toks'
  end.

Fixpoint trail (toks : list string) : string :=
  match toks with
  | [] => EmptyString
  | t :: toks' => "_" +:+ t +:+ trail toks'
  end.

(** The fixed text of the tokens other than a superclass name. *)
Definition stems : list string :=
  ["coarse"; "fine"; "class"; "crop"; "kernel"; "width"; "depth"].

(** A token made of a stem and digits. *)
Definition plain (t : string) : Prop :=
  exists stem ds,
    In stem stems /\ string_forall Py.is_digit ds = true /\ t = stem +:+ ds.

(** No occurrence of [pat] starts inside [s], whatever follows [s]. *)
Definition no_start (pat s : string) : Prop :=
  forall s1 s2 rest,
    s = s1 +:+ s2 -> nonempty s2 = true ->
    String.prefix pat (s2 +:+ rest) = false.

(** Neither string is a prefix of the other. *)
Definition mismatch (pat t : string) : bool :=
  negb (String.prefix pat t) && negb (String.prefix t pat).

(** The suffixes of a string that are not empty. *)
Fixpoint suffixes (s : string) : list string :=
  match s with
  | EmptyString => []
  | String _ s' => s :: suffixes s'
  end.

Definition clear_of (pat s : string) : bool :=
  forallb (mismatch pat) (suffixes s).

(** The part of a key before its first "_". *)
Definition first_piece (key : string) : string := hd "" (Py.split "_" key).

(** A piece that tells a key from the other tokens: it is not empty, has
    no "_" and no digit, and occurs in no stem and not in "all". *)
Definition mark_ok (x : string) : bool :=
  nonempty x && avoids is_underscore x && avoids Py.is_digit x
  && forallb (fun t => negb (Py.contains x t)) ("all" :: stems).

Definition key_ok (key : string) : bool :=
  mark_ok (first_piece key) && String.prefix (first_piece key) key.

(** What the proof of the round trip needs of the [n]-th coarse class
    name among the other tokens. *)
Definition name_ok (n : nat) : bool :=
  let name := nth n coarse_classes "" in
  forallb (fun key => clear_of key (name +:+ "_"))
    (firstn n (dict_keys coarse_class_to_idx))
  && clear_of "_all_" ("_" +:+ name)
  && negb (Py.contains "model" name)
  && sep_free "/" name && sep_free "." name
  && String.eqb (nth n (dict_keys coarse_class_to_idx) "") name.

(** The index [i] is a position of [targets] that holds [cls]. *)
Definition has_class (targets : list Z) (cls i : Z) : bool :=
  (0 <=? i)
  && match targets !! Z.to_nat i with
     | Some t => t =? cls
     | None => false
     end.

(** How many of the indices are positions of [targets] that hold [cls]. *)
Definition class_count (targets : list Z) (cls : Z) (indices : list Z) : nat :=
  length (List.filter (has_class targets cls) indices).

(** What [random.sample] promises of a choice: as many items as asked
    for, each from the population, none taken twice. *)
Definition sample_spec {rng : Type}
    (choose : rng -> list Z -> nat -> list Z * rng) : Prop :=
  forall st population k,
    NoDup population -> (k <= length population)%nat ->
    length (fst (choose st population k)) = k
    /\ NoDup (fst (choose st population k))
    /\ (forall i, In i (fst (choose st population k)) -> In i population).

End Auxiliary.

(** ** The primitives and the decoders on sample inputs *)

Example contains_ex1 : Py.contains "all_" "small_mammals" = true.
Proof. reflexivity. Qed.
Example replace_ex1 : Py.replace "_all_" "_class-1_" "a_all_all_b" = "a_class-1_all_b".
Proof. reflexivity. Qed.
Example replace_ex2 : Py.replace "aa" "b" "aaa" = "ba".
Proof. reflexivity. Qed.
Example replace_ex3 : Py.replace "" "-" "abc" = "-a-b-c-".
Proof. reflexivity. Qed.
Example split_ex1 : Py.split "_" "a__b_" = ["a"; ""; "b"; ""].
Proof. reflexivity. Qed.
Example int_ex1 : Py.int_of_str " -1_0 " = Ok (-10).
Proof. reflexivity. Qed.
Example int_ex2 : Py.int_of_str "1__0" = Err Py.invalid_literal.
Proof. reflexivity. Qed.
Example str_ex1 : Py.str (-120) = "-120" /\ Py.str 0 = "0".
Proof. split; reflexivity. Qed.
Example eval_ex1 :
  Evaluate.get_parameters "model_class7_crop32_kernel8_width4_depth16.pt"
  = Err (ValueError "granularity not found").
Proof. vm_compute. reflexivity. Qed.
Example eval_ex2 :
  Evaluate.get_parameter "model_class7_crop32_kernel8_width4_depth16.pt" "depth"
  = Ok (VInt 16).
Proof. vm_compute. reflexivity. Qed.
Example emb_ex1 :
  Embeddings.main_decode "models/model_coarse_all_crop32_kernel8_width4_depth16.pt"
  = Ok ("coarse", -1, 32, 8, 4, 16).
Proof. vm_compute. reflexivity. Qed.
Example emb_ex2 :
  Embeddings.main_decode "models/model_fine_fish_crop32_kernel8_width4_depth16.pt"
  = Ok ("fine", 1, 32, 8, 4, 16).
Proof. vm_compute. reflexivity. Qed.
Example emb_ex3 :
  Embeddings.main_decode "models/model_coarse_class7_crop32_kernel8_width4_depth16.pt"
  = Err StopIteration.
Proof. vm_compute. reflexivity. Qed.
Example ev_ex3 :
  Evaluate.main_decode "models/model_coarse_all_crop32_kernel8_width4_depth16.pt"
  = Err Py.none_type_error.
Proof. vm_compute. reflexivity. Qed.
Example ev_ex4 :
  Evaluate.main_decode "models/model_fine_fish_crop32_kernel8_width4_depth16.pt"
  = Err (ValueError "granularity not found").
Proof. vm_compute. reflexivity. Qed.
Example remap_ex : Embeddings.remap_targets [0; 99; -1; 100] = [VInt 4; VInt 13; VNone; VNone].
Proof. vm_compute. reflexivity. Qed.

(** ** Facts about the string primitives *)

Section StringFacts.
Implicit Types (s t u pat old new : string) (c : ascii).

Lemma append_empty_r s : s +:+ "" = s.
Proof. induction s as [|c s IH]; simpl; [reflexivity | now rewrite IH]. Qed.

Lemma append_assoc s t u : (s +:+ t) +:+ u = s +:+ t +:+ u.
Proof. induction s as [|c s IH]; simpl; [reflexivity | now rewrite IH]. Qed.

Lemma length_append s t :
  String.length (s +:+ t) = (String.length s + String.length t)%nat.
Proof. induction s as [|c s IH]; simpl; [reflexivity | now rewrite IH]. Qed.

Lemma string_forall_app P s t :
  string_forall P (s +:+ t) = string_forall P s && string_forall P t.
Proof.
  induction s as [|c s IH]; simpl; [reflexivity |].
  now rewrite IH, andb_assoc.
Qed.

Lemma string_forall_impl (P Q : ascii -> bool) s :
  (forall c, P c = true -> Q c = true) ->
  string_forall P s = true -> string_forall Q s = true.
Proof.
  intros HPQ. induction s as [|c s IH]; simpl; [reflexivity |].
  intros [Hc Hs]%andb_true_iff. rewrite (HPQ _ Hc). now apply IH.
Qed.

Lemma prefix_cons_eq a pat s :
  String.prefix (String a pat) (String a s) = String.prefix pat s.
Proof. simpl. destruct (ascii_dec a a); [reflexivity | contradiction]. Qed.

Lemma prefix_cons_ne a b pat s :
  a <> b -> String.prefix (String a pat) (String b s) = false.
Proof. intros Hne. simpl. destruct (ascii_dec a b); [contradiction | reflexivity]. Qed.

Lemma prefix_length pat s :
  String.prefix pat s = true -> (String.length pat <= String.length s)%nat.
Proof.
  revert s. induction pat as [|a pat IH]; intros [|b s]; simpl; try lia;
    try discriminate.
  destruct (ascii_dec a b); [|discriminate]. intros H. apply IH in H. lia.
Qed.

Lemma prefix_app_l pat s t :
  String.prefix pat s = true -> String.prefix pat (s +:+ t) = true.
Proof.
  revert s. induction pat as [|a pat IH]; intros [|b s]; simpl; try easy.
  - now destruct t.
  - destruct (ascii_dec a b); [apply IH | discriminate].
Qed.

Lemma prefix_self_app pat s : String.prefix pat (pat +:+ s) = true.
Proof.
  induction pat as [|a pat IH]; simpl; [now destruct s |].
  destruct (ascii_dec a a); [exact IH | contradiction].
Qed.

Lemma contains_empty s : Py.contains "" s = true.
Proof. destruct s; reflexivity. Qed.

Lemma contains_app_l pat s t :
  Py.contains pat s = true -> Py.contains pat (s +:+ t) = true.
Proof.
  induction s as [|c s IH]; simpl.
  - destruct pat; [intros _; apply contains_empty | discriminate].
  - intros [H|H]%orb_true_iff; apply orb_true_iff.
    + left. now apply (prefix_app_l pat (String c s) t).
    + right. now apply IH.
Qed.

Lemma contains_app_r pat s t :
  Py.contains pat t = true -> Py.contains pat (s +:+ t) = true.
Proof.
  intros H. induction s as [|c s IH]; simpl; [exact H |].
  rewrite IH. apply orb_true_r.
Qed.

Lemma contains_self_app pat s : Py.contains pat (pat +:+ s) = true.
Proof.
  destruct pat as [|a pat]; [apply contains_empty |].
  change (String a pat +:+ s) with (String a (pat +:+ s)).
  cbn [Py.contains]. apply orb_true_iff. left.
  apply (prefix_self_app (String a pat) s).
Qed.

(** *** A class [P] of characters the pattern avoids *)

Section CharClass.
Variable P : ascii -> bool.

Lemma prefix_head_not pat c s :
  head_not P pat = true -> P c = true ->
  String.prefix pat (String c s) = false.
Proof.
  destruct pat as [|a pat]; simpl; [discriminate |].
  intros Ha Hc. destruct (ascii_dec a c) as [->|]; [|reflexivity].
  rewrite Hc in Ha. discriminate.
Qed.

(** No occurrence starts inside a run of [P] characters. *)
Lemma contains_skip_gap pat d s :
  head_not P pat = true -> string_forall P d = true ->
  Py.contains pat (d +:+ s) = Py.contains pat s.
Proof.
  intros Hp. induction d as [|c d IH]; [reflexivity |].
  simpl string_forall. intros [Hc Hd]%andb_true_iff.
  change (String c d +:+ s) with (String c (d +:+ s)).
  cbn [Py.contains]. rewrite (prefix_head_not pat c _ Hp Hc). now apply IH.
Qed.

Lemma contains_head_not pat d :
  head_not P pat = true -> string_forall P d = true ->
  Py.contains pat d = false.
Proof.
  intros Hp Hd. rewrite <- (append_empty_r d).
  rewrite (contains_skip_gap _ _ _ Hp Hd). now destruct pat.
Qed.

Lemma avoids_head_not pat :
  avoids P pat = true -> nonempty pat = true -> head_not P pat = true.
Proof.
  destruct pat as [|a pat]; simpl; [discriminate |].
  now intros [Ha _]%andb_true_iff _.
Qed.

(** A pattern that avoids [P] cannot reach into a [P] character. *)
Lemma prefix_gap pat s c t :
  avoids P pat = true -> P c = true ->
  String.prefix pat (s +:+ String c t) = String.prefix pat s.
Proof.
  revert s. induction pat as [|a pat IH]; intros s Hp Hc.
  - now destruct s.
  - simpl in Hp. apply andb_true_iff in Hp as [Ha Hp].
    destruct s as [|b s].
    + simpl. destruct (ascii_dec a c) as [->|]; [|reflexivity].
      rewrite Hc in Ha. discriminate.
    + simpl. destruct (ascii_dec a b); [now apply IH | reflexivity].
Qed.

Lemma contains_gap pat s d t :
  avoids P pat = true -> string_forall P d = true -> nonempty d = true ->
  Py.contains pat (s +:+ d +:+ t) = Py.contains pat s || Py.contains pat t.
Proof.
  intros Hp Hd Hne.
  destruct pat as [|a pat].
  { now rewrite !contains_empty. }
  assert (Hh : head_not P (String a pat) = true)
    by now apply avoids_head_not.
  induction s as [|b s IH].
  - simpl. now apply contains_skip_gap.
  - change (String b s +:+ d +:+ t) with (String b (s +:+ d +:+ t)).
    cbn [Py.contains]. rewrite IH.
    destruct d as [|c d]; [discriminate |].
    simpl in Hd. apply andb_true_iff in Hd as [Hc Hd].
    change (String b (s +:+ String c d +:+ t))
      with (String b s +:+ String c (d +:+ t)).
    rewrite (prefix_gap _ _ _ _ Hp Hc). now rewrite orb_assoc.
Qed.

Lemma contains_gap_end pat s d :
  avoids P pat = true -> string_forall P d = true -> nonempty d = true ->
  Py.contains pat (s +:+ d) = Py.contains pat s.
Proof.
  intros Hp Hd Hne.
  rewrite <- (append_empty_r d), (contains_gap _ _ _ _ Hp Hd Hne).
  destruct pat; [now rewrite !contains_empty | apply orb_false_r].
Qed.

Lemma interleave_cons seg seg' segs gap gaps :
  interleave (seg :: seg' :: segs) (gap :: gaps)
  = seg +:+ gap +:+ interleave (seg' :: segs) gaps.
Proof. reflexivity. Qed.

Lemma contains_interleave pat segs gaps :
  avoids P pat = true -> nonempty pat = true ->
  forallb (is_gap P) gaps = true -> interleaved segs gaps ->
  Py.contains pat (interleave segs gaps) = existsb (Py.contains pat) segs.
Proof.
  intros Hp Hpne. revert segs.
  induction gaps as [|d gaps IH]; intros segs Hg Hlen.
  - destruct segs as [|seg [|? ?]]; destruct Hlen as [Hlen|Hlen];
      try discriminate; simpl.
    + now destruct pat.
    + now rewrite orb_false_r.
  - destruct segs as [|seg segs]; [destruct Hlen; discriminate |].
    simpl in Hg. apply andb_true_iff in Hg as [Hd Hg].
    apply andb_true_iff in Hd as [Hd Hne].
    destruct segs as [|seg' segs].
    + destruct gaps; [|destruct Hlen; discriminate].
      simpl. rewrite (contains_gap_end _ _ _ Hp Hd Hne).
      now rewrite orb_false_r.
    + rewrite interleave_cons, (contains_gap _ _ _ _ Hp Hd Hne).
      rewrite IH; [reflexivity | exact Hg |].
      unfold interleaved in *. simpl in Hlen |- *. lia.
Qed.

Lemma string_forall_interleave (Q : ascii -> bool) segs gaps :
  (forall c, P c = true -> Q c = true) ->
  forallb (string_forall Q) segs = true ->
  forallb (is_gap P) gaps = true ->
  string_forall Q (interleave segs gaps) = true.
Proof.
  intros HPQ. revert gaps.
  induction segs as [|seg segs IH]; intros gaps Hs Hg; [reflexivity |].
  simpl in Hs. apply andb_true_iff in Hs as [Hseg Hs].
  destruct gaps as [|d gaps]; [exact Hseg |].
  simpl in Hg. apply andb_true_iff in Hg as [Hd Hg].
  apply andb_true_iff in Hd as [Hd _].
  pose proof (string_forall_impl P Q d HPQ Hd) as HQd.
  destruct segs as [|seg' segs].
  - destruct gaps; simpl; rewrite ?string_forall_app, Hseg, HQd; reflexivity.
  - rewrite interleave_cons, !string_forall_app, Hseg, HQd.
    now rewrite IH.
Qed.

End CharClass.

End StringFacts.

Section ReplaceFacts.
Implicit Types (s t old new d : string) (c : ascii).

Lemma replace_from_skip old new s t :
  Py.replace_from old new (String.length s) (s +:+ t)
  = Py.replace_from old new O t.
Proof.
  induction s as [|c s IH]; simpl; [|exact IH].
  destruct t; reflexivity.
Qed.

Lemma replace_prefix old new s :
  nonempty old = true ->
  Py.replace old new (old +:+ s) = new +:+ Py.replace old new s.
Proof.
  destruct old as [|a old]; [discriminate |]. intros _.
  unfold Py.replace.
  change (String a old +:+ s) with (String a (old +:+ s)).
  cbn [Py.replace_from].
  change (String a (old +:+ s)) with (String a old +:+ s).
  rewrite prefix_self_app. simpl Nat.pred.
  now rewrite replace_from_skip.
Qed.

Section CharClass.
Variable P : ascii -> bool.

(** A run of [P] characters is copied when the pattern starts outside
    [P]. *)
Lemma replace_from_skip_gap old new d t :
  head_not P old = true -> string_forall P d = true ->
  Py.replace_from old new O (d +:+ t) = d +:+ Py.replace_from old new O t.
Proof.
  intros Hp. induction d as [|c d IH]; [reflexivity |].
  simpl string_forall. intros [Hc Hd]%andb_true_iff.
  change (String c d +:+ t) with (String c (d +:+ t)).
  cbn [Py.replace_from]. rewrite (prefix_head_not P old c _ Hp Hc).
  rewrite (IH Hd). reflexivity.
Qed.

Lemma replace_skip_gap old new d t :
  head_not P old = true -> string_forall P d = true ->
  Py.replace old new (d +:+ t) = d +:+ Py.replace old new t.
Proof.
  destruct old as [|a old]; [discriminate |].
  apply replace_from_skip_gap.
Qed.

Lemma replace_head_not old new d :
  head_not P old = true -> string_forall P d = true ->
  Py.replace old new d = d.
Proof.
  intros Hp Hd. rewrite <- (append_empty_r d) at 1.
  rewrite (replace_skip_gap _ _ _ _ Hp Hd).
  destruct old; [discriminate |]. cbn [Py.replace Py.replace_from].
  apply append_empty_r.
Qed.

(** Occurrences of a pattern that avoids [P] lie on one side of a gap. *)
Lemma replace_from_gap old new d t :
  avoids P old = true -> nonempty old = true -> is_gap P d = true ->
  forall s k, (k <= String.length s)%nat ->
    Py.replace_from old new k (s +:+ d +:+ t)
    = Py.replace_from old new k s +:+ d +:+ Py.replace_from old new O t.
Proof.
  intros Hp Hne [Hd Hdne]%andb_true_iff.
  assert (Hh : head_not P old = true) by now apply avoids_head_not.
  induction s as [|b s IH]; intros k Hk.
  - simpl in Hk. assert (k = O) as -> by lia.
    simpl. rewrite (replace_from_skip_gap _ _ _ _ Hh Hd).
    now destruct d.
  - change (String b s +:+ d +:+ t) with (String b (s +:+ d +:+ t)).
    destruct k as [|k]; cbn [Py.replace_from].
    + destruct d as [|c d]; [discriminate |].
      simpl in Hd. apply andb_true_iff in Hd as [Hc Hd'].
      change (String b (s +:+ String c d +:+ t))
        with (String b s +:+ String c (d +:+ t)).
      rewrite (prefix_gap P _ _ _ _ Hp Hc).
      change (String b s +:+ String c (d +:+ t))
        with (String b (s +:+ String c d +:+ t)).
      destruct (String.prefix old (String b s)) eqn:Hpre.
      * apply prefix_length in Hpre. simpl in Hpre.
        rewrite IH by lia. now rewrite append_assoc.
      * rewrite IH by lia. reflexivity.
    + simpl in Hk. apply IH. lia.
Qed.

Lemma replace_gap old new s d t :
  avoids P old = true -> nonempty old = true -> is_gap P d = true ->
  Py.replace old new (s +:+ d +:+ t)
  = Py.replace old new s +:+ d +:+ Py.replace old new t.
Proof.
  intros Hp Hne Hd. destruct old as [|a old]; [discriminate |].
  unfold Py.replace. apply replace_from_gap; auto. lia.
Qed.

Lemma replace_gap_end old new s d :
  avoids P old = true -> nonempty old = true -> is_gap P d = true ->
  Py.replace old new (s +:+ d) = Py.replace old new s +:+ d.
Proof.
  intros Hp Hne Hd.
  rewrite <- (append_empty_r d) at 1. rewrite (replace_gap _ _ _ _ _ Hp Hne Hd).
  destruct old; [discriminate |]. cbn [Py.replace Py.replace_from].
  now rewrite append_empty_r.
Qed.

Lemma replace_interleave old new segs gaps :
  avoids P old = true -> nonempty old = true ->
  forallb (is_gap P) gaps = true -> interleaved segs gaps ->
  Py.replace old new (interleave segs gaps)
  = interleave (map (Py.replace old new) segs) gaps.
Proof.
  intros Hp Hne. revert segs.
  induction gaps as [|d gaps IH]; intros segs Hg Hlen.
  - destruct segs as [|seg [|? ?]]; destruct Hlen as [Hlen|Hlen];
      try discriminate; [|reflexivity].
    destruct old; [discriminate | reflexivity].
  - destruct segs as [|seg segs]; [destruct Hlen; discriminate |].
    simpl in Hg. apply andb_true_iff in Hg as [Hd Hg].
    destruct segs as [|seg' segs].
    + destruct gaps; [|destruct Hlen; discriminate].
      simpl. apply (replace_gap_end _ _ _ _ Hp Hne Hd).
    + cbn [map]. rewrite !interleave_cons, (replace_gap _ _ _ _ _ Hp Hne Hd).
      rewrite IH; [reflexivity | exact Hg |].
      unfold interleaved in *. simpl in Hlen |- *. lia.
Qed.

End CharClass.

End ReplaceFacts.

Section SplitFacts.
Variable sep : ascii.

Lemma split_sep_free s : sep_free sep s = true -> Py.split sep s = [s].
Proof.
  induction s as [|c s IH]; [reflexivity |].
  unfold sep_free. simpl. intros [Hc Hs]%andb_true_iff.
  apply negb_true_iff in Hc. rewrite Hc.
  fold (sep_free sep s) in Hs. now rewrite (IH Hs).
Qed.

Lemma split_app_sep tok rest :
  sep_free sep tok = true ->
  Py.split sep (tok +:+ String sep rest) = tok :: Py.split sep rest.
Proof.
  induction tok as [|c tok IH].
  - intros _. simpl. now rewrite Ascii.eqb_refl.
  - unfold sep_free. simpl. intros [Hc Hs]%andb_true_iff.
    apply negb_true_iff in Hc. rewrite Hc.
    fold (sep_free sep tok) in Hs. now rewrite (IH Hs).
Qed.

Lemma split_join toks :
  forallb (sep_free sep) toks = true -> toks <> [] ->
  Py.split sep (join (String sep EmptyString) toks) = toks.
Proof.
  induction toks as [|tok toks IH]; [contradiction |].
  simpl forallb. intros [Htok Htoks]%andb_true_iff _.
  destruct toks as [|tok' toks].
  - simpl. now apply split_sep_free.
  - change (join (String sep "") (tok :: tok' :: toks))
      with (tok +:+ String sep (join (String sep "") (tok' :: toks))).
    rewrite (split_app_sep _ _ Htok). f_equal. now apply IH.
Qed.

Lemma last_item_split_sep_free s :
  sep_free sep s = true -> Py.last_item (Py.split sep s) = Ok s.
Proof. intros H. now rewrite split_sep_free. Qed.

End SplitFacts.

Section IntStrFacts.

Lemma is_digit_is_num c : Py.is_digit c = true -> is_num c = true.
Proof. unfold is_num. now intros ->. Qed.

Lemma is_num_not_space c : is_num c = true -> not_space c = true.
Proof.
  destruct c as [[] [] [] [] [] [] [] []]; vm_compute; congruence.
Qed.

Lemma string_of_uint_digits u :
  string_forall Py.is_digit (NilEmpty.string_of_uint u) = true.
Proof. induction u; simpl; auto. Qed.

Lemma string_of_uint_nonempty u :
  u <> Nil -> nonempty (NilEmpty.string_of_uint u) = true.
Proof. destruct u; simpl; congruence. Qed.

Lemma str_nonempty z : nonempty (Py.str z) = true.
Proof.
  destruct z as [|p|p]; [reflexivity | |reflexivity].
  apply string_of_uint_nonempty, DecimalPos.Unsigned.to_uint_nonnil.
Qed.

Lemma str_digits z : 0 <= z -> is_gap Py.is_digit (Py.str z) = true.
Proof.
  intros Hz. unfold is_gap. rewrite str_nonempty, andb_true_r.
  destruct z as [|p|p]; [reflexivity | | lia].
  apply string_of_uint_digits.
Qed.

Lemma str_num z : is_gap is_num (Py.str z) = true.
Proof.
  unfold is_gap. rewrite str_nonempty, andb_true_r.
  destruct z as [|p|p]; [reflexivity | |].
  - apply (string_forall_impl Py.is_digit); [exact is_digit_is_num |].
    apply string_of_uint_digits.
  - unfold Py.str. simpl.
    apply (string_forall_impl Py.is_digit); [exact is_digit_is_num |].
    apply string_of_uint_digits.
Qed.

Lemma rstrip_not_space s :
  string_forall not_space s = true -> Py.rstrip s = s.
Proof.
  induction s as [|c s IH]; [reflexivity |].
  simpl. intros [Hc Hs]%andb_true_iff. rewrite (IH Hs).
  unfold not_space in Hc. apply negb_true_iff in Hc. rewrite Hc.
  now destruct s.
Qed.

Lemma strip_not_space s :
  string_forall not_space s = true -> Py.strip s = s.
Proof.
  intros Hs. unfold Py.strip.
  assert (Py.lstrip s = s) as ->; [| now apply rstrip_not_space].
  destruct s as [|c s]; [reflexivity |].
  simpl in Hs |- *. apply andb_true_iff in Hs as [Hc _].
  unfold not_space in Hc. apply negb_true_iff in Hc. now rewrite Hc.
Qed.

Lemma drop_underscores_digits b s :
  string_forall Py.is_digit s = true -> Py.drop_underscores b s = Some s.
Proof.
  revert b. induction s as [|c s IH]; intros b; [reflexivity |].
  simpl. intros [Hc Hs]%andb_true_iff.
  assert (Ascii.eqb c "_" = false) as ->.
  { destruct c as [[] [] [] [] [] [] [] []]; vm_compute in Hc |- *;
      congruence. }
  now rewrite (IH _ Hs).
Qed.

Lemma int_of_str_digits (neg : bool) (s : string) :
  string_forall Py.is_digit s = true -> nonempty s = true ->
  Py.int_of_str (if neg then String "-" s else s)
  = match NilEmpty.uint_of_string s with
    | Some u => Ok (if neg then - Z.of_uint u else Z.of_uint u)
    | None => Err Py.invalid_literal
    end.
Proof.
  intros Hs Hne. unfold Py.int_of_str.
  assert (Hsp : string_forall not_space s = true).
  { apply (string_forall_impl Py.is_digit); [|exact Hs].
    intros c Hc. now apply is_num_not_space, is_digit_is_num. }
  destruct neg.
  - rewrite strip_not_space by (simpl; now rewrite Hsp).
    rewrite (drop_underscores_digits _ _ Hs).
    destruct s; [discriminate | reflexivity].
  - rewrite (strip_not_space _ Hsp).
    destruct s as [|c s]; [discriminate |].
    assert (Hc : Py.is_digit c = true).
    { simpl in Hs. now apply andb_true_iff in Hs as [Hc _]. }
    assert (Hmatch :
      match String c s with
      | String "-"%char r => (true, r)
      | String "+"%char r => (false, r)
      | _ => (false, String c s)
      end = (false, String c s)).
    { destruct c as [[] [] [] [] [] [] [] []]; vm_compute in Hc;
        try discriminate; reflexivity. }
    rewrite Hmatch. now rewrite (drop_underscores_digits _ _ Hs).
Qed.

(** [int(str(z)) == z]. *)
Lemma int_of_str_str z : Py.int_of_str (Py.str z) = Ok z.
Proof.
  destruct z as [|p|p]; [reflexivity | |].
  - change (Py.str (Z.pos p)) with (NilEmpty.string_of_uint (Pos.to_uint p)).
    rewrite (int_of_str_digits false).
    + rewrite NilEmpty.usu. unfold Z.of_uint.
      now rewrite DecimalPos.Unsigned.of_to.
    + apply string_of_uint_digits.
    + apply string_of_uint_nonempty, DecimalPos.Unsigned.to_uint_nonnil.
  - change (Py.str (Z.neg p))
      with (String "-" (NilEmpty.string_of_uint (Pos.to_uint p))).
    rewrite (int_of_str_digits true).
    + rewrite NilEmpty.usu. unfold Z.of_uint.
      now rewrite DecimalPos.Unsigned.of_to.
    + apply string_of_uint_digits.
    + apply string_of_uint_nonempty, DecimalPos.Unsigned.to_uint_nonnil.
Qed.

End IntStrFacts.

(** ** The copies of the decoder agree *)

Lemma embeddings_get_granularity name :
  Embeddings.get_granularity name = Evaluate.get_granularity name.
Proof. reflexivity. Qed.

Lemma embeddings_get_parameter name param :
  Embeddings.get_parameter name param = Evaluate.get_parameter name param.
Proof. reflexivity. Qed.

Lemma embeddings_get_parameters name :
  Embeddings.get_parameters name = Evaluate.get_parameters name.
Proof. reflexivity. Qed.

Lemma multiclass_get_parameter_crop name :
  Evaluate_multiclass.get_parameter name "crop"
  = Evaluate.get_parameter name "crop".
Proof. reflexivity. Qed.

Lemma multiclass_get_parameter_width name :
  Evaluate_multiclass.get_parameter name "width"
  = Evaluate.get_parameter name "width".
Proof. reflexivity. Qed.

Lemma multiclass_get_parameter_depth name :
  Evaluate_multiclass.get_parameter name "depth"
  = Evaluate.get_parameter name "depth".
Proof. reflexivity. Qed.

(** ** Granularity *)

Lemma get_granularity_cases name :
  (Py.contains "coarse" name = true ->
     Evaluate.get_granularity name = Ok "coarse")
  /\ (Py.contains "coarse" name = false -> Py.contains "fine" name = true ->
        Evaluate.get_granularity name = Ok "fine")
  /\ (Py.contains "coarse" name = false -> Py.contains "fine" name = false ->
        Evaluate.get_granularity name = Err (ValueError "granularity not found")).
Proof.
  unfold Evaluate.get_granularity.
  repeat split; intros; repeat match goal with H : _ = _ |- _ => rewrite H end;
    reflexivity.
Qed.

(** C8: for every filename, [get_granularity] (the same function in
    evaluate.py and embeddings.py) searches for the substrings in turn:
    it returns "coarse" when "coarse" occurs; otherwise "fine" when
    "fine" occurs; and raises ValueError("granularity not found") when
    neither occurs. *)
Theorem C8_get_granularity_precedence (name : string) :
  (Py.contains "coarse" name = true ->
     Evaluate.get_granularity name = Ok "coarse"
     /\ Embeddings.get_granularity name = Ok "coarse")
  /\ (Py.contains "coarse" name = false -> Py.contains "fine" name = true ->
        Evaluate.get_granularity name = Ok "fine"
        /\ Embeddings.get_granularity name = Ok "fine")
  /\ (Py.contains "coarse" name = false -> Py.contains "fine" name = false ->
        Evaluate.get_granularity name = Err (ValueError "granularity not found")
        /\ Embeddings.get_granularity name
           = Err (ValueError "granularity not found")).
Proof.
  destruct (get_granularity_cases name) as (Hc & Hf & Hn).
  change (Embeddings.get_granularity name)
    with (Evaluate.get_granularity name).
  repeat split; auto.
Qed.

Lemma C8_get_granularity_precedence_witness :
  Evaluate.get_granularity "model_coarse_finetuned" = Ok "coarse"
  /\ Evaluate.get_granularity "model_fine_fish" = Ok "fine"
  /\ Evaluate.get_granularity "model_fish"
     = Err (ValueError "granularity not found").
Proof.
  split; [|split].
  - apply (C8_get_granularity_precedence "model_coarse_finetuned").
    reflexivity.
  - apply (C8_get_granularity_precedence "model_fine_fish"); reflexivity.
  - apply (C8_get_granularity_precedence "model_fish"); reflexivity.
Defined.

(** ** The sample filename of the specification *)

(** C9, amended: on "model_class7_crop32_kernel8_width4_depth16.pt" the
    five calls of [get_parameter] yield class 7, crop 32, kernel 8, width 4
    and depth 16, but [get_parameters] raises
    ValueError("granularity not found"), the name having neither "coarse"
    nor "fine"; with a granularity token added, [get_parameters] yields the
    record (granularity, 7, 32, 8, 4, 16). *)
Theorem C9_sample_filename :
  let name := "model_class7_crop32_kernel8_width4_depth16.pt" in
  Evaluate.get_parameter name "class" = Ok (VInt 7)
  /\ Evaluate.get_parameter name "crop" = Ok (VInt 32)
  /\ Evaluate.get_parameter name "kernel" = Ok (VInt 8)
  /\ Evaluate.get_parameter name "width" = Ok (VInt 4)
  /\ Evaluate.get_parameter name "depth" = Ok (VInt 16)
  /\ Evaluate.get_parameters name = Err (ValueError "granularity not found")
  /\ Evaluate.get_parameters "model_coarse_class7_crop32_kernel8_width4_depth16.pt"
     = Ok ("coarse", 7, 32, 8, 4, 16)
  /\ Evaluate.get_parameters "model_fine_class7_crop32_kernel8_width4_depth16.pt"
     = Ok ("fine", 7, 32, 8, 4, 16).
Proof. vm_compute. repeat split; reflexivity. Qed.

(** C9 as stated fails: the decoder returns no record for the sample
    filename. *)
Lemma C9_counterexample_no_granularity :
  ~ (exists granularity,
       Evaluate.get_parameters "model_class7_crop32_kernel8_width4_depth16.pt"
       = Ok (granularity, 7, 32, 8, 4, 16)).
Proof. intros [g Hg]. vm_compute in Hg. discriminate. Qed.

(** ** The two placeholder substitutions *)

(** C3: the two [superclass_to_idx] differ.  On a name with the token
    "all" between underscores, evaluate.py returns a pair whose first item
    has the token removed while embeddings.py returns one string with the
    token replaced by "class-1"; on a name holding "small_mammals" the test
    for "all_" of evaluate.py fires (inside "small_") while the test for
    "_all_" of embeddings.py does not. *)
Theorem C3_superclass_to_idx_diverge :
  (exists filename,
     Evaluate.superclass_to_idx filename
     <> as_value (Embeddings.superclass_to_idx filename))
  /\ (let filename := "coarse_all_crop32_kernel8_width4_depth16" in
      Py.contains "all_" filename = true
      /\ Py.contains "_all_" filename = true
      /\ Evaluate.superclass_to_idx filename
         = Ok (VTuple [VStr "coarse_crop32_kernel8_width4_depth16"; VNone])
      /\ Embeddings.superclass_to_idx filename
         = Ok "coarse_class-1_crop32_kernel8_width4_depth16")
  /\ (let filename := "fine_small_mammals_crop32_kernel8_width4_depth16" in
      Py.contains "all_" filename = true
      /\ Py.contains "_all_" filename = false
      /\ Evaluate.superclass_to_idx filename
         = Ok (VTuple [VStr "fine_smmammals_crop32_kernel8_width4_depth16";
                       VNone])
      /\ Embeddings.superclass_to_idx filename
         = Ok "fine_class16_crop32_kernel8_width4_depth16").
Proof.
  split; [|split].
  - exists "coarse_all_crop32_kernel8_width4_depth16".
    vm_compute. discriminate.
  - vm_compute. repeat split; reflexivity.
  - vm_compute. repeat split; reflexivity.
Qed.

(** ** The label hierarchy *)

Section LabelHierarchy.
Import Cifar_utils.

(** [dict(enumerate(l))] looked up at [i] is [l[i]] for a position of
    [l], and has no entry elsewhere. *)
Lemma lookup_enumerate_from (l : list Z) (start i : Z) :
  (list_to_map (enumerate_from start l) : gmap Z Z) !! i
  = if decide (start <= i < start + Z.of_nat (length l))
    then l !! Z.to_nat (i - start) else None.
Proof.
  revert start. induction l as [|x l IH]; intros start.
  - simpl. rewrite lookup_empty. now destruct (decide _).
  - cbn [enumerate_from]. rewrite list_to_map_cons, lookup_insert.
    destruct (decide (start = i)) as [->|Hne].
    + rewrite Z.sub_diag. simpl length.
      destruct (decide _) as [_|Hn]; [reflexivity | lia].
    + rewrite IH. simpl length.
      destruct (decide (start + 1 <= i < start + 1 + Z.of_nat (length l)))
        as [Hin|Hout];
        destruct (decide (start <= i < start + Z.of_nat (S (length l))))
        as [Hin'|Hout']; try lia; [|reflexivity].
      replace (Z.to_nat (i - start)) with (S (Z.to_nat (i - (start + 1))))
        by lia.
      reflexivity.
Qed.

Lemma fine_to_coarse_idxs_lookup (i : Z) :
  fine_to_coarse_idxs !! i
  = if decide (0 <= i < 100) then fine_idx_to_coarse !! Z.to_nat i else None.
Proof.
  unfold fine_to_coarse_idxs, enumerate.
  rewrite lookup_enumerate_from, Z.sub_0_r. reflexivity.
Qed.

Lemma fine_idx_to_coarse_range :
  Forall (fun c => 0 <= c <= 19) fine_idx_to_coarse.
Proof. unfold fine_idx_to_coarse. repeat constructor; lia. Qed.

Lemma dict_get_in_range (i : Z) :
  0 <= i <= 99 ->
  exists c, dict_get fine_to_coarse_idxs i = VInt c /\ 0 <= c <= 19
            /\ fine_idx_to_coarse !! Z.to_nat i = Some c.
Proof.
  intros Hi. unfold dict_get. rewrite fine_to_coarse_idxs_lookup.
  destruct (decide _) as [_|Hn]; [|lia].
  destruct (fine_idx_to_coarse !! Z.to_nat i) as [c|] eqn:Hc.
  - exists c. repeat split; try reflexivity;
      apply (Forall_lookup_1 _ _ _ _ fine_idx_to_coarse_range Hc).
  - apply lookup_ge_None in Hc. simpl in Hc. lia.
Qed.

Lemma dict_get_out_of_range (i : Z) :
  i < 0 \/ 99 < i -> dict_get fine_to_coarse_idxs i = VNone.
Proof.
  intros Hi. unfold dict_get. rewrite fine_to_coarse_idxs_lookup.
  destruct (decide _) as [Hn|_]; [lia | reflexivity].
Qed.

(** C6, amended: the lookup used to remap targets,
    [fine_to_coarse_idxs.get], returns a coarse index in 0..19 for every
    fine index in 0..99, and for every integer outside 0..99 it returns
    [None]; it raises nothing. *)
Theorem C6_fine_to_coarse_get (i : Z) :
  (0 <= i <= 99 ->
     exists c, dict_get fine_to_coarse_idxs i = VInt c /\ 0 <= c <= 19)
  /\ (i < 0 \/ 99 < i -> dict_get fine_to_coarse_idxs i = VNone).
Proof.
  split.
  - intros Hi. destruct (dict_get_in_range i Hi) as (c & Hc & Hr & _).
    eauto.
  - apply dict_get_out_of_range.
Qed.

Lemma C6_fine_to_coarse_get_witness :
  (exists c, dict_get fine_to_coarse_idxs 42 = VInt c /\ 0 <= c <= 19)
  /\ dict_get fine_to_coarse_idxs (-1) = VNone
  /\ dict_get fine_to_coarse_idxs 100 = VNone.
Proof.
  split; [|split].
  - apply (C6_fine_to_coarse_get 42). lia.
  - apply (C6_fine_to_coarse_get (-1)). lia.
  - apply (C6_fine_to_coarse_get 100). lia.
Defined.

(** C6 as stated fails: at -1 and at 100 the lookup returns the value
    [None], and remapping the targets [-1, 100] goes through, giving
    [None, None]. *)
Lemma C6_counterexample_returns_none :
  dict_get fine_to_coarse_idxs (-1) = VNone
  /\ dict_get fine_to_coarse_idxs 100 = VNone
  /\ Embeddings.remap_targets [-1; 100] = [VNone; VNone].
Proof. vm_compute. repeat split; reflexivity. Qed.

(** *** Remapping the whole range of fine indices *)

Lemma group_size_Permutation c (l l' : list value) :
  Permutation l l' -> group_size c l = group_size c l'.
Proof.
  unfold group_size.
  induction 1 as [|x l l' _ IH|x y l|l l' l'' _ IH1 _ IH2]; simpl.
  - reflexivity.
  - destruct (is_coarse c x); simpl; now rewrite IH.
  - destruct (is_coarse c x), (is_coarse c y); reflexivity.
  - now rewrite IH1.
Qed.

Lemma group_size_map_VInt c (l : list Z) :
  group_size c (map VInt l) = length (List.filter (fun z => z =? c) l).
Proof.
  unfold group_size. induction l as [|z l IH]; [reflexivity |].
  simpl. destruct (z =? c); simpl; now rewrite IH.
Qed.

Lemma remap_full_range :
  Embeddings.remap_targets (seqZ 0 100) = map VInt fine_idx_to_coarse.
Proof. vm_compute. reflexivity. Qed.

Lemma fine_count_in_range c : 0 <= c <= 19 -> fine_count c = 5%nat.
Proof.
  intros Hc.
  assert (Hall : forallb (fun c => Nat.eqb (fine_count c) 5) (seqZ 0 20)
                 = true) by (vm_compute; reflexivity).
  apply Nat.eqb_eq.
  apply (proj1 (forallb_forall _ _) Hall).
  apply list_elem_of_In, elem_of_seqZ. lia.
Qed.

Lemma filter_eqb_out_of_range c (l : list Z) :
  Forall (fun z => 0 <= z <= 19) l -> ~ 0 <= c <= 19 ->
  List.filter (fun z => z =? c) l = [].
Proof.
  intros Hl Hc. induction Hl as [|z l Hz _ IH]; [reflexivity |].
  simpl. destruct (Z.eqb_spec z c); [lia | exact IH].
Qed.

Lemma fine_count_out_of_range c : ~ 0 <= c <= 19 -> fine_count c = 0%nat.
Proof.
  intros Hc. unfold fine_count.
  now rewrite (filter_eqb_out_of_range c _ fine_idx_to_coarse_range Hc).
Qed.

(** C7: the remapping of the targets done by both loaders,
    [remap_targets], is [fine_to_coarse_idxs.get] applied elementwise and
    keeps the length; on any sequence holding each fine index 0..99
    exactly once, every result is a coarse index in 0..19, the results
    with coarse index [c] are as many as the fine indices the table sends
    to [c], exactly the 20 coarse indices 0..19 have a non-empty group,
    and the 20 group sizes add up to 100. *)
Theorem C7_remap_targets_groups (targets : list Z) :
  Embeddings.get_test_dataloader true targets
  = Embeddings.remap_targets targets
  /\ Embeddings.get_validation_dataloader true targets
     = Embeddings.remap_targets targets
  /\ Embeddings.remap_targets targets
     = map (dict_get fine_to_coarse_idxs) targets
  /\ length (Embeddings.remap_targets targets) = length targets
  /\ (Permutation targets (seqZ 0 100) ->
      Forall (fun v => exists c, v = VInt c /\ 0 <= c <= 19)
        (Embeddings.remap_targets targets)
      /\ (forall c, group_size c (Embeddings.remap_targets targets)
                    = fine_count c)
      /\ (forall c, (0 < group_size c (Embeddings.remap_targets targets))%nat
                    <-> 0 <= c <= 19)
      /\ sum_list (map (fun c => group_size c (Embeddings.remap_targets targets))
                     (seqZ 0 20)) = 100%nat).
Proof.
  do 3 (split; [reflexivity |]). split; [apply length_map |].
  intros Hperm.
  assert (Hremap : Permutation (Embeddings.remap_targets targets)
                     (map VInt fine_idx_to_coarse)).
  { rewrite <- remap_full_range. unfold Embeddings.remap_targets.
    now apply Permutation_map. }
  assert (Hsize : forall c, group_size c (Embeddings.remap_targets targets)
                            = fine_count c).
  { intros c. rewrite (group_size_Permutation c _ _ Hremap).
    apply group_size_map_VInt. }
  split; [|split; [exact Hsize | split]].
  - apply (Permutation_Forall (Permutation_sym Hremap)).
    apply Forall_forall. intros v [c [<- Hc]]%list_elem_of_In%in_map_iff.
    exists c. split; [reflexivity |].
    apply (proj1 (Forall_forall _ _) fine_idx_to_coarse_range).
    now apply list_elem_of_In.
  - intros c. rewrite Hsize. split.
    + intros Hpos. destruct (decide (0 <= c <= 19)) as [Hc|Hc]; [exact Hc |].
      rewrite (fine_count_out_of_range c Hc) in Hpos. lia.
    + intros Hc. rewrite (fine_count_in_range c Hc). lia.
  - erewrite map_ext; [|intros c; apply Hsize].
    vm_compute. reflexivity.
Qed.

Lemma C7_remap_targets_groups_witness :
  Forall (fun v => exists c, v = VInt c /\ 0 <= c <= 19)
    (Embeddings.remap_targets (seqZ 0 100))
  /\ group_size 7 (Embeddings.remap_targets (seqZ 0 100)) = fine_count 7.
Proof.
  destruct (C7_remap_targets_groups (seqZ 0 100)) as (_ & _ & _ & _ & H).
  destruct (H (Permutation_refl _)) as (Hall & Hsize & _).
  split; [exact Hall | apply Hsize].
Defined.

End LabelHierarchy.

(** ** What [get_parameter] returns *)

Lemma get_parameter_loop_value param extension elements v :
  Evaluate.get_parameter_loop param extension elements = Ok v ->
  v = VNone \/ exists n, v = VInt n.
Proof.
  induction elements as [|element rest IH]; cbn [Evaluate.get_parameter_loop].
  - intros [= <-]. now left.
  - destruct (Py.contains param element); [|exact IH].
    destruct (Py.int _) as [n|e]; cbn [bind]; [|discriminate].
    intros [= <-]. right. now exists n.
Qed.

Lemma get_parameter_value name param v :
  Evaluate.get_parameter name param = Ok v ->
  v = VNone \/ exists n, v = VInt n.
Proof.
  unfold Evaluate.get_parameter.
  destruct (Py.last_item _) as [ext|e]; simpl; [|discriminate].
  destruct (negb _); [discriminate |].
  apply get_parameter_loop_value.
Qed.

(** [int(get_parameter(name, param))] succeeds exactly when
    [get_parameter] returned an integer. *)
Lemma int_get_parameter name param n :
  bind (Evaluate.get_parameter name param) Py.int = Ok n <->
  Evaluate.get_parameter name param = Ok (VInt n).
Proof.
  split.
  - destruct (Evaluate.get_parameter name param) as [v|e] eqn:Hv; simpl;
      [|discriminate].
    destruct (get_parameter_value _ _ _ Hv) as [->|[m ->]]; simpl;
      [discriminate | now intros [= ->]].
  - now intros ->.
Qed.

Lemma get_parameters_inv name g cls crop kernel w d :
  Evaluate.get_parameters name = Ok (g, cls, crop, kernel, w, d) ->
  Evaluate.get_granularity name = Ok g
  /\ Evaluate.get_parameter name "class" = Ok (VInt cls)
  /\ Evaluate.get_parameter name "crop" = Ok (VInt crop)
  /\ Evaluate.get_parameter name "kernel" = Ok (VInt kernel)
  /\ Evaluate.get_parameter name "width" = Ok (VInt w)
  /\ Evaluate.get_parameter name "depth" = Ok (VInt d).
Proof.
  unfold Evaluate.get_parameters.
  destruct (Evaluate.get_granularity name) as [g'|]; simpl; [|discriminate].
  destruct (bind (Evaluate.get_parameter name "class") Py.int)
    as [cls'|] eqn:H1; simpl; [|discriminate].
  destruct (bind (Evaluate.get_parameter name "crop") Py.int)
    as [crop'|] eqn:H2; simpl; [|discriminate].
  destruct (bind (Evaluate.get_parameter name "kernel") Py.int)
    as [kernel'|] eqn:H3; simpl; [|discriminate].
  destruct (bind (Evaluate.get_parameter name "width") Py.int)
    as [w'|] eqn:H4; simpl; [|discriminate].
  destruct (bind (Evaluate.get_parameter name "depth") Py.int)
    as [d'|] eqn:H5; simpl; [|discriminate].
  intros [= -> -> -> -> -> ->].
  apply int_get_parameter in H1, H2, H3, H4, H5. auto 10.
Qed.

(** ** The decoder of evaluate_multiclass.py *)

(** Below 2^53 an integer is a double. *)
Lemma round_double_exact (a : Z) :
  Z.abs a < 2 ^ 53 -> Evaluate_multiclass.round_double a = a.
Proof.
  intros Ha. unfold Evaluate_multiclass.round_double.
  destruct (Z.leb_spec (Z.log2 (Z.abs a) + 1) 53) as [_|Hn]; [reflexivity |].
  exfalso. destruct (Z.eq_dec (Z.abs a) 0) as [H0|H0].
  - rewrite H0 in Hn. simpl in Hn. lia.
  - assert (Z.log2 (Z.abs a) < 53); [|lia].
    apply Z.log2_lt_pow2; lia.
Qed.

(** From 2^53 on, the double nearest to an integer is 2^53 or more. *)
Lemma round_double_large (a : Z) :
  2 ^ 53 <= Z.abs a -> 2 ^ 53 <= Z.abs (Evaluate_multiclass.round_double a).
Proof.
  intros Ha. unfold Evaluate_multiclass.round_double.
  set (n := Z.log2 (Z.abs a) + 1).
  assert (53 <= Z.log2 (Z.abs a)) as Hlog by (apply Z.log2_le_pow2; lia).
  destruct (Z.leb_spec n 53) as [Hn|Hn]; [unfold n in Hn; lia |].
  set (shift := n - 53). set (q := Z.shiftr (Z.abs a) shift).
  match goal with
  | |- context [if ?b then q + 1 else q] => set (up := b)
  end.
  assert (0 < shift) as Hs by (unfold shift; lia).
  assert (2 ^ 52 <= q) as Hq.
  { unfold q. rewrite Z.shiftr_div_pow2 by lia.
    destruct (Z.log2_spec (Z.abs a) ltac:(lia)) as [Hlo _].
    replace (Z.log2 (Z.abs a)) with (52 + shift) in Hlo
      by (unfold shift, n; lia).
    rewrite Z.pow_add_r in Hlo by lia.
    apply Z.div_le_lower_bound; [apply Z.pow_pos_nonneg; lia | lia]. }
  assert (2 ^ 52 <= (if up then q + 1 else q)) as Hq' by (destruct up; lia).
  rewrite Z.abs_mul, Z.shiftl_mul_pow2 by lia.
  assert (Z.abs (Z.sgn a) = 1) as -> by lia.
  assert (2 <= 2 ^ shift) as Hp.
  { change 2 with (2 ^ 1) at 1. apply Z.pow_le_mono_r; lia. }
  rewrite Z.abs_eq by nia. nia.
Qed.

Lemma int_truediv_4_exact (a : Z) :
  Z.abs a < 2 ^ 53 -> Evaluate_multiclass.int_truediv_4 a = Ok (Z.quot a 4).
Proof.
  intros Ha. unfold Evaluate_multiclass.int_truediv_4.
  rewrite (round_double_exact a Ha).
  destruct (Z.leb_spec (2 ^ 1026) (Z.abs a)) as [Hbig|_]; [|reflexivity].
  exfalso. assert (2 ^ 53 <= 2 ^ 1026) by (apply Z.pow_le_mono_r; lia). lia.
Qed.

(** What [get_parameters] of evaluate_multiclass.py returns, from the
    three tokens it reads. *)
Lemma multiclass_get_parameters_inv name crop k w d :
  Evaluate_multiclass.get_parameters name = Ok (crop, k, w, d) ->
  Evaluate_multiclass.get_parameter name "crop" = Ok (VInt crop)
  /\ Evaluate_multiclass.int_truediv_4 crop = Ok k
  /\ Evaluate_multiclass.get_parameter name "width" = Ok (VInt w)
  /\ Evaluate_multiclass.get_parameter name "depth" = Ok (VInt d).
Proof.
  unfold Evaluate_multiclass.get_parameters.
  rewrite multiclass_get_parameter_crop, multiclass_get_parameter_width,
    multiclass_get_parameter_depth.
  destruct (bind (Evaluate.get_parameter name "crop") Py.int)
    as [crop'|] eqn:H1; cbn [bind]; [|discriminate].
  destruct (Evaluate_multiclass.int_truediv_4 crop') as [k'|] eqn:H2;
    cbn [bind]; [|discriminate].
  destruct (bind (Evaluate.get_parameter name "width") Py.int)
    as [w'|] eqn:H3; cbn [bind]; [|discriminate].
  destruct (bind (Evaluate.get_parameter name "depth") Py.int)
    as [d'|] eqn:H4; cbn [bind]; [|discriminate].
  intros [= -> -> -> ->].
  apply int_get_parameter in H1, H3, H4. auto.
Qed.

Lemma multiclass_get_parameters_of name crop w d :
  Evaluate.get_parameter name "crop" = Ok (VInt crop) ->
  Evaluate.get_parameter name "width" = Ok (VInt w) ->
  Evaluate.get_parameter name "depth" = Ok (VInt d) ->
  Evaluate_multiclass.get_parameters name
  = (let* k := Evaluate_multiclass.int_truediv_4 crop in Ok (crop, k, w, d)).
Proof.
  intros Hc Hw Hd. unfold Evaluate_multiclass.get_parameters.
  rewrite multiclass_get_parameter_crop, multiclass_get_parameter_width,
    multiclass_get_parameter_depth, Hc, Hw, Hd.
  cbn [bind Py.int].
  destruct (Evaluate_multiclass.int_truediv_4 crop); reflexivity.
Qed.

(** C10, amended: in evaluate_multiclass.py the kernel size of every
    decoded record is [int(crop_size / 4)], the floating-point quotient
    truncated, which is the integer quotient of the crop size by 4
    whenever the crop size is below 2^53 in absolute value; the result is
    the same for two filenames whose crop, width and depth tokens decode
    alike, whatever their kernel tokens; on a filename that evaluate.py
    (and embeddings.py, the same function) decodes, those decoders return
    the value of the kernel token, evaluate_multiclass.py returns
    [int(crop_size / 4)], and for a crop size below 2^53 the two kernel
    sizes differ whenever the token's value is not crop/4. *)
Theorem C10_multiclass_kernel_is_quarter_crop (name : string) :
  (forall crop k w d,
     Evaluate_multiclass.get_parameters name = Ok (crop, k, w, d) ->
     Evaluate_multiclass.int_truediv_4 crop = Ok k
     /\ (Z.abs crop < 2 ^ 53 -> k = Z.quot crop 4))
  /\ (forall name',
        Evaluate_multiclass.get_parameter name' "crop"
        = Evaluate_multiclass.get_parameter name "crop" ->
        Evaluate_multiclass.get_parameter name' "width"
        = Evaluate_multiclass.get_parameter name "width" ->
        Evaluate_multiclass.get_parameter name' "depth"
        = Evaluate_multiclass.get_parameter name "depth" ->
        Evaluate_multiclass.get_parameters name'
        = Evaluate_multiclass.get_parameters name)
  /\ (forall g cls crop kernel w d,
        Evaluate.get_parameters name = Ok (g, cls, crop, kernel, w, d) ->
        Embeddings.get_parameters name = Ok (g, cls, crop, kernel, w, d)
        /\ Evaluate.get_parameter name "kernel" = Ok (VInt kernel)
        /\ Evaluate_multiclass.get_parameters name
           = (let* k := Evaluate_multiclass.int_truediv_4 crop in
              Ok (crop, k, w, d))
        /\ (Z.abs crop < 2 ^ 53 ->
            Evaluate_multiclass.get_parameters name
            = Ok (crop, Z.quot crop 4, w, d)
            /\ (kernel <> Z.quot crop 4 ->
                Evaluate_multiclass.get_parameters name
                <> Ok (crop, kernel, w, d)))).
Proof.
  split; [|split].
  - intros crop k w d (_ & Hk & _)%multiclass_get_parameters_inv.
    split; [exact Hk |]. intros Hsmall.
    rewrite (int_truediv_4_exact crop Hsmall) in Hk. now injection Hk.
  - intros name' Hc Hw Hd. unfold Evaluate_multiclass.get_parameters.
    now rewrite Hc, Hw, Hd.
  - intros g cls crop kernel w d Hdec.
    pose proof (get_parameters_inv _ _ _ _ _ _ _ Hdec)
      as (_ & _ & Hc & Hk & Hw & Hd).
    pose proof (multiclass_get_parameters_of name crop w d Hc Hw Hd) as Hm.
    split; [exact Hdec |]. split; [exact Hk |]. split; [exact Hm |].
    intros Hsmall. rewrite Hm, (int_truediv_4_exact crop Hsmall). cbn [bind].
    split; [reflexivity |].
    intros Hne [= Heq]. now apply Hne.
Qed.

Lemma C10_multiclass_kernel_is_quarter_crop_witness :
  Evaluate.get_parameters "coarse_class7_crop32_kernel3_width4_depth16"
  = Ok ("coarse", 7, 32, 3, 4, 16)
  /\ Evaluate_multiclass.get_parameters
       "coarse_class7_crop32_kernel3_width4_depth16"
     = Ok (32, 8, 4, 16).
Proof.
  split; [vm_compute; reflexivity |].
  destruct (C10_multiclass_kernel_is_quarter_crop
              "coarse_class7_crop32_kernel3_width4_depth16") as (_ & _ & H).
  destruct (H "coarse" 7 32 3 4 16) as (_ & _ & _ & Hsmall).
  - vm_compute. reflexivity.
  - apply Hsmall. reflexivity.
Defined.

(** C10 as stated fails: at the crop size 2^54 + 7 the double nearest to
    the quotient is 4503599627370498, which [int] returns, and the
    integer quotient is 4503599627370497. *)
Lemma C10_counterexample_float_quotient :
  Evaluate_multiclass.get_parameters "crop18014398509481991_width4_depth16"
  = Ok (18014398509481991, 4503599627370498, 4, 16)
  /\ Z.quot 18014398509481991 4 = 4503599627370497
  /\ ~ (forall name crop k w d,
          Evaluate_multiclass.get_parameters name = Ok (crop, k, w, d) ->
          k = Z.quot crop 4).
Proof.
  assert (Evaluate_multiclass.get_parameters
            "crop18014398509481991_width4_depth16"
          = Ok (18014398509481991, 4503599627370498, 4, 16)) as Hdec
    by (vm_compute; reflexivity).
  split; [exact Hdec |]. split; [reflexivity |].
  intros H. specialize (H _ _ _ _ _ Hdec). discriminate H.
Qed.

(** ** A missing parameter token *)

Lemma split_not_nil sep s : Py.split sep s <> [].
Proof.
  destruct s as [|c s]; simpl; [discriminate |].
  destruct (Ascii.eqb c sep); [discriminate |].
  destruct (Py.split sep s); discriminate.
Qed.

Lemma last_item_split sep s : exists ext, Py.last_item (Py.split sep s) = Ok ext.
Proof.
  unfold Py.last_item.
  destruct (rev (Py.split sep s)) as [|x l] eqn:Hrev; [|now exists x].
  apply (f_equal (@rev string)) in Hrev. rewrite rev_involutive in Hrev.
  now apply split_not_nil in Hrev.
Qed.

Lemma get_parameter_loop_miss param extension elements :
  (forall tok, In tok elements -> Py.contains param tok = false) ->
  Evaluate.get_parameter_loop param extension elements = Ok VNone.
Proof.
  induction elements as [|element rest IH]; intros Hmiss; [reflexivity |].
  cbn [Evaluate.get_parameter_loop].
  rewrite (Hmiss element) by now left.
  apply IH. intros tok Htok. apply Hmiss. now right.
Qed.

Lemma get_parameter_miss name param :
  In param ["class"; "crop"; "kernel"; "width"; "depth"] ->
  (forall tok, In tok (Py.split "_" name) -> Py.contains param tok = false) ->
  Evaluate.get_parameter name param = Ok VNone.
Proof.
  intros Hparam Hmiss. unfold Evaluate.get_parameter.
  destruct (last_item_split "." name) as [ext ->]. cbn [bind].
  assert (negb (existsb (String.eqb param)
                  ["class"; "crop"; "kernel"; "width"; "depth"]) = false)
    as ->.
  { simpl in Hparam.
    destruct Hparam as [<-|[<-|[<-|[<-|[<-|[]]]]]]; reflexivity. }
  now apply get_parameter_loop_miss.
Qed.

Ltac decode_stage :=
  match goal with
  | |- context [bind (Evaluate.get_granularity ?n) _] =>
      destruct (Evaluate.get_granularity n); cbn [bind];
      [|eexists; reflexivity]
  | |- context [bind (bind (Evaluate.get_parameter ?n ?p) Py.int) _] =>
      destruct (bind (Evaluate.get_parameter n p) Py.int); cbn [bind];
      [|eexists; reflexivity]
  end.

Lemma get_parameters_miss name param :
  In param ["class"; "crop"; "kernel"; "width"; "depth"] ->
  Evaluate.get_parameter name param = Ok VNone ->
  exists e, Evaluate.get_parameters name = Err e.
Proof.
  intros Hparam Hnone. unfold Evaluate.get_parameters. simpl in Hparam.
  destruct Hparam as [<-|[<-|[<-|[<-|[<-|[]]]]]]; rewrite Hnone;
    repeat decode_stage; cbn [bind Py.int]; eexists; reflexivity.
Qed.

Lemma get_parameters_miss_only name param g :
  In param ["class"; "crop"; "kernel"; "width"; "depth"] ->
  Evaluate.get_parameter name param = Ok VNone ->
  Evaluate.get_granularity name = Ok g ->
  (forall q, In q ["class"; "crop"; "kernel"; "width"; "depth"] ->
             q <> param -> exists n, Evaluate.get_parameter name q = Ok (VInt n)) ->
  Evaluate.get_parameters name = Err Py.none_type_error.
Proof.
  intros Hparam Hnone Hg Hothers. unfold Evaluate.get_parameters.
  rewrite Hg. cbn [bind].
  assert (Hq : forall q, In q ["class"; "crop"; "kernel"; "width"; "depth"] ->
                 q = param \/ exists n, Evaluate.get_parameter name q = Ok (VInt n)).
  { intros q Hin. destruct (String.eqb_spec q param) as [->|Hne];
      [now left | right; now apply Hothers]. }
  destruct (Hq "class") as [<-|[n1 H1]]; [simpl; auto | now rewrite Hnone |].
  rewrite H1. cbn [bind Py.int].
  destruct (Hq "crop") as [<-|[n2 H2]]; [simpl; auto | now rewrite Hnone |].
  rewrite H2. cbn [bind Py.int].
  destruct (Hq "kernel") as [<-|[n3 H3]]; [simpl; auto | now rewrite Hnone |].
  rewrite H3. cbn [bind Py.int].
  destruct (Hq "width") as [<-|[n4 H4]]; [simpl; auto 6 | now rewrite Hnone |].
  rewrite H4. cbn [bind Py.int].
  destruct (Hq "depth") as [<-|[n5 H5]]; [simpl; auto 6 | now rewrite Hnone |].
  exfalso. simpl in Hparam.
  destruct Hparam as [<-|[<-|[<-|[<-|[<-|[]]]]]]; congruence.
Qed.

(** C4, amended: for every filename in which no underscore-delimited token
    contains a required parameter name ("class", "crop", "kernel", "width"
    or "depth"), [get_parameter] returns [None] for that name and
    [get_parameters] (the same function in evaluate.py and embeddings.py)
    fails; when the granularity and the other four parameters decode, the
    failure is the TypeError of [int(None)], which does not name the
    token. *)
Theorem C4_missing_parameter (name param : string) :
  In param ["class"; "crop"; "kernel"; "width"; "depth"] ->
  (forall tok, In tok (Py.split "_" name) -> Py.contains param tok = false) ->
  Evaluate.get_parameter name param = Ok VNone
  /\ Embeddings.get_parameter name param = Ok VNone
  /\ (exists e, Evaluate.get_parameters name = Err e
                /\ Embeddings.get_parameters name = Err e)
  /\ (forall g,
        Evaluate.get_granularity name = Ok g ->
        (forall q, In q ["class"; "crop"; "kernel"; "width"; "depth"] ->
                   q <> param ->
                   exists n, Evaluate.get_parameter name q = Ok (VInt n)) ->
        Evaluate.get_parameters name = Err Py.none_type_error
        /\ Embeddings.get_parameters name = Err Py.none_type_error).
Proof.
  intros Hparam Hmiss.
  pose proof (get_parameter_miss name param Hparam Hmiss) as Hnone.
  split; [exact Hnone |]. split; [exact Hnone |]. split.
  - destruct (get_parameters_miss name param Hparam Hnone) as [e He].
    exists e. split; exact He.
  - intros g Hg Hothers.
    pose proof (get_parameters_miss_only name param g Hparam Hnone Hg Hothers)
      as Herr.
    split; exact Herr.
Qed.

Lemma C4_missing_parameter_witness :
  Evaluate.get_parameter "coarse_class7_kernel8_width4_depth16" "crop" = Ok VNone
  /\ exists e, Evaluate.get_parameters "coarse_class7_kernel8_width4_depth16"
               = Err e
               /\ Embeddings.get_parameters "coarse_class7_kernel8_width4_depth16"
                  = Err e.
Proof.
  assert (Hin : In "crop" ["class"; "crop"; "kernel"; "width"; "depth"])
    by (simpl; auto).
  assert (Hmiss : forall tok,
            In tok (Py.split "_" "coarse_class7_kernel8_width4_depth16") ->
            Py.contains "crop" tok = false).
  { intros tok Htok. vm_compute in Htok.
    destruct Htok as [<-|[<-|[<-|[<-|[<-|[]]]]]]; reflexivity. }
  destruct (C4_missing_parameter "coarse_class7_kernel8_width4_depth16" "crop"
              Hin Hmiss) as (Hnone & _ & Herr & _).
  split; [exact Hnone | exact Herr].
Defined.

(** C4 as stated fails: with no token for "crop", [get_parameter] returns
    [None] and raises nothing; and [get_parameters] raises one and the same
    TypeError whether "crop" or "kernel" is the missing token, so the error
    does not name it. *)
Lemma C4_counterexample_returns_none :
  ~ (forall name param : string,
       In param ["class"; "crop"; "kernel"; "width"; "depth"] ->
       (forall tok, In tok (Py.split "_" name) -> Py.contains param tok = false) ->
       exists e, Evaluate.get_parameter name param = Err e)
  /\ Evaluate.get_parameters "coarse_class7_kernel8_width4_depth16"
     = Err Py.none_type_error
  /\ Evaluate.get_parameters "coarse_class7_crop32_width4_depth16"
     = Err Py.none_type_error.
Proof.
  split; [|vm_compute; split; reflexivity].
  intros H.
  destruct (H "coarse_class7_kernel8_width4_depth16" "crop") as [e He].
  - simpl. auto.
  - intros tok Htok. vm_compute in Htok.
    destruct Htok as [<-|[<-|[<-|[<-|[<-|[]]]]]]; reflexivity.
  - vm_compute in He. discriminate.
Qed.

(** ** Looking up the superclass name *)

Section FirstMatch.
Import Cifar_utils.

(** [next(compress(keys, [f(k) for k in keys]))] is the first key that
    satisfies [f]. *)
Lemma next_compress_find {A : Type} (f : A -> bool) (keys : list A) :
  Py.next (Py.compress keys (map f keys))
  = match List.find f keys with
    | Some k => Ok k
    | None => Err StopIteration
    end.
Proof.
  induction keys as [|k keys IH]; [reflexivity |].
  simpl. destruct (f k); [reflexivity | exact IH].
Qed.

Lemma find_none {A : Type} (f : A -> bool) (l : list A) :
  (forall k, In k l -> f k = false) -> List.find f l = None.
Proof.
  induction l as [|x l IH]; intros Hl; [reflexivity |].
  simpl. rewrite (Hl x) by now left.
  apply IH. intros k Hk. apply Hl. now right.
Qed.

Lemma find_first {A : Type} (f : A -> bool) (pre : list A) k post :
  f k = true -> (forall k', In k' pre -> f k' = false) ->
  List.find f (pre ++ k :: post) = Some k.
Proof.
  intros Hk. induction pre as [|x pre IH]; intros Hpre; simpl.
  - now rewrite Hk.
  - rewrite (Hpre x) by now left.
    apply IH. intros k' Hk'. apply Hpre. now right.
Qed.

Lemma dict_getitem_first (pre : list (string * Z)) k idx post :
  ~ In k (dict_keys pre) ->
  dict_getitem (pre ++ (k, idx) :: post) k = Ok idx.
Proof.
  induction pre as [|[k' v] pre IH]; intros Hnotin; simpl.
  - now rewrite String.eqb_refl.
  - destruct (String.eqb_spec k' k) as [->|_].
    + exfalso. apply Hnotin. now left.
    + apply IH. intros Hin. apply Hnotin. now right.
Qed.

Lemma scan_superclass_none {B : Type} d filename (k : string -> Z -> result B) :
  (forall key, In key (dict_keys d) -> Py.contains key filename = false) ->
  scan_superclass d filename k = Err StopIteration.
Proof.
  intros Hnone. unfold scan_superclass.
  rewrite next_compress_find, find_none; [reflexivity | exact Hnone].
Qed.

Lemma scan_superclass_first {B : Type} d filename (k : string -> Z -> result B)
    pre key idx post :
  d = pre ++ (key, idx) :: post ->
  Py.contains key filename = true ->
  (forall key', In key' (dict_keys pre) -> Py.contains key' filename = false) ->
  scan_superclass d filename k = k key idx.
Proof.
  intros -> Hkey Hpre. unfold scan_superclass.
  rewrite next_compress_find. unfold dict_keys at 1.
  rewrite map_app. cbn [map fst].
  rewrite (find_first (fun k => Py.contains k filename)); [|exact Hkey |exact Hpre].
  cbn [bind]. rewrite dict_getitem_first; [reflexivity |].
  intros Hin. apply Hpre in Hin. congruence.
Qed.

Lemma embeddings_superclass_to_idx_scan filename :
  Py.contains "_all_" filename = false ->
  Embeddings.superclass_to_idx filename
  = scan_superclass coarse_class_to_idx filename
      (fun superclass superclass_idx =>
         Ok (Py.replace superclass ("class" +:+ Py.str superclass_idx) filename)).
Proof.
  intros H. unfold Embeddings.superclass_to_idx, scan_superclass.
  rewrite H. reflexivity.
Qed.

Lemma evaluate_superclass_to_idx_scan filename :
  Py.contains "all_" filename = false ->
  Evaluate.superclass_to_idx filename
  = scan_superclass coarse_class_to_idx filename
      (fun superclass superclass_idx =>
         Ok (VStr (Py.replace superclass ("class" +:+ Py.str superclass_idx)
                     filename))).
Proof.
  intros H. unfold Evaluate.superclass_to_idx, scan_superclass.
  rewrite H. reflexivity.
Qed.

(** C5, amended: for every filename without the placeholder ("_all_" in
    embeddings.py, "all_" in evaluate.py), [superclass_to_idx] fails, with
    the StopIteration of [next], when none of the 20 coarse class names
    occurs in it; when one or more occur, it takes the first of them in the
    order of the table and replaces it by "class" followed by its index. *)
Theorem C5_superclass_first_match (filename : string) :
  (Py.contains "_all_" filename = false ->
   ((forall key, In key (dict_keys coarse_class_to_idx) ->
                 Py.contains key filename = false) ->
    Embeddings.superclass_to_idx filename = Err StopIteration)
   /\ (forall pre key idx post,
         coarse_class_to_idx = pre ++ (key, idx) :: post ->
         Py.contains key filename = true ->
         (forall key', In key' (dict_keys pre) ->
                       Py.contains key' filename = false) ->
         Embeddings.superclass_to_idx filename
         = Ok (Py.replace key ("class" +:+ Py.str idx) filename)))
  /\ (Py.contains "all_" filename = false ->
      ((forall key, In key (dict_keys coarse_class_to_idx) ->
                    Py.contains key filename = false) ->
       Evaluate.superclass_to_idx filename = Err StopIteration)
      /\ (forall pre key idx post,
            coarse_class_to_idx = pre ++ (key, idx) :: post ->
            Py.contains key filename = true ->
            (forall key', In key' (dict_keys pre) ->
                          Py.contains key' filename = false) ->
            Evaluate.superclass_to_idx filename
            = Ok (VStr (Py.replace key ("class" +:+ Py.str idx) filename)))).
Proof.
  split; intros Hall; split.
  - intros Hnone. rewrite (embeddings_superclass_to_idx_scan _ Hall).
    now apply scan_superclass_none.
  - intros pre key idx post Hd Hkey Hpre.
    rewrite (embeddings_superclass_to_idx_scan _ Hall).
    now rewrite (scan_superclass_first _ _ _ pre key idx post Hd Hkey Hpre).
  - intros Hnone. rewrite (evaluate_superclass_to_idx_scan _ Hall).
    now apply scan_superclass_none.
  - intros pre key idx post Hd Hkey Hpre.
    rewrite (evaluate_superclass_to_idx_scan _ Hall).
    now rewrite (scan_superclass_first _ _ _ pre key idx post Hd Hkey Hpre).
Qed.

Lemma C5_superclass_first_match_witness :
  Embeddings.superclass_to_idx "coarse_fish_flowers_crop32"
  = Ok "coarse_class1_flowers_crop32"
  /\ Embeddings.superclass_to_idx "coarse_crop32" = Err StopIteration.
Proof.
  split.
  - destruct (C5_superclass_first_match "coarse_fish_flowers_crop32")
      as [Hemb _].
    destruct (Hemb eq_refl) as [_ Hfirst].
    apply (Hfirst [("aquatic_mammals", 0)] "fish" 1
             (skipn 2 coarse_class_to_idx)).
    + reflexivity.
    + reflexivity.
    + intros key' [<-|[]]. reflexivity.
  - destruct (C5_superclass_first_match "coarse_crop32") as [Hemb _].
    destruct (Hemb eq_refl) as [Hnone _].
    apply Hnone. intros key Hkey. vm_compute in Hkey.
    repeat (destruct Hkey as [<-|Hkey]; [reflexivity |]). destruct Hkey.
Defined.

(** C5 as stated fails: "coarse_fish_flowers_crop32" holds no placeholder
    and two coarse class names, "fish" and "flowers"; both
    [superclass_to_idx] return a name, with "fish" replaced, and raise
    nothing. *)
Lemma C5_counterexample_two_names :
  ~ (forall filename : string,
       Py.contains "_all_" filename = false ->
       (exists k1 k2, k1 <> k2
                      /\ In k1 (dict_keys coarse_class_to_idx)
                      /\ In k2 (dict_keys coarse_class_to_idx)
                      /\ Py.contains k1 filename = true
                      /\ Py.contains k2 filename = true) ->
       exists e, Embeddings.superclass_to_idx filename = Err e)
  /\ Py.contains "all_" "coarse_fish_flowers_crop32" = false
  /\ Evaluate.superclass_to_idx "coarse_fish_flowers_crop32"
     = Ok (VStr "coarse_class1_flowers_crop32").
Proof.
  split; [|vm_compute; split; reflexivity].
  intros H. destruct (H "coarse_fish_flowers_crop32") as [e He].
  - reflexivity.
  - exists "fish", "flowers". vm_compute. intuition discriminate.
  - vm_compute in He. discriminate.
Qed.

End FirstMatch.

(** ** The naming convention *)

Example encode_ex1 :
  Codec.encode Codec.Coarse (Codec.Index 7) 32 8 4 16
  = "model_coarse_class7_crop32_kernel8_width4_depth16.pt".
Proof. reflexivity. Qed.
Example encode_ex2 :
  Codec.encode_named Codec.Fine (Codec.Index 1) 32 8 4 16
  = "model_fine_fish_crop32_kernel8_width4_depth16.pt".
Proof. reflexivity. Qed.
Example encode_ex3 :
  Codec.encode Codec.Coarse Codec.All 32 8 4 16
  = "model_coarse_all_crop32_kernel8_width4_depth16.pt".
Proof. reflexivity. Qed.

(** ** Decoding the tokens *)

Section TokenFacts.

Lemma str_sep_free sep z :
  is_num sep = false -> sep_free sep (Py.str z) = true.
Proof.
  intros Hsep. pose proof (str_num z) as [Hnum _]%andb_true_iff.
  apply (string_forall_impl is_num); [|exact Hnum].
  intros c Hc. apply negb_true_iff. destruct (Ascii.eqb_spec c sep); congruence.
Qed.

(** An element that does not hold the parameter name is passed over. *)
Lemma loop_skip param extension element rest :
  Py.contains param element = false ->
  Evaluate.get_parameter_loop param extension (element :: rest)
  = Evaluate.get_parameter_loop param extension rest.
Proof. intros H. cbn [Evaluate.get_parameter_loop]. now rewrite H. Qed.

(** So is the token of another parameter, whatever its value. *)
Lemma loop_skip_token param extension other z tail rest :
  avoids is_num param = true -> nonempty param = true ->
  Py.contains param other = false -> Py.contains param tail = false ->
  Evaluate.get_parameter_loop param extension
    ((other +:+ Py.str z +:+ tail) :: rest)
  = Evaluate.get_parameter_loop param extension rest.
Proof.
  intros Hp Hne Hother Htail. apply loop_skip.
  pose proof (str_num z) as [Hnum Hnz]%andb_true_iff.
  now rewrite (contains_gap is_num _ _ _ _ Hp Hnum Hnz), Hother, Htail.
Qed.

(** The token of the parameter itself yields its value; [tail] is what
    follows the value in the token, removed with the extension. *)
Lemma loop_hit_token param extension z tail rest :
  avoids is_num param = true -> nonempty param = true ->
  head_not is_num extension = true ->
  Py.replace param "" tail = tail ->
  Py.replace extension "" tail = "" ->
  Evaluate.get_parameter_loop param extension
    ((param +:+ Py.str z +:+ tail) :: rest)
  = Ok (VInt z).
Proof.
  intros Hp Hne Hext Htail1 Htail2. cbn [Evaluate.get_parameter_loop].
  rewrite contains_self_app.
  pose proof (str_num z) as [Hnum Hnz]%andb_true_iff.
  rewrite (replace_prefix _ _ _ Hne).
  rewrite (replace_skip_gap is_num _ _ _ _ (avoids_head_not _ _ Hp Hne) Hnum).
  rewrite Htail1. cbn [String.append].
  rewrite (replace_skip_gap is_num _ _ _ _ Hext Hnum), Htail2.
  rewrite append_empty_r. cbn [Py.int]. now rewrite int_of_str_str.
Qed.

End TokenFacts.

Section ConventionNames.
Import Codec.

Lemma interleave_snoc segs gaps last :
  length segs = length gaps -> segs <> [] ->
  interleave (segs ++ [last]) gaps = interleave segs gaps +:+ last.
Proof.
  revert segs. induction gaps as [|gap gaps IH]; intros segs Hlen Hne.
  - destruct segs; [contradiction | discriminate].
  - destruct segs as [|seg segs]; [contradiction |].
    destruct segs as [|seg' segs].
    + destruct gaps; [|discriminate]. simpl. now rewrite append_assoc.
    + change ((seg :: seg' :: segs) ++ [last])
        with (seg :: seg' :: (segs ++ [last])).
      rewrite !interleave_cons.
      change (seg' :: (segs ++ [last])) with ((seg' :: segs) ++ [last]).
      rewrite IH; [|simpl in Hlen |- *; lia | discriminate].
      now rewrite !append_assoc.
Qed.

Lemma loop_skip_token0 param extension other z rest :
  avoids is_num param = true -> nonempty param = true ->
  Py.contains param other = false ->
  Evaluate.get_parameter_loop param extension ((other +:+ Py.str z) :: rest)
  = Evaluate.get_parameter_loop param extension rest.
Proof.
  intros Hp Hne Hother. rewrite <- (append_empty_r (Py.str z)).
  apply loop_skip_token; auto. now destruct param.
Qed.

Lemma loop_hit_token0 param extension z rest :
  avoids is_num param = true -> nonempty param = true ->
  head_not is_num extension = true ->
  Evaluate.get_parameter_loop param extension ((param +:+ Py.str z) :: rest)
  = Ok (VInt z).
Proof.
  intros Hp Hne Hext. rewrite <- (append_empty_r (Py.str z)).
  apply loop_hit_token; auto.
  - now destruct param.
  - now destruct extension.
Qed.

Lemma get_parameter_unfold name param ext toks :
  In param ["class"; "crop"; "kernel"; "width"; "depth"] ->
  Py.last_item (Py.split "." name) = Ok ext ->
  Py.split "_" name = toks ->
  Evaluate.get_parameter name param
  = Evaluate.get_parameter_loop param ("." +:+ ext) toks.
Proof.
  intros Hparam Hext Hsplit. unfold Evaluate.get_parameter.
  rewrite Hext, Hsplit. cbn [bind].
  simpl in Hparam.
  destruct Hparam as [<-|[<-|[<-|[<-|[<-|[]]]]]]; reflexivity.
Qed.

Lemma token_sep_free sep prefix z tail :
  is_num sep = false -> sep_free sep prefix = true -> sep_free sep tail = true ->
  sep_free sep (prefix +:+ Py.str z +:+ tail) = true.
Proof.
  intros Hsep Hp Ht. pose proof (str_sep_free sep z Hsep) as Hz.
  unfold sep_free in *.
  now rewrite !string_forall_app, Hp, Ht, Hz.
Qed.

Lemma token_sep_free0 sep prefix z :
  is_num sep = false -> sep_free sep prefix = true ->
  sep_free sep (prefix +:+ Py.str z) = true.
Proof.
  intros Hsep Hp. rewrite <- (append_empty_r (Py.str z)).
  now apply token_sep_free.
Qed.

Lemma is_num_not c (Q : ascii -> bool) :
  Q "-"%char = true -> (forall d, Py.is_digit d = true -> Q d = true) ->
  is_num c = true -> Q c = true.
Proof.
  intros Hminus Hdigit. unfold is_num.
  intros [Hc|Hc]%orb_true_iff; [now apply Hdigit |].
  apply Ascii.eqb_eq in Hc. now subst.
Qed.

Lemma is_digit_not (a : ascii) c :
  Py.is_digit a = false -> Py.is_digit c = true ->
  negb (Ascii.eqb c a) = true.
Proof.
  intros Ha Hc. apply negb_true_iff.
  destruct (Ascii.eqb_spec c a); congruence.
Qed.

Lemma is_num_not_sep (a : ascii) c :
  is_num a = false -> is_num c = true -> negb (Ascii.eqb c a) = true.
Proof.
  intros Ha Hc. apply negb_true_iff.
  destruct (Ascii.eqb_spec c a); congruence.
Qed.

Ltac loop_steps :=
  repeat first
    [ rewrite loop_hit_token0 by reflexivity
    | rewrite loop_hit_token by reflexivity
    | rewrite loop_skip_token0 by reflexivity
    | rewrite loop_skip by reflexivity ];
  cbn [bind Py.int]; reflexivity.

Lemma granularity_interleave g segs gaps :
  forallb (is_gap is_num) gaps = true -> interleaved segs gaps ->
  existsb (Py.contains (marker g)) segs = true ->
  (g = Fine -> existsb (Py.contains "coarse") segs = false) ->
  Evaluate.get_granularity (interleave segs gaps) = Ok (marker g).
Proof.
  intros Hg Hshape Hin Hfine. unfold Evaluate.get_granularity.
  destruct g; cbn [marker] in *.
  - rewrite (contains_interleave is_num) by (auto; reflexivity).
    now rewrite Hin.
  - rewrite !(contains_interleave is_num) by (auto; reflexivity).
    now rewrite (Hfine eq_refl), Hin.
Qed.

Lemma get_parameters_stripped g cls crop kernel width depth :
  Evaluate.get_parameters (stripped g cls crop kernel width depth)
  = Ok (marker g, cls, crop, kernel, width, depth).
Proof.
  set (name := stripped g cls crop kernel width depth).
  set (gaps := [Py.str cls; Py.str crop; Py.str kernel; Py.str width;
                Py.str depth]).
  assert (Hgaps : forallb (is_gap is_num) gaps = true).
  { subst gaps. cbn [forallb]. now rewrite !str_num. }
  assert (Hname : name
                  = interleave [marker g +:+ "_class"; "_crop"; "_kernel";
                                "_width"; "_depth"] gaps).
  { subst name gaps. unfold stripped. destruct g; reflexivity. }
  assert (Hext : Py.last_item (Py.split "." name) = Ok name).
  { apply last_item_split_sep_free. rewrite Hname.
    apply (string_forall_interleave is_num); [| |exact Hgaps].
    - intros c. now apply is_num_not_sep.
    - destruct g; reflexivity. }
  assert (Hsplit : Py.split "_" name
                   = [marker g; "class" +:+ Py.str cls; "crop" +:+ Py.str crop;
                      "kernel" +:+ Py.str kernel; "width" +:+ Py.str width;
                      "depth" +:+ Py.str depth]).
  { rewrite <- (split_join "_"); [subst name; destruct g; reflexivity | |discriminate].
    cbn [forallb].
    rewrite !token_sep_free0 by reflexivity. now destruct g. }
  assert (Hgran : Evaluate.get_granularity name = Ok (marker g)).
  { rewrite Hname. apply granularity_interleave; auto.
    - left. reflexivity.
    - now destruct g.
    - now intros ->. }
  assert (Hparam : forall param,
            In param ["class"; "crop"; "kernel"; "width"; "depth"] ->
            Evaluate.get_parameter name param
            = Evaluate.get_parameter_loop param ("." +:+ name)
                [marker g; "class" +:+ Py.str cls; "crop" +:+ Py.str crop;
                 "kernel" +:+ Py.str kernel; "width" +:+ Py.str width;
                 "depth" +:+ Py.str depth]).
  { intros param Hin. now apply get_parameter_unfold. }
  unfold Evaluate.get_parameters. rewrite Hgran. cbn [bind].
  rewrite !Hparam by (simpl; auto 6).
  clearbody name. clear Hname Hext Hsplit Hgran Hparam.
  assert (Hg : forall p, In p ["class"; "crop"; "kernel"; "width"; "depth"] ->
                         Py.contains p (marker g) = false).
  { intros p Hp. simpl in Hp.
    destruct g, Hp as [<-|[<-|[<-|[<-|[<-|[]]]]]]; reflexivity. }
  rewrite !(loop_skip _ _ (marker g)) by (apply Hg; simpl; auto 6).
  loop_steps.
Qed.

(** The name of the convention with a "class<idx>" token, as written, is
    decoded by [get_parameters] alone. *)
Lemma get_parameters_encode_index g cls crop kernel width depth :
  Evaluate.get_parameters (encode g (Index cls) crop kernel width depth)
  = Ok (marker g, cls, crop, kernel, width, depth).
Proof.
  set (name := encode g (Index cls) crop kernel width depth).
  set (gaps := [Py.str cls; Py.str crop; Py.str kernel; Py.str width;
                Py.str depth]).
  set (segs := ["model_" +:+ marker g +:+ "_class"; "_crop"; "_kernel";
                "_width"; "_depth"]).
  assert (Hgaps : forallb (is_gap is_num) gaps = true).
  { subst gaps. cbn [forallb]. now rewrite !str_num. }
  assert (Hname : name = interleave (segs ++ [".pt"]) gaps).
  { subst name gaps segs. unfold encode, filename. destruct g; reflexivity. }
  assert (Hext : Py.last_item (Py.split "." name) = Ok "pt").
  { rewrite Hname, interleave_snoc by (subst segs gaps; easy).
    change ".pt" with (String "." "pt").
    rewrite split_app_sep; [reflexivity |].
    apply (string_forall_interleave is_num); [| |exact Hgaps].
    - intros c. now apply is_num_not_sep.
    - subst segs. destruct g; reflexivity. }
  assert (Hsplit : Py.split "_" name
                   = ["model"; marker g; "class" +:+ Py.str cls;
                      "crop" +:+ Py.str crop; "kernel" +:+ Py.str kernel;
                      "width" +:+ Py.str width;
                      "depth" +:+ Py.str depth +:+ ".pt"]).
  { rewrite <- (split_join "_");
      [subst name; unfold encode, filename; destruct g; reflexivity |
      |discriminate].
    cbn [forallb].
    rewrite !token_sep_free0, token_sep_free by reflexivity. now destruct g. }
  assert (Hgran : Evaluate.get_granularity name = Ok (marker g)).
  { rewrite Hname. apply granularity_interleave; auto.
    - right. reflexivity.
    - now destruct g.
    - now intros ->. }
  assert (Hparam : forall param,
            In param ["class"; "crop"; "kernel"; "width"; "depth"] ->
            Evaluate.get_parameter name param
            = Evaluate.get_parameter_loop param ".pt"
                ["model"; marker g; "class" +:+ Py.str cls;
                 "crop" +:+ Py.str crop; "kernel" +:+ Py.str kernel;
                 "width" +:+ Py.str width;
                 "depth" +:+ Py.str depth +:+ ".pt"]).
  { intros param Hin. now apply (get_parameter_unfold name param "pt"). }
  unfold Evaluate.get_parameters. rewrite Hgran. cbn [bind].
  rewrite !Hparam by (simpl; auto 6).
  clearbody name. clear Hname Hext Hsplit Hgran Hparam.
  assert (Hg : forall p, In p ["class"; "crop"; "kernel"; "width"; "depth"] ->
                         Py.contains p (marker g) = false).
  { intros p Hp. simpl in Hp.
    destruct g, Hp as [<-|[<-|[<-|[<-|[<-|[]]]]]]; reflexivity. }
  rewrite !(loop_skip _ _ "model") by reflexivity.
  rewrite !(loop_skip _ _ (marker g)) by (apply Hg; simpl; auto 6).
  loop_steps.
Qed.

End ConventionNames.

(** ** Decoding a path: [parse_model_path] then [get_parameters] *)

Section ParsePath.
Import Cifar_utils Codec.

Lemma values_gaps crop kernel width depth :
  0 <= crop -> 0 <= kernel -> 0 <= width -> 0 <= depth ->
  forallb (is_gap Py.is_digit) (values crop kernel width depth) = true.
Proof.
  intros. unfold values. cbn [forallb]. now rewrite !str_digits.
Qed.

Lemma filename_with_head g tok crop kernel width depth :
  filename g tok crop kernel width depth
  = interleave ["model_" +:+ marker g +:+ "_" +:+ tok +:+ "_crop";
                "_kernel"; "_width"; "_depth"; ".pt"]
      (values crop kernel width depth).
Proof.
  unfold filename, values. cbn [interleave].
  rewrite !append_assoc. reflexivity.
Qed.

Lemma stripped_with_head g cls crop kernel width depth :
  with_head (marker g +:+ "_class" +:+ Py.str cls +:+ "_crop")
    (values crop kernel width depth)
  = stripped g cls crop kernel width depth.
Proof.
  unfold stripped, with_head, values. cbn [interleave].
  rewrite !append_assoc. reflexivity.
Qed.

Lemma with_head_gaps_shape head gaps :
  length gaps = 4%nat ->
  interleaved [head; "_kernel"; "_width"; "_depth"] gaps.
Proof. intros H. left. now rewrite H. Qed.

(** Dropping the directory, ".pt" and "model_". *)
Lemma parse_model_path_strip head gaps :
  forallb (is_gap Py.is_digit) gaps = true -> length gaps = 4%nat ->
  sep_free "/" ("model_" +:+ head) = true ->
  Py.replace ".pt" "" ("model_" +:+ head) = "model_" +:+ head ->
  Py.replace "model_" "" ("model_" +:+ head) = head ->
  Embeddings.parse_model_path
    (interleave ["model_" +:+ head; "_kernel"; "_width"; "_depth"; ".pt"] gaps)
  = Embeddings.superclass_to_idx (with_head head gaps).
Proof.
  intros Hgaps Hlen Hsep Hpt Hmodel. unfold Embeddings.parse_model_path.
  rewrite last_item_split_sep_free.
  2:{ apply (string_forall_interleave Py.is_digit); [| |exact Hgaps].
      - intros c. now apply is_digit_not.
      - cbn [forallb]. fold (sep_free "/" ("model_" +:+ head)).
        now rewrite Hsep. }
  cbn [bind].
  rewrite (replace_interleave Py.is_digit);
    [|reflexivity | reflexivity | exact Hgaps | right; now rewrite Hlen].
  cbn [map]. rewrite Hpt.
  change [?a; ?b; ?c; ?d; Py.replace ".pt" "" ".pt"]
    with ([a; b; c; d] ++ [""]).
  rewrite interleave_snoc, append_empty_r by (now rewrite ?Hlen).
  rewrite (replace_interleave Py.is_digit);
    [|reflexivity | reflexivity | exact Hgaps | left; now rewrite Hlen].
  cbn [map]. now rewrite Hmodel.
Qed.

(** The placeholder between underscores becomes "class-1". *)
Lemma superclass_to_idx_all head head' gaps :
  forallb (is_gap Py.is_digit) gaps = true -> length gaps = 4%nat ->
  Py.contains "_all_" head = true ->
  Py.replace "_all_" "_class-1_" head = head' ->
  Embeddings.superclass_to_idx (with_head head gaps) = Ok (with_head head' gaps).
Proof.
  intros Hgaps Hlen Hall Hrep. unfold Embeddings.superclass_to_idx, with_head.
  rewrite (contains_interleave Py.is_digit);
    [|reflexivity | reflexivity | exact Hgaps | left; now rewrite Hlen].
  cbn [existsb]. rewrite Hall. cbn [orb].
  rewrite (replace_interleave Py.is_digit);
    [|reflexivity | reflexivity | exact Hgaps | left; now rewrite Hlen].
  cbn [map]. now rewrite Hrep.
Qed.

(** A superclass name is replaced by "class<idx>" when the names before it
    in the table do not occur. *)
Lemma superclass_to_idx_named name name' pre key idx post :
  Py.contains "_all_" name = false ->
  coarse_class_to_idx = pre ++ (key, idx) :: post ->
  Py.contains key name = true ->
  (forall key', In key' (dict_keys pre) -> Py.contains key' name = false) ->
  Py.replace key ("class" +:+ Py.str idx) name = name' ->
  Embeddings.superclass_to_idx name = Ok name'.
Proof.
  intros Hall Hd Hkey Hpre <-.
  rewrite (embeddings_superclass_to_idx_scan _ Hall).
  now rewrite (scan_superclass_first _ _ _ pre key idx post Hd Hkey Hpre).
Qed.

End ParsePath.

Section RoundTrip.
Import Cifar_utils Codec.

(** From the parts to the whole decoding. *)
Lemma main_decode_named g tok cls crop kernel width depth :
  0 <= crop -> 0 <= kernel -> 0 <= width -> 0 <= depth ->
  sep_free "/" ("model_" +:+ marker g +:+ "_" +:+ tok +:+ "_crop") = true ->
  Py.replace ".pt" "" ("model_" +:+ marker g +:+ "_" +:+ tok +:+ "_crop")
  = "model_" +:+ marker g +:+ "_" +:+ tok +:+ "_crop" ->
  Py.replace "model_" "" ("model_" +:+ marker g +:+ "_" +:+ tok +:+ "_crop")
  = marker g +:+ "_" +:+ tok +:+ "_crop" ->
  Embeddings.superclass_to_idx
    (with_head (marker g +:+ "_" +:+ tok +:+ "_crop")
       (values crop kernel width depth))
  = Ok (with_head (marker g +:+ "_class" +:+ Py.str cls +:+ "_crop")
          (values crop kernel width depth)) ->
  Embeddings.main_decode (filename g tok crop kernel width depth)
  = Ok (marker g, cls, crop, kernel, width, depth).
Proof.
  intros Hc Hk Hw Hd Hsep Hpt Hmodel Hsuper.
  pose proof (values_gaps crop kernel width depth Hc Hk Hw Hd) as Hgaps.
  unfold Embeddings.main_decode.
  rewrite filename_with_head.
  rewrite (parse_model_path_strip _ _ Hgaps eq_refl Hsep Hpt Hmodel).
  rewrite Hsuper. cbn [bind].
  rewrite stripped_with_head.
  apply get_parameters_stripped.
Qed.

(** The placeholder in the order of the tuple. *)
Lemma main_decode_all g crop kernel width depth :
  0 <= crop -> 0 <= kernel -> 0 <= width -> 0 <= depth ->
  Embeddings.main_decode (encode_named g All crop kernel width depth)
  = Ok (marker g, -1, crop, kernel, width, depth).
Proof.
  intros Hc Hk Hw Hd.
  apply main_decode_named; try assumption; try (now destruct g).
  apply superclass_to_idx_all;
    [now apply values_gaps | reflexivity | now destruct g | now destruct g].
Qed.

End RoundTrip.

(** ** The placeholder in evaluate.py *)

Section Placeholder.
Import Cifar_utils Codec.

Lemma values_num crop kernel width depth :
  forallb (is_gap is_num) (values crop kernel width depth) = true.
Proof. unfold values. cbn [forallb]. now rewrite !str_num. Qed.

(** Without its class token a name is not decoded: [get_parameter] finds
    no "class" and [int(None)] raises. *)
Lemma get_parameters_no_class g crop kernel width depth :
  Evaluate.get_parameters
    (with_head (marker g +:+ "_crop") (values crop kernel width depth))
  = Err Py.none_type_error.
Proof.
  set (name := with_head (marker g +:+ "_crop")
                 (values crop kernel width depth)).
  pose proof (values_num crop kernel width depth) as Hgaps.
  assert (Hsplit : Py.split "_" name
                   = [marker g; "crop" +:+ Py.str crop;
                      "kernel" +:+ Py.str kernel; "width" +:+ Py.str width;
                      "depth" +:+ Py.str depth]).
  { rewrite <- (split_join "_");
      [subst name; destruct g; reflexivity | |discriminate].
    cbn [forallb]. rewrite !token_sep_free0 by reflexivity. now destruct g. }
  assert (Hnone : Evaluate.get_parameter name "class" = Ok VNone).
  { apply get_parameter_miss; [simpl; auto |].
    rewrite Hsplit. intros tok Htok. cbn [In] in Htok.
    destruct Htok as [<-|[<-|[<-|[<-|[<-|[]]]]]];
      [now destruct g | | | |];
      rewrite <- (append_empty_r (Py.str _));
      match goal with
      | |- context [Py.str ?z] =>
          pose proof (str_num z) as [Hnum Hnz]%andb_true_iff
      end;
      now rewrite (contains_gap is_num "class" _ _ _ eq_refl Hnum Hnz).
  }
  assert (Hgran : Evaluate.get_granularity name = Ok (marker g)).
  { subst name. unfold with_head. apply granularity_interleave; auto.
    - left. reflexivity.
    - now destruct g.
    - now intros ->. }
  unfold Evaluate.get_parameters. now rewrite Hgran, Hnone.
Qed.

Lemma evaluate_main_decode_all g crop kernel width depth :
  Evaluate.main_decode (encode g All crop kernel width depth)
  = Err Py.none_type_error.
Proof.
  pose proof (values_num crop kernel width depth) as Hgaps.
  unfold Evaluate.main_decode, Evaluate.parse_model_path, encode, class_token.
  rewrite filename_with_head.
  rewrite last_item_split_sep_free.
  2:{ apply (string_forall_interleave is_num); [| |exact Hgaps].
      - intros c. now apply is_num_not_sep.
      - now destruct g. }
  cbn [bind].
  rewrite (replace_interleave is_num);
    [|reflexivity | reflexivity | exact Hgaps | right; reflexivity].
  cbn [map].
  change [Py.replace ".pt" "" ?a; Py.replace ".pt" "" ?b; Py.replace ".pt" "" ?c;
          Py.replace ".pt" "" ?d; Py.replace ".pt" "" ".pt"]
    with ([Py.replace ".pt" "" a; Py.replace ".pt" "" b; Py.replace ".pt" "" c;
           Py.replace ".pt" "" d] ++ [""]).
  rewrite interleave_snoc, append_empty_r by easy.
  rewrite (replace_interleave is_num);
    [|reflexivity | reflexivity | exact Hgaps | left; reflexivity].
  cbn [map]. unfold Evaluate.superclass_to_idx.
  rewrite (contains_interleave is_num);
    [|reflexivity | reflexivity | exact Hgaps | left; reflexivity].
  assert (existsb (Py.contains "all_")
            [Py.replace "model_" ""
               (Py.replace ".pt" ""
                  ("model_" +:+ marker g +:+ "_" +:+ "all" +:+ "_crop"));
             Py.replace "model_" "" (Py.replace ".pt" "" "_kernel");
             Py.replace "model_" "" (Py.replace ".pt" "" "_width");
             Py.replace "model_" "" (Py.replace ".pt" "" "_depth")] = true)
    as -> by now destruct g.
  cbn [bind Py.getitem0].
  rewrite (replace_interleave is_num);
    [|reflexivity | reflexivity | exact Hgaps | left; reflexivity].
  cbn [map].
  assert (Py.replace "all_" ""
            (Py.replace "model_" ""
               (Py.replace ".pt" ""
                  ("model_" +:+ marker g +:+ "_" +:+ "all" +:+ "_crop")))
          = marker g +:+ "_crop") as -> by now destruct g.
  apply get_parameters_no_class.
Qed.

(** C2, at the failing input and beyond: for every name
    "model_<granularity>_all_crop<c>_kernel<k>_width<w>_depth<d>.pt" the
    decoding of embeddings.py yields the record with superclass -1, while
    that of evaluate.py ([parse_model_path(...)[0]] then [get_parameters])
    raises the TypeError of [int(None)]: its [superclass_to_idx] has removed
    the placeholder, and no token holds "class". *)
Theorem C2_all_placeholder (g : granularity) (crop kernel width depth : Z) :
  0 <= crop -> 0 <= kernel -> 0 <= width -> 0 <= depth ->
  Embeddings.main_decode (encode g All crop kernel width depth)
  = Ok (marker g, -1, crop, kernel, width, depth)
  /\ Evaluate.main_decode (encode g All crop kernel width depth)
     = Err Py.none_type_error.
Proof.
  intros Hc Hk Hw Hd. split.
  - now apply main_decode_all.
  - apply evaluate_main_decode_all.
Qed.

Lemma C2_all_placeholder_witness :
  Embeddings.main_decode "model_coarse_all_crop32_kernel8_width4_depth16.pt"
  = Ok ("coarse", -1, 32, 8, 4, 16)
  /\ Evaluate.main_decode "model_coarse_all_crop32_kernel8_width4_depth16.pt"
     = Err Py.none_type_error.
Proof.
  apply (C2_all_placeholder Coarse 32 8 4 16); lia.
Defined.

End Placeholder.

(** * Further properties of the decoders *)

(** ** The directory of a path *)

Section Directory.

Lemma split_app_last sep name :
  sep_free sep name = true ->
  forall dir, exists x l,
    Py.split sep (dir +:+ String sep name) = x :: l ++ [name].
Proof.
  intros Hname. induction dir as [|c dir (x & l & IH)].
  - exists EmptyString, []. simpl. rewrite Ascii.eqb_refl.
    now rewrite (split_sep_free sep name Hname).
  - simpl. rewrite IH. destruct (Ascii.eqb c sep).
    + now exists EmptyString, (x :: l).
    + now exists (String c x), l.
Qed.

Lemma last_item_split_path sep dir name :
  sep_free sep name = true ->
  Py.last_item (Py.split sep (dir +:+ String sep name)) = Ok name.
Proof.
  intros Hname. destruct (split_app_last sep name Hname dir) as (x & l & ->).
  unfold Py.last_item. simpl. rewrite rev_app_distr. reflexivity.
Qed.

(** X1: the decoders read the file name only: for every directory and
    every file name without "/", [parse_model_path] and the decoding of
    [main] give on the path directory/name what they give on the name, in
    evaluate.py, embeddings.py and evaluate_multiclass.py. *)
Theorem X1_directory_ignored (dir name : string) :
  sep_free "/" name = true ->
  Evaluate.parse_model_path (dir +:+ "/" +:+ name)
  = Evaluate.parse_model_path name
  /\ Embeddings.parse_model_path (dir +:+ "/" +:+ name)
     = Embeddings.parse_model_path name
  /\ Evaluate_multiclass.parse_model_path (dir +:+ "/" +:+ name)
     = Evaluate_multiclass.parse_model_path name
  /\ Evaluate.main_decode (dir +:+ "/" +:+ name) = Evaluate.main_decode name
  /\ Embeddings.main_decode (dir +:+ "/" +:+ name) = Embeddings.main_decode name
  /\ Evaluate_multiclass.main_decode (dir +:+ "/" +:+ name)
     = Evaluate_multiclass.main_decode name.
Proof.
  intros Hname.
  pose proof (last_item_split_path "/" dir name Hname) as Hdir.
  pose proof (last_item_split_sep_free "/" name Hname) as Hplain.
  change (dir +:+ "/" +:+ name) with (dir +:+ String "/" name).
  unfold Evaluate.main_decode, Embeddings.main_decode,
    Evaluate_multiclass.main_decode, Evaluate.parse_model_path,
    Embeddings.parse_model_path, Evaluate_multiclass.parse_model_path.
  rewrite Hdir, Hplain. repeat split; reflexivity.
Qed.

Lemma X1_directory_ignored_witness :
  Embeddings.main_decode
    ("models/coarse/fish" +:+ "/"
     +:+ "model_fine_trees_crop32_kernel8_width4_depth16.pt")
  = Embeddings.main_decode "model_fine_trees_crop32_kernel8_width4_depth16.pt".
Proof.
  apply (X1_directory_ignored "models/coarse/fish"
           "model_fine_trees_crop32_kernel8_width4_depth16.pt").
  reflexivity.
Defined.

End Directory.

(** ** Parameter names and tokens *)

Section ParameterTokens.

(** X2: a parameter name outside the supported ones is refused, whatever
    the filename: [get_parameter] raises
    ValueError("invalid parameter input") for every name that is not
    "class", "crop", "kernel", "width" or "depth"; in
    evaluate_multiclass.py "class" is refused as well. *)
Theorem X2_invalid_parameter_name (name param : string) :
  (~ In param ["class"; "crop"; "kernel"; "width"; "depth"] ->
   Evaluate.get_parameter name param
   = Err (ValueError "invalid parameter input")
   /\ Embeddings.get_parameter name param
      = Err (ValueError "invalid parameter input"))
  /\ (~ In param ["crop"; "kernel"; "width"; "depth"] ->
      Evaluate_multiclass.get_parameter name param
      = Err (ValueError "invalid parameter input"))
  /\ Evaluate_multiclass.get_parameter name "class"
     = Err (ValueError "invalid parameter input").
Proof.
  destruct (last_item_split "." name) as [ext Hext].
  assert (Hmem : forall l, ~ In param l -> existsb (String.eqb param) l = false).
  { induction l as [|x l IH]; [reflexivity |]. simpl. intros Hnot.
    destruct (String.eqb_spec param x) as [->|_].
    - exfalso. apply Hnot. now left.
    - apply IH. intros Hin. apply Hnot. now right. }
  split; [|split].
  - intros Hnot.
    change (Embeddings.get_parameter name param)
      with (Evaluate.get_parameter name param).
    unfold Evaluate.get_parameter. rewrite Hext. cbn [bind].
    rewrite (Hmem _ Hnot). split; reflexivity.
  - intros Hnot. unfold Evaluate_multiclass.get_parameter.
    rewrite Hext. cbn [bind]. now rewrite (Hmem _ Hnot).
  - unfold Evaluate_multiclass.get_parameter. rewrite Hext. reflexivity.
Qed.

Lemma X2_invalid_parameter_name_witness :
  Evaluate.get_parameter "model_coarse_fish_crop32" "dropout"
  = Err (ValueError "invalid parameter input").
Proof.
  destruct (X2_invalid_parameter_name "model_coarse_fish_crop32" "dropout")
    as [H _].
  apply H. simpl. intuition discriminate.
Defined.

Lemma get_parameter_loop_first param extension pre tok post :
  (forall t, In t pre -> Py.contains param t = false) ->
  Py.contains param tok = true ->
  Evaluate.get_parameter_loop param extension (pre ++ tok :: post)
  = let* n := Py.int_of_str (Py.replace extension ""
                               (Py.replace param "" tok)) in
    Ok (VInt n).
Proof.
  intros Hpre Htok. induction pre as [|t pre IH].
  - cbn [app Evaluate.get_parameter_loop]. now rewrite Htok.
  - cbn [app]. rewrite loop_skip by (apply Hpre; now left).
    apply IH. intros t' Ht'. apply Hpre. now right.
Qed.

(** X3: [get_parameter] is decided by the first underscore-delimited
    token that contains the parameter name: the value is [int] of that
    token with the name and the extension ("." and what follows the last
    "." of the filename) removed, and when this is no integer literal the
    call fails; the tokens after it are not read. *)
Theorem X3_first_token_decides (name param : string)
    (pre : list string) (tok : string) (post : list string) :
  In param ["class"; "crop"; "kernel"; "width"; "depth"] ->
  Py.split "_" name = pre ++ tok :: post ->
  (forall t, In t pre -> Py.contains param t = false) ->
  Py.contains param tok = true ->
  exists ext,
    Py.last_item (Py.split "." name) = Ok ext
    /\ Evaluate.get_parameter name param
       = (let* n := Py.int_of_str (Py.replace ("." +:+ ext) ""
                                     (Py.replace param "" tok)) in
          Ok (VInt n))
    /\ Embeddings.get_parameter name param
       = Evaluate.get_parameter name param.
Proof.
  intros Hparam Hsplit Hpre Htok.
  destruct (last_item_split "." name) as [ext Hext].
  exists ext. split; [exact Hext |]. split; [|reflexivity].
  rewrite (get_parameter_unfold name param ext _ Hparam Hext Hsplit).
  now apply get_parameter_loop_first.
Qed.

Lemma X3_first_token_decides_witness :
  Evaluate.get_parameter "wrn100class_class7_crop32" "class"
  = Err Py.invalid_literal.
Proof.
  destruct (X3_first_token_decides "wrn100class_class7_crop32" "class"
              [] "wrn100class" ["class7"; "crop32"])
    as (ext & _ & H & _).
  - simpl. auto.
  - reflexivity.
  - intros t [].
  - reflexivity.
  - rewrite H. vm_compute. reflexivity.
Defined.

End ParameterTokens.

(** ** The two [superclass_to_idx] and [main] of evaluate.py *)

Section EvaluateMain.
Import Cifar_utils.

Lemma prefix_contains pat s : String.prefix pat s = true -> Py.contains pat s = true.
Proof.
  destruct s; simpl; [auto |]. intros ->. reflexivity.
Qed.

Lemma contains_tail a pat s :
  Py.contains (String a pat) s = true -> Py.contains pat s = true.
Proof.
  induction s as [|c s IH]; simpl; [discriminate |].
  intros [H|H]%orb_true_iff.
  - destruct (ascii_dec a c); [|discriminate].
    apply orb_true_iff. right. now apply prefix_contains.
  - apply orb_true_iff. right. now apply IH.
Qed.

(** X5: on every filename in which "all_" does not occur, the two
    [superclass_to_idx] agree: evaluate.py returns the string that
    embeddings.py returns, or fails with the same exception. *)
Theorem X5_superclass_to_idx_agree (filename : string) :
  Py.contains "all_" filename = false ->
  Evaluate.superclass_to_idx filename
  = as_value (Embeddings.superclass_to_idx filename).
Proof.
  intros Hall.
  assert (Hall' : Py.contains "_all_" filename = false).
  { destruct (Py.contains "_all_" filename) eqn:H; [|reflexivity].
    apply contains_tail in H. congruence. }
  rewrite (evaluate_superclass_to_idx_scan _ Hall),
    (embeddings_superclass_to_idx_scan _ Hall').
  unfold scan_superclass.
  destruct (Py.next _) as [superclass|e]; [|reflexivity]. cbn [bind].
  destruct (dict_getitem coarse_class_to_idx superclass); reflexivity.
Qed.

Lemma X5_superclass_to_idx_agree_witness :
  Evaluate.superclass_to_idx "fine_trees_crop32"
  = as_value (Embeddings.superclass_to_idx "fine_trees_crop32").
Proof. apply X5_superclass_to_idx_agree. reflexivity. Defined.

Lemma contains_short pat s :
  (String.length s < String.length pat)%nat -> Py.contains pat s = false.
Proof.
  induction s as [|c s IH]; intros Hlen.
  - destruct pat; [simpl in Hlen; lia | reflexivity].
  - cbn [Py.contains]. rewrite IH by (simpl in Hlen; lia).
    rewrite orb_false_r.
    destruct (String.prefix pat (String c s)) eqn:Hpre; [|reflexivity].
    apply prefix_length in Hpre. lia.
Qed.

Lemma get_granularity_one_char c :
  Evaluate.get_granularity (String c EmptyString)
  = Err (ValueError "granularity not found").
Proof.
  unfold Evaluate.get_granularity.
  now rewrite !contains_short by (simpl; lia).
Qed.

Lemma get_parameters_one_char c :
  Evaluate.get_parameters (String c EmptyString)
  = Err (ValueError "granularity not found").
Proof.
  unfold Evaluate.get_parameters. now rewrite get_granularity_one_char.
Qed.

Lemma replace_nonempty old new s :
  nonempty old = true -> nonempty new = true -> nonempty s = true ->
  nonempty (Py.replace old new s) = true.
Proof.
  destruct old as [|a old]; [discriminate |].
  destruct s as [|c s]; [discriminate |]. intros _ Hnew _.
  unfold Py.replace. cbn [Py.replace_from].
  destruct (String.prefix _ _); [|reflexivity].
  destruct new; [discriminate | reflexivity].
Qed.

(** Without "all_" in the name, [superclass_to_idx] of evaluate.py
    returns a string that is not empty, or raises. *)
Lemma evaluate_superclass_to_idx_cases filename :
  Py.contains "all_" filename = false ->
  (exists s, Evaluate.superclass_to_idx filename = Ok (VStr s)
             /\ nonempty s = true)
  \/ (exists e, Evaluate.superclass_to_idx filename = Err e).
Proof.
  intros Hall. unfold Evaluate.superclass_to_idx. rewrite Hall.
  rewrite next_compress_find.
  destruct (find _ _) as [superclass|] eqn:Hfind;
    [|right; eexists; reflexivity].
  cbn [bind].
  destruct (dict_getitem coarse_class_to_idx superclass) as [idx|e];
    [|right; eexists; reflexivity].
  cbn [bind]. left. eexists. split; [reflexivity |].
  apply find_some in Hfind as [Hin Hocc].
  assert (Hkey : nonempty superclass = true).
  { assert (Hall' : forallb nonempty (dict_keys coarse_class_to_idx) = true)
      by reflexivity.
    now apply (proj1 (forallb_forall _ _) Hall'). }
  apply (replace_nonempty superclass ("class" +:+ Py.str idx) filename);
    [exact Hkey | reflexivity |].
  destruct filename; [|reflexivity].
  destruct superclass; discriminate.
Qed.

(** X6: [main] of evaluate.py decodes a path only when "all_" occurs in
    its file name (after ".pt" and "model_" are removed): when
    [parse_model_path] returns a string, [[0]] takes its first character
    and [get_parameters] raises ValueError("granularity not found") on
    it. *)
Theorem X6_evaluate_main_needs_all (model_path : string) :
  (forall r, Evaluate.main_decode model_path = Ok r ->
     exists model_name,
       Py.last_item (Py.split "/" model_path) = Ok model_name
       /\ Py.contains "all_"
            (Py.replace "model_" "" (Py.replace ".pt" "" model_name)) = true)
  /\ (forall s, Evaluate.parse_model_path model_path = Ok (VStr s) ->
        Evaluate.main_decode model_path
        = Err (ValueError "granularity not found")).
Proof.
  destruct (last_item_split "/" model_path) as [model_name Hname].
  set (filename := Py.replace "model_" "" (Py.replace ".pt" "" model_name)).
  assert (Hparse : Evaluate.parse_model_path model_path
                   = Evaluate.superclass_to_idx filename).
  { unfold Evaluate.parse_model_path. now rewrite Hname. }
  assert (Hstr : forall s, Evaluate.parse_model_path model_path = Ok (VStr s) ->
                   Evaluate.main_decode model_path
                   = Err (ValueError "granularity not found")).
  { intros s Hs. unfold Evaluate.main_decode. rewrite Hs. cbn [bind].
    assert (Hne : nonempty s = true).
    { rewrite Hparse in Hs.
      destruct (Py.contains "all_" filename) eqn:Hall.
      - unfold Evaluate.superclass_to_idx in Hs. rewrite Hall in Hs.
        discriminate.
      - destruct (evaluate_superclass_to_idx_cases _ Hall)
          as [(s' & Hs' & Hne')|(e & He)].
        + rewrite Hs' in Hs. injection Hs as <-. exact Hne'.
        + rewrite He in Hs. discriminate. }
    destruct s as [|c s]; [discriminate |].
    cbn [Py.getitem0 bind]. apply get_parameters_one_char. }
  split; [|exact Hstr].
  intros r Hr. exists model_name. split; [exact Hname |].
  fold filename.
  destruct (Py.contains "all_" filename) eqn:Hall; [reflexivity |]. exfalso.
  destruct (evaluate_superclass_to_idx_cases _ Hall)
    as [(s & Hs & _)|(e & He)].
  - rewrite Hs in Hparse. rewrite (Hstr s Hparse) in Hr. discriminate.
  - rewrite He in Hparse. unfold Evaluate.main_decode in Hr.
    rewrite Hparse in Hr. discriminate.
Qed.

Lemma X6_evaluate_main_needs_all_witness :
  Evaluate.main_decode "model_fine_trees_crop32_kernel8_width4_depth16.pt"
  = Err (ValueError "granularity not found").
Proof.
  destruct (X6_evaluate_main_needs_all
              "model_fine_trees_crop32_kernel8_width4_depth16.pt") as [_ H].
  apply (H "fine_class17_crop32_kernel8_width4_depth16").
  vm_compute. reflexivity.
Defined.

End EvaluateMain.

(** ** The order of the tokens *)

Section TokenOrder.
Import Codec.

(** A pattern without "_" occurs in a name exactly when it occurs in one
    of its tokens. *)
Lemma contains_join pat toks :
  avoids is_underscore pat = true -> nonempty pat = true ->
  Py.contains pat (join "_" toks) = existsb (Py.contains pat) toks.
Proof.
  intros Hp Hne. induction toks as [|t toks IH].
  - now destruct pat.
  - destruct toks as [|t' toks].
    + simpl. now rewrite orb_false_r.
    + change (join "_" (t :: t' :: toks))
        with (t +:+ "_" +:+ join "_" (t' :: toks)).
      rewrite (contains_gap is_underscore pat t "_" _ Hp eq_refl eq_refl), IH.
      reflexivity.
Qed.

Lemma existsb_false {A : Type} (f : A -> bool) (l : list A) :
  (forall x, In x l -> f x = false) -> existsb f l = false.
Proof.
  induction l as [|x l IH]; intros Hl; [reflexivity |].
  simpl. rewrite (Hl x) by now left.
  apply IH. intros y Hy. apply Hl. now right.
Qed.

(** The loop finds the token of the parameter wherever it stands, when no
    other token holds the parameter name. *)
Lemma loop_any_position param extension z toks :
  avoids is_num param = true -> nonempty param = true ->
  head_not is_num extension = true ->
  (forall t, In t toks ->
             Py.contains param t = false \/ t = param +:+ Py.str z) ->
  In (param +:+ Py.str z) toks ->
  Evaluate.get_parameter_loop param extension toks = Ok (VInt z).
Proof.
  intros Hp Hne Hext. induction toks as [|t toks IH]; intros Hall Hin.
  - destruct Hin.
  - destruct (Hall t (or_introl eq_refl)) as [Hmiss| ->].
    + rewrite loop_skip by exact Hmiss. apply IH.
      * intros t' Ht'. apply Hall. now right.
      * destruct Hin as [->|Hin]; [|exact Hin].
        rewrite contains_self_app in Hmiss. discriminate.
    + now apply loop_hit_token0.
Qed.

Lemma contains_token param other z :
  avoids is_num param = true -> nonempty param = true ->
  Py.contains param (other +:+ Py.str z) = Py.contains param other.
Proof.
  intros Hp Hne. pose proof (str_num z) as [Hnum Hnz]%andb_true_iff.
  now apply (contains_gap_end is_num).
Qed.

Lemma plain_token_spec t :
  plain_token t = true ->
  sep_free "_" t = true
  /\ forall p, In p ["class"; "crop"; "kernel"; "width"; "depth";
                     "coarse"; "fine"] ->
               Py.contains p t = false.
Proof.
  unfold plain_token. intros [Hsep Hall]%andb_true_iff. split; [exact Hsep |].
  intros p Hp. apply (proj1 (forallb_forall _ _) Hall) in Hp.
  now apply negb_true_iff.
Qed.

Ltac token_cases Hc :=
  cbn [convention_tokens In] in Hc;
  destruct Hc as [<-|[<-|[<-|[<-|[<-|[<-|[]]]]]]].

Lemma tokens_hold g cls crop kernel width depth toks param z :
  In (param, z) [("class", cls); ("crop", crop); ("kernel", kernel);
                 ("width", width); ("depth", depth)] ->
  (forall t, In t toks ->
             In t (convention_tokens g cls crop kernel width depth)
             \/ plain_token t = true) ->
  forall t, In t toks ->
            Py.contains param t = false \/ t = param +:+ Py.str z.
Proof.
  intros Hparam Hall t Ht.
  destruct (Hall t Ht) as [Hc|Hplain].
  - cbn [In] in Hparam.
    destruct Hparam as [[= <- <-]|[[= <- <-]|[[= <- <-]|[[= <- <-]|
                       [[= <- <-]|[]]]]]];
      token_cases Hc;
      first [ right; reflexivity
            | left; rewrite ?contains_token by reflexivity;
              destruct g; reflexivity ].
  - left. apply (plain_token_spec t Hplain).
    cbn [In] in Hparam |- *.
    destruct Hparam as [[= <- _]|[[= <- _]|[[= <- _]|[[= <- _]|
                       [[= <- _]|[]]]]]]; auto 10.
Qed.

(** X4: the decoding does not depend on the order of the tokens and
    passes over extra ones: for every list of tokens that holds the six
    tokens of a tuple (granularity marker, class, crop, kernel, width,
    depth) in any positions, every other token being free of "_", of the
    five parameter names and of "coarse" and "fine", [get_parameters] on
    the tokens joined by "_" returns exactly that tuple. *)
Theorem X4_token_order_irrelevant (g : granularity)
    (cls crop kernel width depth : Z) (toks : list string) :
  (forall t, In t (convention_tokens g cls crop kernel width depth) ->
             In t toks) ->
  (forall t, In t toks ->
             In t (convention_tokens g cls crop kernel width depth)
             \/ plain_token t = true) ->
  Evaluate.get_parameters (join "_" toks)
  = Ok (marker g, cls, crop, kernel, width, depth)
  /\ Embeddings.get_parameters (join "_" toks)
     = Ok (marker g, cls, crop, kernel, width, depth).
Proof.
  intros Hin Hall.
  change (Embeddings.get_parameters (join "_" toks))
    with (Evaluate.get_parameters (join "_" toks)).
  enough (Evaluate.get_parameters (join "_" toks)
          = Ok (marker g, cls, crop, kernel, width, depth)) by now split.
  set (name := join "_" toks).
  assert (Hsep : forallb (sep_free "_") toks = true).
  { apply forallb_forall. intros t Ht.
    destruct (Hall t Ht) as [Hc|Hplain].
    - token_cases Hc; rewrite ?token_sep_free0 by reflexivity;
        try reflexivity. now destruct g.
    - apply (plain_token_spec t Hplain). }
  assert (Hne : toks <> []).
  { intros ->. apply (Hin (marker g)). now left. }
  assert (Hsplit : Py.split "_" name = toks) by now apply split_join.
  destruct (last_item_split "." name) as [ext Hext].
  assert (Hparam : forall param z,
            In (param, z) [("class", cls); ("crop", crop); ("kernel", kernel);
                           ("width", width); ("depth", depth)] ->
            Evaluate.get_parameter name param = Ok (VInt z)).
  { intros param z Hpz.
    assert (Hp : In param ["class"; "crop"; "kernel"; "width"; "depth"]).
    { apply (in_map fst) in Hpz. exact Hpz. }
    rewrite (get_parameter_unfold name param ext toks Hp Hext Hsplit).
    assert (Hav : avoids is_num param = true /\ nonempty param = true).
    { cbn [In] in Hp.
      destruct Hp as [<-|[<-|[<-|[<-|[<-|[]]]]]]; split; reflexivity. }
    apply loop_any_position; try apply Hav; try reflexivity.
    - now apply (tokens_hold g cls crop kernel width depth).
    - apply Hin. cbn [In] in Hpz.
      destruct Hpz as [[= <- <-]|[[= <- <-]|[[= <- <-]|[[= <- <-]|
                      [[= <- <-]|[]]]]]]; cbn [convention_tokens In]; auto 10. }
  assert (Hmarker : forall p, p = "coarse" \/ p = "fine" ->
            Py.contains p name
            = existsb (Py.contains p) toks).
  { intros p [->| ->]; now apply contains_join. }
  assert (Hother : forall p, p = "coarse" \/ p = "fine" -> p <> marker g ->
            existsb (Py.contains p) toks = false).
  { intros p Hp Hneq. apply existsb_false. intros t Ht.
    destruct (Hall t Ht) as [Hc|Hplain].
    - token_cases Hc; destruct Hp as [->| ->];
        rewrite ?contains_token by reflexivity;
        destruct g; try reflexivity; contradiction.
    - apply (plain_token_spec t Hplain).
      destruct Hp as [->| ->]; cbn [In]; auto 10. }
  assert (Hself : existsb (Py.contains (marker g)) toks = true).
  { apply existsb_exists. exists (marker g). split.
    - apply Hin. now left.
    - now destruct g. }
  assert (Hgran : Evaluate.get_granularity name = Ok (marker g)).
  { unfold Evaluate.get_granularity.
    rewrite !Hmarker by auto.
    destruct g; cbn [marker] in *.
    - now rewrite Hself.
    - rewrite (Hother "coarse") by (auto; discriminate). now rewrite Hself. }
  unfold Evaluate.get_parameters. rewrite Hgran. cbn [bind].
  rewrite (Hparam "class" cls), (Hparam "crop" crop),
    (Hparam "kernel" kernel), (Hparam "width" width),
    (Hparam "depth" depth) by (cbn [In]; auto 10).
  reflexivity.
Qed.

Lemma X4_token_order_irrelevant_witness :
  Evaluate.get_parameters "depth16_wrn_fine_width4_class7_kernel8_crop32"
  = Ok ("fine", 7, 32, 8, 4, 16).
Proof.
  apply (X4_token_order_irrelevant Fine 7 32 8 4 16
           ["depth16"; "wrn"; "fine"; "width4"; "class7"; "kernel8"; "crop32"]).
  - intros t Ht. vm_compute in Ht.
    destruct Ht as [<-|[<-|[<-|[<-|[<-|[<-|[]]]]]]]; cbn [In]; auto 10.
  - intros t Ht. cbn [In] in Ht.
    destruct Ht as [<-|[<-|[<-|[<-|[<-|[<-|[<-|[]]]]]]]];
      first [ right; reflexivity | left; vm_compute; auto 10 ].
Defined.

End TokenOrder.

(** ** The names written by train_multiclass.py *)

Section TrainNames.
Import Cifar_utils.

Lemma train_name_interleave crop width depth :
  Train_multiclass.model_filename crop width depth
  = interleave ["wrn100class_crop"; "_width"; "_depth"; ".pt"]
      [Py.str crop; Py.str width; Py.str depth].
Proof. reflexivity. Qed.

Lemma train_stem_interleave crop width depth :
  train_stem crop width depth
  = interleave ["wrn100class_crop"; "_width"; "_depth"]
      [Py.str crop; Py.str width; Py.str depth].
Proof. reflexivity. Qed.

Lemma train_gaps_num crop width depth :
  forallb (is_gap is_num) [Py.str crop; Py.str width; Py.str depth] = true.
Proof. cbn [forallb]. now rewrite !str_num. Qed.

Lemma train_gaps_digit crop width depth :
  0 <= crop -> 0 <= width -> 0 <= depth ->
  forallb (is_gap Py.is_digit) [Py.str crop; Py.str width; Py.str depth] = true.
Proof. intros. cbn [forallb]. now rewrite !str_digits. Qed.

Lemma train_name_sep_free crop width depth :
  sep_free "/" (Train_multiclass.model_filename crop width depth) = true.
Proof.
  rewrite train_name_interleave.
  apply (string_forall_interleave is_num);
    [|reflexivity | apply train_gaps_num].
  intros c. now apply is_num_not_sep.
Qed.

(** Removing ".pt" and "model_" from the name leaves its stem. *)
Lemma train_name_strip crop width depth :
  Py.replace "model_" ""
    (Py.replace ".pt" "" (Train_multiclass.model_filename crop width depth))
  = train_stem crop width depth.
Proof.
  pose proof (train_gaps_num crop width depth) as Hgaps.
  rewrite train_name_interleave.
  rewrite (replace_interleave is_num);
    [|reflexivity | reflexivity | exact Hgaps | right; reflexivity].
  change (map (Py.replace ".pt" "")
            ["wrn100class_crop"; "_width"; "_depth"; ".pt"])
    with (["wrn100class_crop"; "_width"; "_depth"] ++ [""]).
  rewrite interleave_snoc, append_empty_r by easy.
  rewrite (replace_interleave is_num);
    [|reflexivity | reflexivity | exact Hgaps | left; reflexivity].
  reflexivity.
Qed.

Lemma train_stem_split crop width depth :
  Py.split "_" (train_stem crop width depth)
  = ["wrn100class"; "crop" +:+ Py.str crop; "width" +:+ Py.str width;
     "depth" +:+ Py.str depth].
Proof.
  rewrite <- (split_join "_"); [reflexivity | |discriminate].
  cbn [forallb]. now rewrite !token_sep_free0 by reflexivity.
Qed.

Lemma train_stem_extension crop width depth :
  Py.last_item (Py.split "." (train_stem crop width depth))
  = Ok (train_stem crop width depth).
Proof.
  apply last_item_split_sep_free. rewrite train_stem_interleave.
  apply (string_forall_interleave is_num);
    [|reflexivity | apply train_gaps_num].
  intros c. now apply is_num_not_sep.
Qed.

Lemma multiclass_get_parameters_stem crop width depth :
  Evaluate_multiclass.get_parameters (train_stem crop width depth)
  = (let* kernel := Evaluate_multiclass.int_truediv_4 crop in
     Ok (crop, kernel, width, depth)).
Proof.
  apply multiclass_get_parameters_of.
  - rewrite (get_parameter_unfold _ "crop" _ _ ltac:(simpl; auto 6)
               (train_stem_extension crop width depth)
               (train_stem_split crop width depth)).
    rewrite loop_skip by reflexivity. now rewrite loop_hit_token0.
  - rewrite (get_parameter_unfold _ "width" _ _ ltac:(simpl; auto 6)
               (train_stem_extension crop width depth)
               (train_stem_split crop width depth)).
    rewrite loop_skip by reflexivity.
    rewrite loop_skip_token0 by reflexivity. now rewrite loop_hit_token0.
  - rewrite (get_parameter_unfold _ "depth" _ _ ltac:(simpl; auto 6)
               (train_stem_extension crop width depth)
               (train_stem_split crop width depth)).
    rewrite loop_skip by reflexivity.
    rewrite !loop_skip_token0 by reflexivity. now rewrite loop_hit_token0.
Qed.

Lemma multiclass_parse_train (dir : string) (crop width depth : Z) :
  Evaluate_multiclass.parse_model_path
    (dir +:+ "/" +:+ Train_multiclass.model_filename crop width depth)
  = Ok (train_stem crop width depth).
Proof.
  unfold Evaluate_multiclass.parse_model_path.
  change (dir +:+ "/" +:+ Train_multiclass.model_filename crop width depth)
    with (dir +:+ String "/" (Train_multiclass.model_filename crop width depth)).
  rewrite (last_item_split_path "/" dir _ (train_name_sep_free crop width depth)).
  cbn [bind]. now rewrite train_name_strip.
Qed.

Lemma multiclass_decode_train (dir : string) (crop width depth : Z) :
  Evaluate_multiclass.main_decode
    (dir +:+ "/" +:+ Train_multiclass.model_filename crop width depth)
  = (let* kernel := Evaluate_multiclass.int_truediv_4 crop in
     Ok (crop, kernel, width, depth)).
Proof.
  unfold Evaluate_multiclass.main_decode.
  rewrite multiclass_parse_train. cbn [bind].
  apply multiclass_get_parameters_stem.
Qed.

(** X7: a model saved by train_multiclass.py is decoded by
    evaluate_multiclass.py: for all integers and every directory, the
    path directory/"wrn100class_crop<c>_width<w>_depth<d>.pt" is decoded
    by [parse_model_path] and [get_parameters] to the crop size, width
    factor and depth it was written with, and to the kernel size
    [int(c / 4)], or OverflowError is raised when c / 4 is too large for
    a double; for a crop size below 2^53 in absolute value the decoding
    returns, with the kernel size c/4 truncated towards zero. *)
Theorem X7_train_name_round_trip (dir : string) (crop width depth : Z) :
  Evaluate_multiclass.main_decode
    (dir +:+ "/" +:+ Train_multiclass.model_filename crop width depth)
  = (let* kernel := Evaluate_multiclass.int_truediv_4 crop in
     Ok (crop, kernel, width, depth))
  /\ (Z.abs crop < 2 ^ 53 ->
      Evaluate_multiclass.main_decode
        (dir +:+ "/" +:+ Train_multiclass.model_filename crop width depth)
      = Ok (crop, Z.quot crop 4, width, depth)).
Proof.
  split; [apply multiclass_decode_train |].
  intros Hsmall. unfold Evaluate_multiclass.main_decode.
  rewrite multiclass_parse_train. cbn [bind].
  rewrite multiclass_get_parameters_stem.
  now rewrite (int_truediv_4_exact crop Hsmall).
Qed.

Lemma X7_train_name_round_trip_witness :
  Evaluate_multiclass.main_decode
    ("models/last_minute" +:+ "/" +:+ Train_multiclass.model_filename 24 8 16)
  = Ok (24, 6, 8, 16).
Proof.
  destruct (X7_train_name_round_trip "models/last_minute" 24 8 16) as [_ H].
  apply H. reflexivity.
Defined.

Lemma quot_4_is_6 crop : Z.quot crop 4 = 6 <-> 24 <= crop <= 27.
Proof.
  pose proof (Z.quot_rem' crop 4) as Hqr.
  destruct (Z_le_gt_dec 0 crop) as [Hpos|Hneg].
  - pose proof (Z.rem_bound_pos crop 4 Hpos ltac:(lia)). lia.
  - pose proof (Z.rem_bound_pos_neg crop 4 ltac:(lia) ltac:(lia)). lia.
Qed.

(** [int(crop / 4)] is 6 for the crop sizes 24 to 27 and no other. *)
Lemma int_truediv_4_is_6 crop :
  Evaluate_multiclass.int_truediv_4 crop = Ok 6 <-> 24 <= crop <= 27.
Proof.
  assert (27 < 2 ^ 53) as H53 by reflexivity.
  split.
  - intros Hk. destruct (Z_lt_le_dec (Z.abs crop) (2 ^ 53)) as [Hsmall|Hbig].
    + rewrite (int_truediv_4_exact crop Hsmall) in Hk.
      injection Hk as Hk. now apply quot_4_is_6.
    + exfalso. pose proof (round_double_large crop Hbig) as Hr.
      unfold Evaluate_multiclass.int_truediv_4 in Hk.
      destruct (2 ^ 1026 <=? _); [discriminate |].
      injection Hk as Hk. apply quot_4_is_6 in Hk. lia.
  - intros Hc. rewrite int_truediv_4_exact by lia.
    f_equal. now apply quot_4_is_6.
Qed.

(** X8: the kernel size that evaluate_multiclass.py decodes from a name
    written by train_multiclass.py is the kernel size the model was
    trained with, 6, exactly when the crop size is 24, 25, 26 or 27. *)
Theorem X8_decoded_kernel_matches_training (dir : string)
    (crop width depth : Z) :
  Evaluate_multiclass.main_decode
    (dir +:+ "/" +:+ Train_multiclass.model_filename crop width depth)
  = Ok (crop, Train_multiclass.kernel_size, width, depth)
  <-> 24 <= crop <= 27.
Proof.
  rewrite multiclass_decode_train. unfold Train_multiclass.kernel_size.
  rewrite <- int_truediv_4_is_6. split.
  - destruct (Evaluate_multiclass.int_truediv_4 crop) as [k|e];
      cbn [bind]; [|discriminate].
    now intros [= ->].
  - now intros ->.
Qed.

End TrainNames.

(** ** Names written by train_multiclass.py, read by the other scripts *)

Section CrossScripts.
Import Cifar_utils.

Lemma prefix_forall (Q : ascii -> bool) pat s :
  String.prefix pat s = true -> string_forall Q s = true ->
  string_forall Q pat = true.
Proof.
  revert s. induction pat as [|a pat IH]; intros [|b s]; simpl;
    try reflexivity; try discriminate.
  destruct (ascii_dec a b) as [->|]; [|discriminate].
  intros Hpre [Hb Hs]%andb_true_iff. rewrite Hb. simpl. now apply (IH s).
Qed.

(** An occurrence of [pat] in [s] is made of characters of [s]. *)
Lemma contains_forall (Q : ascii -> bool) pat s :
  Py.contains pat s = true -> string_forall Q s = true ->
  string_forall Q pat = true.
Proof.
  induction s as [|c s IH]; simpl.
  - intros Hpre _. now apply (prefix_forall Q pat EmptyString).
  - intros [Hpre|Hin]%orb_true_iff Hs.
    + now apply (prefix_forall Q pat (String c s)).
    + apply andb_true_iff in Hs as [_ Hs]. now apply IH.
Qed.

Lemma contains_missing_char c pat s :
  sep_free c s = true -> sep_free c pat = false -> Py.contains pat s = false.
Proof.
  intros Hs Hpat. destruct (Py.contains pat s) eqn:Hin; [|reflexivity].
  unfold sep_free in *. rewrite (contains_forall _ pat s Hin Hs) in Hpat.
  discriminate.
Qed.

Lemma train_stem_sep_free c crop width depth :
  is_num c = false ->
  sep_free c "wrn100class_crop_width_depth" = true ->
  sep_free c (train_stem crop width depth) = true.
Proof.
  intros Hc Hsegs. rewrite train_stem_interleave.
  apply (string_forall_interleave is_num); [| |apply train_gaps_num].
  - intros a. now apply is_num_not_sep.
  - unfold sep_free in Hsegs.
    change "wrn100class_crop_width_depth"
      with ("wrn100class_crop" +:+ "_width" +:+ "_depth") in Hsegs.
    rewrite !string_forall_app in Hsegs.
    apply andb_true_iff in Hsegs as [H1 [H2 H3]%andb_true_iff].
    cbn [forallb]. now rewrite H1, H2, H3.
Qed.

(** A pattern without digits and "-" occurs in the stem only inside one of
    its fixed pieces. *)
Lemma train_stem_contains pat crop width depth :
  avoids is_num pat = true -> nonempty pat = true ->
  Py.contains pat (train_stem crop width depth)
  = existsb (Py.contains pat) ["wrn100class_crop"; "_width"; "_depth"].
Proof.
  intros Hpat Hne. rewrite train_stem_interleave.
  apply (contains_interleave is_num); auto using train_gaps_num.
  left; reflexivity.
Qed.

Lemma train_stem_no_key crop width depth key :
  In key (dict_keys coarse_class_to_idx) ->
  Py.contains key (train_stem crop width depth) = false.
Proof.
  intros Hin. cbn [dict_keys coarse_class_to_idx map fst In] in Hin.
  repeat (destruct Hin as [<-|Hin];
    [first
       [ rewrite train_stem_contains by reflexivity; reflexivity
       | apply (contains_missing_char "v");
           [apply train_stem_sep_free; reflexivity | reflexivity]
       | apply (contains_missing_char "g");
           [apply train_stem_sep_free; reflexivity | reflexivity] ] |]).
  destruct Hin.
Qed.

Lemma train_stem_superclass_to_idx crop width depth :
  Evaluate.superclass_to_idx (train_stem crop width depth) = Err StopIteration
  /\ Embeddings.superclass_to_idx (train_stem crop width depth)
     = Err StopIteration.
Proof.
  split.
  - rewrite evaluate_superclass_to_idx_scan
      by (rewrite train_stem_contains by reflexivity; reflexivity).
    apply scan_superclass_none. intros key. apply train_stem_no_key.
  - rewrite embeddings_superclass_to_idx_scan
      by (rewrite train_stem_contains by reflexivity; reflexivity).
    apply scan_superclass_none. intros key. apply train_stem_no_key.
Qed.

(** X9: evaluate.py and embeddings.py cannot decode a model saved by
    train_multiclass.py: for all integers and every directory, on the
    path directory/"wrn100class_crop<c>_width<w>_depth<d>.pt" the
    decoding of [main] raises StopIteration in both scripts, since the
    name holds neither "all_" nor a superclass name. *)
Theorem X9_train_name_not_decoded (dir : string) (crop width depth : Z) :
  Evaluate.main_decode
    (dir +:+ "/" +:+ Train_multiclass.model_filename crop width depth)
  = Err StopIteration
  /\ Embeddings.main_decode
       (dir +:+ "/" +:+ Train_multiclass.model_filename crop width depth)
     = Err StopIteration.
Proof.
  pose proof (train_stem_superclass_to_idx crop width depth) as [Hev Hem].
  unfold Evaluate.main_decode, Evaluate.parse_model_path,
    Embeddings.main_decode, Embeddings.parse_model_path.
  change (dir +:+ "/" +:+ Train_multiclass.model_filename crop width depth)
    with (dir +:+ String "/" (Train_multiclass.model_filename crop width depth)).
  rewrite (last_item_split_path "/" dir _ (train_name_sep_free crop width depth)).
  cbn [bind]. rewrite train_name_strip, Hev, Hem. split; reflexivity.
Qed.

End CrossScripts.

(** ** The model files found under a directory *)

Section FindModelFiles.

Lemma endswith_app suffix s :
  Py.endswith suffix s = true -> exists pre, s = pre +:+ suffix.
Proof.
  induction s as [|c s IH]; simpl.
  - rewrite orb_false_r. intros ->%String.eqb_eq. now exists EmptyString.
  - intros [->%String.eqb_eq|Hs]%orb_true_iff.
    + now exists EmptyString.
    + destruct (IH Hs) as (pre & ->). now exists (String c pre).
Qed.

Lemma app_endswith pre suffix : Py.endswith suffix (pre +:+ suffix) = true.
Proof.
  induction pre as [|c pre IH].
  - destruct suffix; cbn [String.append Py.endswith]; apply orb_true_iff; left;
      apply String.eqb_refl.
  - cbn [String.append Py.endswith]. rewrite IH. apply orb_true_r.
Qed.

Lemma startswith_app prefix s :
  Py.startswith prefix s = true -> exists rest, s = prefix +:+ rest.
Proof.
  unfold Py.startswith. revert s.
  induction prefix as [|a prefix IH]; intros s; simpl.
  - now exists s.
  - destruct s as [|b s]; [discriminate |]. simpl.
    destruct (ascii_dec a b) as [->|]; [|discriminate].
    intros (rest & ->)%IH. now exists rest.
Qed.

Lemma app_startswith prefix rest : Py.startswith prefix (prefix +:+ rest) = true.
Proof. apply prefix_self_app. Qed.

(** A file that [find_model_files] keeps is "model_", a stem and ".pt". *)
Lemma kept_file_shape file :
  Py.startswith "model_" file && Py.endswith ".pt" file = true
  <-> exists stem, file = "model_" +:+ stem +:+ ".pt".
Proof.
  split.
  - intros [(rest & ->)%startswith_app Hend]%andb_true_iff.
    change (Py.endswith ".pt" ("model_" +:+ rest))
      with (Py.endswith ".pt" rest) in Hend.
    apply endswith_app in Hend as (stem & ->). now exists stem.
  - intros (stem & ->). apply andb_true_iff. split.
    + apply app_startswith.
    + change (Py.endswith ".pt" ("model_" +:+ stem +:+ ".pt"))
        with (Py.endswith ".pt" (stem +:+ ".pt")).
      apply app_endswith.
Qed.

(** The last component of [os.path.join(root, file)] is the file. *)
Lemma os_path_join_basename root file :
  sep_free "/" file = true ->
  Py.last_item (Py.split "/" (Py.os_path_join root file)) = Ok file.
Proof.
  intros Hfile. unfold Py.os_path_join.
  assert (Py.startswith "/" file = false) as ->.
  { unfold Py.startswith, sep_free in *.
    destruct file as [|c file]; [reflexivity |].
    cbn [string_forall] in Hfile. apply andb_true_iff in Hfile as [Hc _].
    cbn [String.prefix]. destruct (ascii_dec "/" c) as [<-|]; [|reflexivity].
    rewrite Ascii.eqb_refl in Hc. discriminate. }
  destruct root as [|c root].
  - now apply last_item_split_sep_free.
  - destruct (Py.endswith "/" (String c root)) eqn:Hend.
    + apply endswith_app in Hend as (pre & ->).
      rewrite append_assoc. now apply (last_item_split_path "/" pre file).
    + now apply (last_item_split_path "/" (String c root) file).
Qed.

(** The decoders give on a path what they give on its last component. *)
Lemma decode_basename p file :
  sep_free "/" file = true ->
  Py.last_item (Py.split "/" p) = Ok file ->
  Evaluate.main_decode p = Evaluate.main_decode file
  /\ Embeddings.main_decode p = Embeddings.main_decode file
  /\ Evaluate_multiclass.main_decode p = Evaluate_multiclass.main_decode file.
Proof.
  intros Hfile Hp.
  pose proof (last_item_split_sep_free "/" file Hfile) as Hplain.
  unfold Evaluate.main_decode, Embeddings.main_decode,
    Evaluate_multiclass.main_decode, Evaluate.parse_model_path,
    Embeddings.parse_model_path, Evaluate_multiclass.parse_model_path.
  rewrite Hp, Hplain. repeat split; reflexivity.
Qed.

Lemma find_model_files_In walk p :
  In p (Embeddings.find_model_files walk)
  <-> exists root dirs files file,
        In (root, dirs, files) walk /\ In file files
        /\ Py.startswith "model_" file && Py.endswith ".pt" file = true
        /\ p = Py.os_path_join root file.
Proof.
  unfold Embeddings.find_model_files. rewrite in_flat_map. split.
  - intros ([[root dirs] files] & Hentry & Hp). cbn [fst snd] in Hp.
    apply in_map_iff in Hp as (file & <- & [Hfile Hkept]%filter_In).
    now exists root, dirs, files, file.
  - intros (root & dirs & files & file & Hentry & Hfile & Hkept & ->).
    exists (root, dirs, files). split; [exact Hentry |]. cbn [fst snd].
    apply in_map. now apply filter_In.
Qed.

(** X10: what [find_model_files] returns.  A path is returned exactly when
    it is [os.path.join(root, file)] for a file of the walk of the form
    "model_<stem>.pt"; when the file names of the walk hold no "/", the
    last component of a returned path is that file, and the three
    scripts decode the path as they decode the file name.  The three
    scripts' [find_model_files] return the same list. *)
Theorem X10_find_model_files (walk : list (string * list string * list string))
    (p : string) :
  (forall root dirs files file,
     In (root, dirs, files) walk -> In file files -> sep_free "/" file = true) ->
  Evaluate.find_model_files walk = Embeddings.find_model_files walk
  /\ Evaluate_multiclass.find_model_files walk = Embeddings.find_model_files walk
  /\ (In p (Embeddings.find_model_files walk)
      <-> exists root dirs files stem,
            In (root, dirs, files) walk
            /\ In ("model_" +:+ stem +:+ ".pt") files
            /\ p = Py.os_path_join root ("model_" +:+ stem +:+ ".pt"))
  /\ (In p (Embeddings.find_model_files walk) ->
      exists stem,
        Py.last_item (Py.split "/" p) = Ok ("model_" +:+ stem +:+ ".pt")
        /\ Evaluate.main_decode p
           = Evaluate.main_decode ("model_" +:+ stem +:+ ".pt")
        /\ Embeddings.main_decode p
           = Embeddings.main_decode ("model_" +:+ stem +:+ ".pt")
        /\ Evaluate_multiclass.main_decode p
           = Evaluate_multiclass.main_decode ("model_" +:+ stem +:+ ".pt")).
Proof.
  intros Hwalk. split; [reflexivity |]. split; [reflexivity |].
  assert (In p (Embeddings.find_model_files walk)
          <-> exists root dirs files stem,
                In (root, dirs, files) walk
                /\ In ("model_" +:+ stem +:+ ".pt") files
                /\ p = Py.os_path_join root ("model_" +:+ stem +:+ ".pt"))
    as Hiff.
  { rewrite find_model_files_In. split.
    - intros (root & dirs & files & file & Hentry & Hfile
              & (stem & ->)%kept_file_shape & ->).
      now exists root, dirs, files, stem.
    - intros (root & dirs & files & stem & Hentry & Hfile & ->).
      exists root, dirs, files, ("model_" +:+ stem +:+ ".pt").
      repeat split; try assumption. apply kept_file_shape. now exists stem. }
  split; [exact Hiff |].
  intros (root & dirs & files & stem & Hentry & Hfile & ->)%Hiff.
  exists stem. pose proof (Hwalk _ _ _ _ Hentry Hfile) as Hfree.
  pose proof (os_path_join_basename root _ Hfree) as Hbase.
  split; [exact Hbase |]. now apply decode_basename.
Qed.

Lemma X10_find_model_files_witness :
  In "models/fine/model_fine_trees_crop32_kernel8_width4_depth16.pt"
    (Embeddings.find_model_files
       [("models", ["fine"], ["notes.txt"]);
        ("models/fine", [],
         ["model_fine_trees_crop32_kernel8_width4_depth16.pt";
          "wrn100class_crop24_width8_depth16.pt"])])
  <-> exists root dirs files stem,
        In (root, dirs, files)
          [("models", ["fine"], ["notes.txt"]);
           ("models/fine", [],
            ["model_fine_trees_crop32_kernel8_width4_depth16.pt";
             "wrn100class_crop24_width8_depth16.pt"])]
        /\ In ("model_" +:+ stem +:+ ".pt") files
        /\ "models/fine/model_fine_trees_crop32_kernel8_width4_depth16.pt"
           = Py.os_path_join root ("model_" +:+ stem +:+ ".pt").
Proof.
  destruct (X10_find_model_files
              [("models", ["fine"], ["notes.txt"]);
               ("models/fine", [],
                ["model_fine_trees_crop32_kernel8_width4_depth16.pt";
                 "wrn100class_crop24_width8_depth16.pt"])]
              "models/fine/model_fine_trees_crop32_kernel8_width4_depth16.pt")
    as (_ & _ & H & _); [|exact H].
  intros root dirs files file Hentry Hfile. cbn [In] in Hentry.
  destruct Hentry as [[= <- <- <-]|[[= <- <- <-]|[]]]; cbn [In] in Hfile.
  - destruct Hfile as [<-|[]]. reflexivity.
  - destruct Hfile as [<-|[<-|[]]]; reflexivity.
Defined.

(** X11: [find_model_files] never returns a model saved by
    train_multiclass.py: when every file of the walk has a name that
    script writes, the list is empty in the three scripts. *)
Theorem X11_train_names_not_found
    (walk : list (string * list string * list string)) :
  (forall root dirs files file,
     In (root, dirs, files) walk -> In file files ->
     exists crop width depth,
       file = Train_multiclass.model_filename crop width depth) ->
  Evaluate.find_model_files walk = []
  /\ Embeddings.find_model_files walk = []
  /\ Evaluate_multiclass.find_model_files walk = [].
Proof.
  intros Hwalk.
  assert (Embeddings.find_model_files walk = []) as Hnone.
  { destruct (Embeddings.find_model_files walk) as [|p l] eqn:Hfound;
      [reflexivity |].
    assert (In p (Embeddings.find_model_files walk)) as Hp
      by (rewrite Hfound; now left).
    apply find_model_files_In in Hp
      as (root & dirs & files & file & Hentry & Hfile & Hkept & _).
    destruct (Hwalk _ _ _ _ Hentry Hfile) as (crop & width & depth & ->).
    discriminate Hkept. }
  repeat split; exact Hnone.
Qed.

Lemma X11_train_names_not_found_witness :
  Embeddings.find_model_files
    [("models/last_minute", [],
      [Train_multiclass.model_filename 24 8 16;
       Train_multiclass.model_filename 32 4 28])] = [].
Proof.
  destruct (X11_train_names_not_found
              [("models/last_minute", [],
                [Train_multiclass.model_filename 24 8 16;
                 Train_multiclass.model_filename 32 4 28])])
    as (_ & H & _); [|exact H].
  intros root dirs files file Hentry Hfile. cbn [In] in Hentry.
  destruct Hentry as [[= <- <- <-]|[]]. cbn [In] in Hfile.
  destruct Hfile as [<-|[<-|[]]].
  - now exists 24, 8, 16.
  - now exists 32, 4, 28.
Defined.

End FindModelFiles.

(** ** The four tables of the coarse classes *)

Section CoarseTables.
Import Cifar_utils.

Lemma In_enumerate_from {A : Type} (l : list A) (start i : Z) (x : A) :
  In (i, x) (enumerate_from start l)
  <-> start <= i /\ l !! Z.to_nat (i - start) = Some x.
Proof.
  revert start. induction l as [|y l IH]; intros start; cbn [enumerate_from In].
  - split; [tauto | intros [_ H]; discriminate].
  - rewrite IH. split.
    + intros [[= <- <-]|[Hs Hl]].
      * split; [lia |]. now rewrite Z.sub_diag.
      * split; [lia |].
        replace (Z.to_nat (i - start)) with (S (Z.to_nat (i - (start + 1))))
          by lia.
        exact Hl.
    + intros [Hs Hl]. destruct (decide (i = start)) as [->|Hne].
      * left. rewrite Z.sub_diag in Hl. simpl in Hl. congruence.
      * right. split; [lia |].
        replace (Z.to_nat (i - start)) with (S (Z.to_nat (i - (start + 1))))
          in Hl by lia.
        exact Hl.
Qed.

(** [dict(items)] with distinct keys holds exactly the items. *)
Lemma dict_of_items_acc {K V : Type} `{Countable K} (items : list (K * V))
    (acc : gmap K V) (k : K) (v : V) :
  NoDup (map fst items) ->
  (forall k', In k' (map fst items) -> acc !! k' = None) ->
  foldl (fun d item => <[fst item := snd item]> d) acc items !! k = Some v
  <-> acc !! k = Some v \/ In (k, v) items.
Proof.
  revert acc. induction items as [|[k0 v0] items IH]; intros acc Hnd Hacc.
  - simpl. tauto.
  - cbn [map fst] in Hnd, Hacc. apply NoDup_cons in Hnd as [Hk0 Hnd].
    cbn [foldl fst snd]. rewrite IH; [|exact Hnd |].
    + rewrite lookup_insert_Some. cbn [In].
      assert (acc !! k0 = None) as Hnone by (apply Hacc; now left).
      split.
      * intros [[[<- <-]|[_ Hin]]|Hin]; auto.
      * intros [Hin|[[= <- <-]|Hin]]; auto.
        left. right. split; [|exact Hin]. intros <-. congruence.
    + intros k' Hk'. rewrite lookup_insert_None. split.
      * apply Hacc. now right.
      * intros <-. apply Hk0. now apply list_elem_of_In.
Qed.

Lemma dict_of_items_lookup {K V : Type} `{Countable K} (items : list (K * V))
    (k : K) (v : V) :
  NoDup (map fst items) ->
  dict_of_items items !! k = Some v <-> In (k, v) items.
Proof.
  intros Hnd. unfold dict_of_items. rewrite dict_of_items_acc; [|exact Hnd |].
  - rewrite lookup_empty. split; [intros [[=]|Hin]; exact Hin | auto].
  - intros k' _. apply lookup_empty.
Qed.

(** [d[key]] on a dict with distinct keys. *)
Lemma dict_getitem_In (d : list (string * Z)) (key : string) (v : Z) :
  NoDup (map fst d) ->
  dict_getitem d key = Ok v <-> In (key, v) d.
Proof.
  induction d as [|[k0 v0] d IH]; intros Hnd; cbn [dict_getitem In].
  - split; [discriminate | tauto].
  - cbn [map fst] in Hnd. apply NoDup_cons in Hnd as [Hk0 Hnd].
    destruct (String.eqb_spec k0 key) as [->|Hne].
    + split.
      * intros [= ->]. now left.
      * intros [[= ->]|Hin]; [reflexivity |]. exfalso. apply Hk0.
        apply list_elem_of_In. change key with (fst (key, v)). now apply in_map.
    + rewrite (IH Hnd). split; [auto |].
      intros [[= -> ->]|Hin]; [congruence | exact Hin].
Qed.

Lemma coarse_keys_NoDup : NoDup (map fst coarse_class_to_idx).
Proof. apply (bool_decide_unpack _). vm_compute. exact I. Qed.

Lemma coarse_idxs_NoDup : NoDup (map snd coarse_class_to_idx).
Proof. apply (bool_decide_unpack _). vm_compute. exact I. Qed.

Lemma coarse_class_to_idx_enumerate :
  coarse_class_to_idx
  = map (fun L => (snd L, fst L)) (enumerate coarse_classes).
Proof. reflexivity. Qed.

Lemma In_swap {A B : Type} (l : list (A * B)) (a : A) (b : B) :
  In (b, a) (map (fun L => (snd L, fst L)) l) <-> In (a, b) l.
Proof.
  rewrite in_map_iff. split.
  - now intros ([a' b'] & [= <- <-] & Hin).
  - intros Hin. now exists (a, b).
Qed.

Lemma map_fst_swap {A B : Type} (l : list (A * B)) :
  map fst (map (fun L => (snd L, fst L)) l) = map snd l.
Proof. rewrite map_map. reflexivity. Qed.

Lemma coarse_idxs_In (name : string) (idx : Z) :
  coarse_idxs !! name = Some idx <-> In (name, idx) coarse_class_to_idx.
Proof.
  unfold coarse_idxs. rewrite <- coarse_class_to_idx_enumerate.
  apply dict_of_items_lookup, coarse_keys_NoDup.
Qed.

Lemma coarse_idx_to_class_In (name : string) (idx : Z) :
  coarse_idx_to_class !! idx = Some name <-> In (name, idx) coarse_class_to_idx.
Proof.
  change coarse_idx_to_class
    with (dict_of_items (map (fun L => (snd L, fst L)) coarse_class_to_idx)).
  rewrite dict_of_items_lookup
    by (rewrite map_fst_swap; apply coarse_idxs_NoDup).
  apply In_swap.
Qed.

Lemma coarse_classes_In (name : string) (idx : Z) :
  In (name, idx) coarse_class_to_idx
  <-> 0 <= idx <= 19 /\ coarse_classes !! Z.to_nat idx = Some name.
Proof.
  rewrite coarse_class_to_idx_enumerate, In_swap.
  unfold enumerate. rewrite In_enumerate_from, Z.sub_0_r. split.
  - intros [H0 Hl]. split; [|exact Hl]. split; [exact H0 |].
    apply lookup_lt_Some in Hl. simpl in Hl. lia.
  - intros [[H0 _] Hl]. now split.
Qed.

(** X12: the four tables of the coarse classes agree.  The keys of
    [coarse_class_to_idx] are [coarse_classes] in order; a name has index
    [idx] in [coarse_class_to_idx] exactly when it has it in the computed
    dict [coarse_idxs], exactly when [coarse_idx_to_class] sends [idx]
    back to the name, and exactly when the name stands at position [idx]
    of [coarse_classes], which makes [idx] one of 0..19. *)
Theorem X12_coarse_tables_agree (name : string) (idx : Z) :
  dict_keys coarse_class_to_idx = coarse_classes
  /\ (dict_getitem coarse_class_to_idx name = Ok idx
      <-> coarse_idxs !! name = Some idx)
  /\ (coarse_idxs !! name = Some idx
      <-> coarse_idx_to_class !! idx = Some name)
  /\ (coarse_idx_to_class !! idx = Some name
      <-> 0 <= idx <= 19 /\ coarse_classes !! Z.to_nat idx = Some name).
Proof.
  split; [reflexivity |]. split; [|split].
  - rewrite coarse_idxs_In. apply dict_getitem_In, coarse_keys_NoDup.
  - now rewrite coarse_idxs_In, coarse_idx_to_class_In.
  - rewrite coarse_idx_to_class_In. apply coarse_classes_In.
Qed.

(** X17: every fine class has a coarse class in every table: for a
    position of [fine_classes], the lookup [fine_to_coarse_idxs.get] at
    that position returns a coarse index, [coarse_idx_to_class] has a
    name for that index, and [coarse_class_to_idx] and [coarse_idxs] send
    the name back to the index. *)
Theorem X17_fine_class_has_coarse_class (i : nat) (fine : string) :
  fine_classes !! i = Some fine ->
  exists c coarse,
    dict_get fine_to_coarse_idxs (Z.of_nat i) = VInt c
    /\ coarse_idx_to_class !! c = Some coarse
    /\ dict_getitem coarse_class_to_idx coarse = Ok c
    /\ coarse_idxs !! coarse = Some c.
Proof.
  intros Hi%lookup_lt_Some.
  change (length fine_classes) with 100%nat in Hi.
  destruct (dict_get_in_range (Z.of_nat i) ltac:(lia)) as (c & Hget & Hc & _).
  destruct (lookup_lt_is_Some_2 coarse_classes (Z.to_nat c)) as [coarse Hcoarse].
  { change (length coarse_classes) with 20%nat. lia. }
  assert (In (coarse, c) coarse_class_to_idx) as Hin
    by (apply coarse_classes_In; split; [lia | exact Hcoarse]).
  exists c, coarse. split; [exact Hget |].
  split; [now apply coarse_idx_to_class_In |].
  split; [|now apply coarse_idxs_In].
  now apply dict_getitem_In; [apply coarse_keys_NoDup |].
Qed.

Lemma X17_fine_class_has_coarse_class_witness :
  exists c coarse,
    dict_get fine_to_coarse_idxs (Z.of_nat 91) = VInt c
    /\ coarse_idx_to_class !! c = Some coarse
    /\ dict_getitem coarse_class_to_idx coarse = Ok c
    /\ coarse_idxs !! coarse = Some c.
Proof.
  apply (X17_fine_class_has_coarse_class 91 "trout"). reflexivity.
Defined.

End CoarseTables.

(** ** The labels and loaders chosen in [main] *)

Section MainSelect.
Import Cifar_utils.

Lemma remap_targets_range (targets : list Z) :
  Forall (fun t => 0 <= t <= 99) targets ->
  Forall (fun v => exists z, v = VInt z /\ 0 <= z < 20)
    (Embeddings.remap_targets targets).
Proof.
  intros Ht. unfold Embeddings.remap_targets. apply List.Forall_map.
  apply (List.Forall_impl _ (P := fun t => 0 <= t <= 99)); [|exact Ht].
  intros t Hr. destruct (dict_get_in_range t Hr) as (c & -> & Hc & _).
  exists c. split; [reflexivity | lia].
Qed.

Lemma fine_targets_range (targets : list Z) :
  Forall (fun t => 0 <= t <= 99) targets ->
  Forall (fun v => exists z, v = VInt z /\ 0 <= z < 100) (map VInt targets).
Proof.
  intros Ht. apply List.Forall_map.
  apply (List.Forall_impl _ (P := fun t => 0 <= t <= 99)); [|exact Ht].
  intros t Hr. exists t. split; [reflexivity | lia].
Qed.

(** X13: the choice of labels and loaders in [main] never fails after
    [get_parameters] has returned: the decoded granularity is "coarse" or
    "fine", so [n_labels] is 20 or 100, the same in evaluate.py and
    embeddings.py, and the branch that raises "model filename does not
    contain granularity" is never taken.  When the targets of the test
    and validation sets are fine labels 0..99, the chosen loaders have as
    many targets, each an integer from 0 up to [n_labels] - 1. *)
Theorem X13_labels_in_range (model_filename g : string)
    (cls crop kernel width depth : Z) (test_targets validation_targets : list Z) :
  Embeddings.get_parameters model_filename
  = Ok (g, cls, crop, kernel, width, depth) ->
  Forall (fun t => 0 <= t <= 99) test_targets ->
  Forall (fun t => 0 <= t <= 99) validation_targets ->
  exists n tt vt,
    Embeddings.main_select g test_targets validation_targets = Ok (n, tt, vt)
    /\ Evaluate.main_n_labels g = Ok n
    /\ (n = 20 \/ n = 100)
    /\ length tt = length test_targets
    /\ length vt = length validation_targets
    /\ Forall (fun v => exists z, v = VInt z /\ 0 <= z < n) tt
    /\ Forall (fun v => exists z, v = VInt z /\ 0 <= z < n) vt.
Proof.
  intros Hpar Htest Hval.
  apply get_parameters_inv in Hpar as (Hg & _).
  unfold Evaluate.get_granularity in Hg.
  destruct (Py.contains "coarse" model_filename).
  - injection Hg as <-.
    exists 20, (Embeddings.remap_targets test_targets),
      (Embeddings.remap_targets validation_targets).
    repeat split; auto using remap_targets_range;
      unfold Embeddings.remap_targets; now rewrite length_map.
  - destruct (Py.contains "fine" model_filename); [|discriminate].
    injection Hg as <-.
    exists 100, (map VInt test_targets), (map VInt validation_targets).
    repeat split; auto using fine_targets_range; now rewrite length_map.
Qed.

Lemma X13_labels_in_range_witness :
  exists n tt vt,
    Embeddings.main_select "coarse" [0; 41; 99] [7; 58]
    = Ok (n, tt, vt)
    /\ Evaluate.main_n_labels "coarse" = Ok n
    /\ (n = 20 \/ n = 100)
    /\ length tt = length [0; 41; 99]
    /\ length vt = length [7; 58]
    /\ Forall (fun v => exists z, v = VInt z /\ 0 <= z < n) tt
    /\ Forall (fun v => exists z, v = VInt z /\ 0 <= z < n) vt.
Proof.
  apply (X13_labels_in_range "coarse_class1_crop32_kernel8_width4_depth16"
           "coarse" 1 32 8 4 16 [0; 41; 99] [7; 58]).
  - reflexivity.
  - repeat constructor; lia.
  - repeat constructor; lia.
Defined.

End MainSelect.

(** ** The crop size of the loaders *)

Section CropSize.

Lemma set_crop_size_twice (transforms : list transform) (a c : Z) :
  Train_multiclass.set_crop_size
    (Train_multiclass.set_crop_size transforms a) c
  = Train_multiclass.set_crop_size transforms c.
Proof.
  unfold Train_multiclass.set_crop_size. rewrite map_map.
  apply map_ext. now intros [].
Qed.

Lemma set_crop_size_foldl (transforms : list transform) (a : Z)
    (sizes : list Z) :
  exists b,
    foldl Train_multiclass.set_crop_size
      (Train_multiclass.set_crop_size transforms a) sizes
    = Train_multiclass.set_crop_size transforms b.
Proof.
  revert a. induction sizes as [|c sizes IH]; intros a; cbn [foldl].
  - now exists a.
  - rewrite set_crop_size_twice. apply IH.
Qed.

(** X14: [set_crop_size] changes the [RandomCrop] transforms only, to the
    square of the given size, and the last call decides: the list keeps
    its length, at every position a [RandomCrop] becomes
    [RandomCrop (c, c)] and any other transform is unchanged, and after
    any sequence of calls on the same list the result is what the last
    call alone gives.  The
    copies of evaluate_multiclass.py and train_multiclass.py agree.  In
    train_multiclass.py the training pipeline gets the crop size, and the
    test pipeline, which has no [RandomCrop], stays as it is; the test
    pipeline of evaluate_multiclass.py does get the crop size. *)
Theorem X14_set_crop_size (transforms : list transform) (a c : Z) :
  Evaluate_multiclass.set_crop_size transforms c
  = Train_multiclass.set_crop_size transforms c
  /\ length (Train_multiclass.set_crop_size transforms c) = length transforms
  /\ (forall (i : nat),
        Train_multiclass.set_crop_size transforms c !! i
        = match transforms !! i with
          | Some (RandomCrop _) => Some (RandomCrop (c, c))
          | other => other
          end)
  /\ (forall sizes : list Z,
        foldl Train_multiclass.set_crop_size
          (Train_multiclass.set_crop_size transforms a) (sizes ++ [c])
        = Train_multiclass.set_crop_size transforms c)
  /\ Train_multiclass.set_crop_size (Train_multiclass.get_dataset true) c
     = [RandomCrop (c, c); RandomHorizontalFlip; ToTensor; Normalize; Cutout]
  /\ Train_multiclass.set_crop_size (Train_multiclass.get_dataset false) c
     = Train_multiclass.get_dataset false
  /\ Evaluate_multiclass.set_crop_size Evaluate_multiclass.get_test_dataloader c
     = [RandomCrop (c, c); ToTensor; Normalize].
Proof.
  split; [reflexivity |]. split; [apply length_map |]. split; [|split].
  - intros i. unfold Train_multiclass.set_crop_size.
    rewrite list_lookup_fmap. destruct (transforms !! i) as [[]|]; reflexivity.
  - intros sizes. rewrite foldl_app. cbn [foldl].
    destruct (set_crop_size_foldl transforms a sizes) as (b & ->).
    apply set_crop_size_twice.
  - repeat split; reflexivity.
Qed.

End CropSize.

(** ** The validation set *)

Section ValidationSet.
Import Cifar_utils Validation_data.

Lemma class_indices_In targets cls i :
  In i (class_indices targets cls) <-> has_class targets cls i = true.
Proof.
  unfold class_indices, has_class, enumerate.
  rewrite in_map_iff, andb_true_iff, Z.leb_le. split.
  - intros ([i' b] & <- & [Hin Hb]%filter_In). cbn [fst snd] in *. subst b.
    apply In_enumerate_from in Hin as [H0 Hl].
    rewrite Z.sub_0_r, list_lookup_fmap in Hl. split; [exact H0 |].
    destruct (targets !! Z.to_nat i') as [t|]; [|discriminate].
    now injection Hl.
  - intros [H0 Hl]. exists (i, true). split; [reflexivity |].
    apply filter_In. split; [|reflexivity].
    apply In_enumerate_from. split; [exact H0 |].
    rewrite Z.sub_0_r, list_lookup_fmap.
    destruct (targets !! Z.to_nat i) as [t|]; [|discriminate].
    simpl. now rewrite Hl.
Qed.

Lemma enumerate_from_filter_ge {A : Type} (f : Z * A -> bool) (l : list A)
    (start i : Z) :
  In i (map fst (List.filter f (enumerate_from start l))) -> start <= i.
Proof.
  intros ([i' x] & <- & [Hin _]%filter_In)%in_map_iff.
  now apply In_enumerate_from in Hin as [H0 _].
Qed.

Lemma enumerate_from_filter_NoDup {A : Type} (f : Z * A -> bool) (l : list A)
    (start : Z) :
  NoDup (map fst (List.filter f (enumerate_from start l))).
Proof.
  revert start. induction l as [|x l IH]; intros start;
    cbn [enumerate_from List.filter].
  - constructor.
  - destruct (f (start, x)); [|apply IH].
    cbn [map fst]. apply NoDup_cons. split; [|apply IH].
    intros Hin%list_elem_of_In%enumerate_from_filter_ge. lia.
Qed.

Lemma class_indices_NoDup targets cls : NoDup (class_indices targets cls).
Proof. apply enumerate_from_filter_NoDup. Qed.

Lemma enumerate_from_filter_length (mask : list bool) (start : Z) :
  length (List.filter snd (enumerate_from start mask))
  = length (List.filter (fun b => b) mask).
Proof.
  revert start. induction mask as [|b mask IH]; intros start; [reflexivity |].
  cbn [enumerate_from List.filter snd]. destruct b; cbn [length]; now rewrite IH.
Qed.

(** There are as many indices of a class as targets equal to it. *)
Lemma class_indices_length targets cls :
  length (class_indices targets cls)
  = length (List.filter (fun t => t =? cls) targets).
Proof.
  unfold class_indices, enumerate.
  rewrite length_map, enumerate_from_filter_length.
  induction targets as [|t targets IH]; [reflexivity |].
  cbn [map List.filter]. destruct (t =? cls); cbn [length]; now rewrite IH.
Qed.

(** A position holds one class. *)
Lemma has_class_inj targets c c' i :
  has_class targets c i = true -> has_class targets c' i = true -> c = c'.
Proof.
  unfold has_class. intros [_ H]%andb_true_iff [_ H']%andb_true_iff.
  destruct (targets !! Z.to_nat i) as [t|]; [|discriminate].
  apply Z.eqb_eq in H, H'. congruence.
Qed.

Lemma has_class_range targets c i :
  has_class targets c i = true -> 0 <= i < Z.of_nat (length targets).
Proof.
  unfold has_class. intros [H0%Z.leb_le H]%andb_true_iff.
  destruct (targets !! Z.to_nat i) as [t|] eqn:Ht; [|discriminate].
  apply lookup_lt_Some in Ht. lia.
Qed.

Lemma class_count_app targets c l k :
  class_count targets c (l ++ k)
  = (class_count targets c l + class_count targets c k)%nat.
Proof. unfold class_count. now rewrite List.filter_app, length_app. Qed.

Lemma filter_all {A : Type} (f : A -> bool) (l : list A) :
  (forall x, In x l -> f x = true) -> List.filter f l = l.
Proof.
  induction l as [|x l IH]; intros Hall; [reflexivity |]. simpl.
  rewrite (Hall x) by now left. f_equal. apply IH. intros y Hy.
  apply Hall. now right.
Qed.

Lemma filter_none {A : Type} (f : A -> bool) (l : list A) :
  (forall x, In x l -> f x = false) -> List.filter f l = [].
Proof.
  induction l as [|x l IH]; intros Hall; [reflexivity |]. simpl.
  rewrite (Hall x) by now left. apply IH. intros y Hy.
  apply Hall. now right.
Qed.

Lemma class_count_all targets c l :
  (forall i, In i l -> has_class targets c i = true) ->
  class_count targets c l = length l.
Proof. intros Hall. unfold class_count. now rewrite filter_all. Qed.

Lemma class_count_none targets c l :
  (forall i, In i l -> has_class targets c i = false) ->
  class_count targets c l = 0%nat.
Proof. intros Hall. unfold class_count. now rewrite filter_none. Qed.

Context {rng : Type} (choose : rng -> list Z -> nat -> list Z * rng).
Hypothesis choose_spec : sample_spec choose.

Lemma class_count_drawn targets cls c drawn :
  (forall i, In i drawn -> has_class targets cls i = true) ->
  class_count targets c drawn
  = if decide (c = cls) then length drawn else 0%nat.
Proof.
  intros Hdc. destruct (decide (c = cls)) as [->|Hne].
  - now apply class_count_all.
  - apply class_count_none. intros i Hi.
    destruct (has_class targets c i) eqn:Hc; [|reflexivity].
    exfalso. apply Hne. apply (has_class_inj targets c cls i); auto.
Qed.

(** The loop over the classes: it draws 200 indices of each class. *)
Lemma sample_classes_spec targets class_numbers :
  NoDup class_numbers ->
  (forall cls, In cls class_numbers ->
               (200 <= length (class_indices targets cls))%nat) ->
  forall st sampled,
    NoDup sampled ->
    (forall i, In i sampled ->
               exists c, has_class targets c i = true /\ ~ In c class_numbers) ->
    exists sampled',
      sample_classes choose st targets class_numbers sampled = Ok sampled'
      /\ NoDup sampled'
      /\ (forall i, In i sampled' -> exists c, has_class targets c i = true)
      /\ length sampled'
         = (length sampled + 200 * length class_numbers)%nat
      /\ (forall c, In c class_numbers ->
                    class_count targets c sampled'
                    = (class_count targets c sampled + 200)%nat)
      /\ (forall c, ~ In c class_numbers ->
                    class_count targets c sampled'
                    = class_count targets c sampled).
Proof.
  induction class_numbers as [|cls rest IH];
    intros Hnd Hsize st sampled Hsnd Hs; cbn [sample_classes].
  - exists sampled. split; [reflexivity |]. split; [exact Hsnd |].
    split; [|split; [simpl; lia | split; [intros c [] | reflexivity]]].
    intros i Hi. destruct (Hs i Hi) as (c & Hc & _). now exists c.
  - apply NoDup_cons in Hnd as [Hcls Hnd].
    unfold random_sample.
    pose proof (Hsize cls ltac:(now left)) as Hlen.
    destruct (Nat.ltb_spec (length (class_indices targets cls)) 200) as [|_];
      [lia |].
    cbn [bind].
    destruct (choose_spec st _ 200%nat (class_indices_NoDup targets cls) Hlen)
      as (Hdl & Hdnd & Hdin).
    destruct (choose st (class_indices targets cls) 200) as [drawn st'].
    cbn [fst snd] in *.
    assert (forall i, In i drawn -> has_class targets cls i = true) as Hdc.
    { intros i Hi. now apply class_indices_In, Hdin. }
    assert (~ In cls rest) as Hcls' by (now rewrite <- list_elem_of_In).
    destruct (IH Hnd (fun c Hc => Hsize c (or_intror Hc)) st' (sampled ++ drawn))
      as (sampled' & Heq & Hnd' & Hcl' & Hlen' & Hin' & Hout').
    + apply NoDup_app. repeat split; [exact Hsnd | | exact Hdnd].
      intros i Hi%list_elem_of_In Hi'%list_elem_of_In.
      destruct (Hs i Hi) as (c & Hc & Hnot). apply Hnot. left.
      apply (has_class_inj targets cls c i); auto.
    + intros i [Hi|Hi]%in_app_iff.
      * destruct (Hs i Hi) as (c & Hc & Hnot). exists c. split; [exact Hc |].
        intros Hin. apply Hnot. now right.
      * exists cls. split; [now apply Hdc |]. exact Hcls'.
    + exists sampled'. split; [exact Heq |]. split; [exact Hnd' |].
      split; [exact Hcl' |]. split; [|split].
      * rewrite Hlen', length_app, Hdl. simpl. lia.
      * intros c [<-|Hc].
        -- rewrite (Hout' cls Hcls'), class_count_app.
           rewrite (class_count_drawn targets cls cls drawn Hdc).
           destruct (decide (cls = cls)); [lia | congruence].
        -- rewrite (Hin' c Hc), class_count_app.
           rewrite (class_count_drawn targets cls c drawn Hdc).
           destruct (decide (c = cls)) as [->|]; [contradiction | lia].
      * intros c Hc. rewrite Hout' by (intros Hin; apply Hc; now right).
        rewrite class_count_app.
        rewrite (class_count_drawn targets cls c drawn Hdc).
        destruct (decide (c = cls)) as [->|]; [|lia].
        exfalso. apply Hc. now left.
Qed.

(** The loop over the sampled indices: the mask holds [True] at them. *)
Lemma set_mask_spec sampled :
  forall mask,
    (forall i, In i sampled -> 0 <= i < Z.of_nat (length mask)) ->
    exists mask',
      set_mask mask sampled = Ok mask'
      /\ length mask' = length mask
      /\ (forall n, mask' !! n = Some true
                    <-> mask !! n = Some true \/ In (Z.of_nat n) sampled).
Proof.
  induction sampled as [|i rest IH]; intros mask Hr; cbn [set_mask].
  - exists mask. split; [reflexivity |]. split; [reflexivity |].
    intros n. simpl. tauto.
  - pose proof (Hr i ltac:(now left)) as Hi. unfold Py.setitem.
    destruct (Z.leb_spec 0 i); [|lia].
    destruct (Z.ltb_spec i (Z.of_nat (length mask))); [|lia].
    cbn [andb bind].
    destruct (IH (<[Z.to_nat i := true]> mask)) as (mask' & Heq & Hlen & Hl).
    + intros j Hj. rewrite length_insert. apply Hr. now right.
    + exists mask'. split; [exact Heq |].
      split; [now rewrite Hlen, length_insert |].
      intros n. rewrite Hl, list_lookup_insert_Some. cbn [In]. split.
      * intros [[(Hn & _ & _)|[_ Hm]]|Hin]; auto. right. left. lia.
      * intros [Hm|[Hn|Hin]]; auto.
        -- destruct (decide (Z.to_nat i = n)) as [Heq'|Hne].
           ++ left. left. apply lookup_lt_Some in Hm. auto.
           ++ left. right. auto.
        -- left. left. repeat split; lia.
Qed.

Lemma compress_filter_combine {A : Type} (P : A -> bool) data mask :
  length (List.filter P (Py.compress data mask))
  = length (List.filter (fun p => P (fst p) && snd p) (combine data mask)).
Proof.
  revert mask. induction data as [|x data IH]; intros [|b mask];
    try reflexivity.
  cbn [Py.compress combine List.filter fst snd].
  destruct b; [|rewrite andb_false_r; apply IH].
  rewrite andb_true_r. cbn [List.filter]. destruct (P x); [|apply IH].
  cbn [length]. now rewrite IH.
Qed.

Lemma filter_length_seq {A : Type} (f : A -> bool) (l : list A) :
  length (List.filter f l)
  = length (List.filter
              (fun n => match l !! n with Some x => f x | None => false end)
              (seq 0 (length l))).
Proof.
  induction l as [|x l IH] using rev_ind; [reflexivity |].
  rewrite length_app. cbn [length]. rewrite Nat.add_1_r, seq_S.
  rewrite !List.filter_app, !length_app, IH. f_equal.
  - f_equal. apply filter_ext_in. intros n Hn%in_seq.
    now rewrite lookup_app_l by lia.
  - cbn [List.filter]. rewrite Nat.add_0_l, list_lookup_middle by reflexivity.
    now destruct (f x).
Qed.

Lemma lookup_combine {A B : Type} (l : list A) (k : list B) (n : nat) :
  combine l k !! n
  = match l !! n, k !! n with
    | Some x, Some y => Some (x, y)
    | _, _ => None
    end.
Proof.
  revert k n. induction l as [|x l IH]; intros [|y k] [|n]; try reflexivity.
  - cbn. now destruct (l !! n).
  - exact (IH k n).
Qed.

(** What [compress] keeps when the mask marks the positions of [S]. *)
Lemma compress_count {A : Type} (P : A -> bool) (data : list A)
    (mask : list bool) (S : list Z) :
  NoDup S -> (forall i, In i S -> 0 <= i) ->
  (forall n, mask !! n = Some true <-> In (Z.of_nat n) S) ->
  length (List.filter P (Py.compress data mask))
  = length (List.filter
              (fun i => match data !! Z.to_nat i with
                        | Some x => P x
                        | None => false
                        end) S).
Proof.
  intros Hnd Hpos Hmask. rewrite compress_filter_combine, filter_length_seq.
  match goal with
  | |- _ = length (List.filter ?h S) =>
      rewrite <- (length_map Z.to_nat (List.filter h S))
  end.
  apply Permutation_length, NoDup_Permutation.
  - apply NoDup_ListNoDup, List.NoDup_filter, seq_NoDup.
  - apply NoDup_fmap_2_strong.
    + intros i j [Hi _]%list_elem_of_In%filter_In
        [Hj _]%list_elem_of_In%filter_In Heq.
      apply Hpos in Hi, Hj. lia.
    + apply NoDup_ListNoDup, List.NoDup_filter, NoDup_ListNoDup, Hnd.
  - intros n. rewrite !list_elem_of_In, in_map_iff, filter_In, in_seq.
    rewrite lookup_combine. split.
    + intros [_ Hn]. destruct (data !! n) as [x|] eqn:Hx; [|discriminate].
      destruct (mask !! n) as [b|] eqn:Hb; [|discriminate].
      cbn [fst snd] in Hn. apply andb_true_iff in Hn as [HP ->].
      exists (Z.of_nat n). split; [lia |]. apply filter_In.
      split; [now apply Hmask |]. now rewrite Nat2Z.id, Hx.
    + intros (i & <- & [Hi Hx]%filter_In).
      pose proof (Hpos i Hi) as H0.
      assert (mask !! Z.to_nat i = Some true) as Hb
        by (apply Hmask; now rewrite Z2Nat.id).
      destruct (data !! Z.to_nat i) as [x|] eqn:Hd; [|discriminate].
      rewrite Hb. cbn [fst snd]. rewrite Hx. split; [|reflexivity].
      apply lookup_lt_Some in Hd, Hb. rewrite length_combine. lia.
Qed.

Lemma compress_length {A : Type} (data : list A) (mask : list bool)
    (S : list Z) :
  NoDup S ->
  (forall i, In i S -> 0 <= i < Z.of_nat (length data)) ->
  (forall n, mask !! n = Some true <-> In (Z.of_nat n) S) ->
  length (Py.compress data mask) = length S.
Proof.
  intros Hnd Hr Hmask.
  rewrite <- (filter_all (fun _ => true) (Py.compress data mask)) by reflexivity.
  rewrite (compress_count _ data mask S Hnd); [|intros i Hi; apply Hr, Hi | exact Hmask].
  rewrite filter_all; [reflexivity |].
  intros i Hi. destruct (data !! Z.to_nat i) eqn:Hd; [reflexivity |].
  apply lookup_ge_None in Hd. apply Hr in Hi. lia.
Qed.

(** The targets and the data are cut alike: the pairs (target, item)
    kept are pairs of the training set, in its order. *)
Lemma compress_combine_sublist {A B : Type} (l : list A) (k : list B) mask :
  sublist (combine (Py.compress l mask) (Py.compress k mask)) (combine l k).
Proof.
  revert k mask. induction l as [|x l IH]; intros k mask.
  - apply sublist_nil_l.
  - destruct mask as [|b mask]; [apply sublist_nil_l |].
    destruct k as [|y k].
    + cbn [Py.compress]. destruct b; [|apply sublist_nil_l || idtac].
      * destruct (Py.compress l mask); apply sublist_nil_l.
      * destruct (Py.compress l mask); apply sublist_nil_l.
    + cbn [Py.compress combine]. destruct b.
      * cbn [combine]. apply sublist_skip, IH.
      * apply sublist_cons, IH.
Qed.

Lemma sample_classes_short targets cls class_numbers :
  In cls class_numbers ->
  (length (class_indices targets cls) < 200)%nat ->
  forall st sampled,
    sample_classes choose st targets class_numbers sampled
    = Err (ValueError "Sample larger than population or is negative").
Proof.
  intros Hin Hshort.
  induction class_numbers as [|c rest IH]; intros st sampled; [destruct Hin |].
  cbn [sample_classes]. unfold random_sample.
  destruct (Nat.ltb_spec (length (class_indices targets c)) 200) as [|Hge];
    [reflexivity |].
  cbn [bind]. apply IH. destruct Hin as [->|Hin]; [lia | exact Hin].
Qed.

(** X15: the validation set holds 200 samples of each of the 100 fine
    classes.  Let [random.sample] return as many distinct items of the
    population as asked for, let the training set have at most 50000
    targets, as many as data items, and at least 200 targets of every
    class 0..99.  Then [make_validation_dataset] returns; among the
    targets it keeps every class 0..99 occurs exactly 200 times; it keeps
    20000 targets and 20000 data items; and the pairs (target, item)
    kept are pairs of the training set, in the order of the training
    set. *)
Theorem X15_validation_set_balanced {A : Type} (st : rng) (targets : list Z)
    (data : list A) :
  Z.of_nat (length targets) <= 50000 ->
  length data = length targets ->
  (forall cls, 0 <= cls < 100 ->
     (200 <= length (List.filter (fun t => (t =? cls)%Z) targets))%nat) ->
  exists targets' data',
    make_validation_dataset choose st targets data = Ok (targets', data')
    /\ (forall cls, 0 <= cls < 100 ->
          length (List.filter (fun t => t =? cls) targets') = 200%nat)
    /\ Z.of_nat (length targets') = 20000
    /\ Z.of_nat (length data') = 20000
    /\ sublist (combine targets' data') (combine targets data).
Proof.
  intros Hlen Hdata Hsize. unfold make_validation_dataset.
  destruct (sample_classes_spec targets (seqZ 0 100) (NoDup_seqZ 0 100))
    with (st := st) (sampled := @nil Z)
    as (sampled & -> & Hnd & Hcl & Hl & Hin & _).
  { intros cls Hcls%list_elem_of_In%elem_of_seqZ.
    rewrite class_indices_length. apply Hsize. lia. }
  { constructor. }
  { intros i []. }
  assert (forall i, In i sampled -> 0 <= i < Z.of_nat (length targets)) as Hpos.
  { intros i Hi. destruct (Hcl i Hi) as (c & Hc).
    now apply has_class_range in Hc. }
  cbn [bind].
  destruct (set_mask_spec sampled (replicate (Z.to_nat 50000) false))
    as (mask & -> & _ & Hm).
  { intros i Hi%Hpos. rewrite length_replicate. lia. }
  assert (forall n, mask !! n = Some true <-> In (Z.of_nat n) sampled) as Hmask.
  { intros n. rewrite Hm. split; [|auto].
    intros [[? _]%lookup_replicate|Hi]; [discriminate | exact Hi]. }
  cbn [bind]. eexists _, _. split; [reflexivity |].
  rewrite length_seqZ in Hl. cbn [length] in Hl.
  split; [|split; [|split]].
  - intros cls Hcls.
    rewrite (compress_count _ targets mask sampled Hnd
               (fun i Hi => proj1 (Hpos i Hi)) Hmask).
    assert (In cls (seqZ 0 100)) as Hc
      by (apply list_elem_of_In, elem_of_seqZ; lia).
    transitivity (class_count targets cls sampled);
      [|rewrite (Hin cls Hc); reflexivity].
    unfold class_count. f_equal. apply filter_ext_in. intros i Hi%Hpos. unfold has_class.
    destruct (Z.leb_spec 0 i); [reflexivity | lia].
  - rewrite (compress_length targets mask sampled Hnd Hpos Hmask). lia.
  - rewrite (compress_length data mask sampled Hnd); [lia | | exact Hmask].
    rewrite Hdata. exact Hpos.
  - apply compress_combine_sublist.
Qed.

(** X16: [make_validation_dataset] raises the ValueError of
    [random.sample] when the training set holds fewer than 200 targets
    of one of the classes 0..99, whatever [random.sample] draws for the
    classes before it. *)
Theorem X16_validation_set_short_class {A : Type} (st : rng)
    (targets : list Z) (data : list A) (cls : Z) :
  0 <= cls < 100 ->
  (length (List.filter (fun t => (t =? cls)%Z) targets) < 200)%nat ->
  make_validation_dataset choose st targets data
  = Err (ValueError "Sample larger than population or is negative").
Proof.
  intros Hcls Hshort. unfold make_validation_dataset.
  rewrite (sample_classes_short targets cls);
    [reflexivity | | now rewrite class_indices_length].
  apply list_elem_of_In, elem_of_seqZ. lia.
Qed.

End ValidationSet.

Lemma firstn_sample_spec :
  sample_spec (fun (st : unit) (population : list Z) (k : nat) =>
                 (firstn k population, st)).
Proof.
  intros st population k Hnd Hk. cbn [fst]. split; [|split].
  - now apply firstn_length_le.
  - apply (sublist_NoDup _ population Hnd), sublist_take.
  - intros i Hi%list_elem_of_In. apply list_elem_of_In.
    apply (elem_of_sublist _ _ _ Hi), sublist_take.
Qed.

Lemma filter_concat_replicate {A : Type} (f : A -> bool) (n : nat)
    (l : list A) :
  length (List.filter f (concat (replicate n l)))
  = (n * length (List.filter f l))%nat.
Proof.
  induction n as [|n IH]; [reflexivity |].
  cbn [replicate concat]. rewrite List.filter_app, length_app, IH. lia.
Qed.

Lemma X15_validation_set_balanced_witness :
  exists targets' data',
    Validation_data.make_validation_dataset
      (fun (st : unit) (population : list Z) (k : nat) =>
         (firstn k population, st))
      tt (concat (replicate (Z.to_nat 201) (seqZ 0 100)))
      (map Py.str (concat (replicate (Z.to_nat 201) (seqZ 0 100))))
    = Ok (targets', data')
    /\ Z.of_nat (length targets') = 20000
    /\ Z.of_nat (length data') = 20000.
Proof.
  destruct (X15_validation_set_balanced _ firstn_sample_spec tt
              (concat (replicate (Z.to_nat 201) (seqZ 0 100)))
              (map Py.str (concat (replicate (Z.to_nat 201) (seqZ 0 100)))))
    as (targets' & data' & Heq & _ & Ht & Hd & _).
  - rewrite <- (filter_all (fun _ => true) (concat _)) by reflexivity.
    rewrite filter_concat_replicate, filter_all by reflexivity.
    rewrite length_seqZ. lia.
  - apply length_map.
  - intros cls Hcls. rewrite filter_concat_replicate.
    assert (forallb
              (fun cls =>
                 (length (List.filter (fun t => (t =? cls)%Z) (seqZ 0 100)) =? 1)%nat)
              (seqZ 0 100) = true) as Hall by (vm_compute; reflexivity).
    rewrite forallb_forall in Hall.
    rewrite (proj1 (Nat.eqb_eq _ _) (Hall cls ltac:(apply list_elem_of_In, elem_of_seqZ; lia))).
    lia.
  - exists targets', data'. split; [exact Heq |]. split; [exact Ht | exact Hd].
Defined.

Lemma X16_validation_set_short_class_witness :
  Validation_data.make_validation_dataset
    (fun (st : unit) (population : list Z) (k : nat) =>
       (firstn k population, st))
    tt [0; 1; 1; 0; 2] ["a"; "b"; "c"; "d"; "e"]
  = Err (ValueError "Sample larger than population or is negative").
Proof.
  apply (X16_validation_set_short_class _ tt [0; 1; 1; 0; 2]
           ["a"; "b"; "c"; "d"; "e"] 1).
  - lia.
  - cbn. lia.
Defined.

(** ** The round trip of the names of the convention *)

(** *** Where an occurrence can start *)

Section Occurrences.

Lemma prefix_app_iff pat s :
  String.prefix pat s = true <-> exists rest, s = pat +:+ rest.
Proof.
  split.
  - apply startswith_app.
  - intros (rest & ->). apply prefix_self_app.
Qed.

Lemma prefix_trans a b s :
  String.prefix a b = true -> String.prefix b s = true ->
  String.prefix a s = true.
Proof.
  intros (x & ->)%prefix_app_iff (y & ->)%prefix_app_iff.
  rewrite append_assoc. apply prefix_self_app.
Qed.

Lemma contains_spec pat s :
  Py.contains pat s = true <-> exists x y, s = x +:+ pat +:+ y.
Proof.
  split.
  - induction s as [|c s IH]; cbn [Py.contains].
    + intros (rest & Hs)%prefix_app_iff. exists EmptyString, rest. exact Hs.
    + intros [(rest & Hs)%prefix_app_iff|Hin]%orb_true_iff.
      * exists EmptyString, rest. exact Hs.
      * destruct (IH Hin) as (x & y & ->). now exists (String c x), y.
  - intros (x & y & ->). apply contains_app_r, contains_self_app.
Qed.

Lemma contains_trans a b s :
  Py.contains a b = true -> Py.contains b s = true -> Py.contains a s = true.
Proof.
  intros (x & y & ->)%contains_spec (x' & y' & ->)%contains_spec.
  apply contains_spec. exists (x' +:+ x), (y +:+ y').
  now rewrite !append_assoc.
Qed.

Lemma replace_absent old new s :
  nonempty old = true -> Py.contains old s = false -> Py.replace old new s = s.
Proof.
  destruct old as [|a old]; [discriminate |]. intros _. unfold Py.replace.
  induction s as [|c s IH]; [reflexivity |].
  cbn [Py.contains Py.replace_from].
  intros [Hpre Hin]%orb_false_iff. rewrite Hpre. f_equal. now apply IH.
Qed.

Lemma prefix_mismatch pat t rest :
  mismatch pat t = true -> String.prefix pat (t +:+ rest) = false.
Proof.
  unfold mismatch. revert t.
  induction pat as [|a pat IH]; intros t [H1 H2]%andb_true_iff;
    apply negb_true_iff in H1, H2.
  - destruct t; discriminate.
  - destruct t as [|b t]; [discriminate |].
    cbn [String.append].
    destruct (ascii_dec a b) as [->|Hne].
    + rewrite !prefix_cons_eq in *. apply IH. now rewrite H1, H2.
    + now apply prefix_cons_ne.
Qed.

(** Splitting an append. *)
Lemma append_split s t s1 s2 :
  s +:+ t = s1 +:+ s2 ->
  (exists m, s = s1 +:+ m /\ s2 = m +:+ t)
  \/ (exists m, s1 = s +:+ m /\ t = m +:+ s2).
Proof.
  revert s1. induction s as [|c s IH]; intros s1 Heq.
  - right. now exists s1.
  - destruct s1 as [|c1 s1].
    + left. exists (String c s). split; [reflexivity |]. exact (eq_sym Heq).
    + cbn in Heq. injection Heq as -> Heq.
      destruct (IH s1 Heq) as [(m & -> & ->)|(m & -> & ->)].
      * left. now exists m.
      * right. now exists m.
Qed.

Lemma suffixes_In s s1 s2 :
  s = s1 +:+ s2 -> nonempty s2 = true -> In s2 (suffixes s).
Proof.
  revert s. induction s1 as [|c s1 IH]; intros s -> Hne.
  - destruct s2; [discriminate |]. now left.
  - cbn. right. now apply IH.
Qed.

Lemma clear_no_start pat s : clear_of pat s = true -> no_start pat s.
Proof.
  unfold clear_of. rewrite forallb_forall.
  intros Hall s1 s2 rest Hs Hne.
  apply prefix_mismatch, Hall. now apply (suffixes_In s s1 s2).
Qed.

Lemma no_start_nil pat : no_start pat "".
Proof.
  intros s1 s2 rest Hs Hne. destruct s1; [|discriminate].
  cbn in Hs. subst s2. discriminate.
Qed.

Lemma no_start_app pat s t :
  no_start pat s -> no_start pat t -> no_start pat (s +:+ t).
Proof.
  intros Hs Ht s1 s2 rest Heq Hne.
  destruct (append_split s t s1 s2 Heq) as [(m & -> & ->)|(m & -> & ->)].
  - destruct m as [|c m].
    + cbn in *. now apply (Ht EmptyString t).
    + rewrite append_assoc. now apply (Hs s1 (String c m)).
  - now apply (Ht m s2).
Qed.

Lemma no_start_tail pat c s : no_start pat (String c s) -> no_start pat s.
Proof.
  intros H s1 s2 rest -> Hne. now apply (H (String c s1) s2).
Qed.

Lemma no_start_contains pat s rest :
  no_start pat s -> Py.contains pat (s +:+ rest) = Py.contains pat rest.
Proof.
  induction s as [|c s IH]; intros Hs; [reflexivity |].
  pose proof (Hs EmptyString (String c s) rest eq_refl eq_refl) as Hpre.
  cbn [String.append Py.contains] in *. rewrite Hpre.
  apply IH. now apply (no_start_tail pat c).
Qed.

Lemma no_start_absent pat s :
  nonempty pat = true -> no_start pat s -> Py.contains pat s = false.
Proof.
  intros Hne Hs. rewrite <- (append_empty_r s).
  rewrite (no_start_contains pat s "" Hs). now destruct pat.
Qed.

Lemma no_start_replace old new s rest :
  nonempty old = true -> no_start old s ->
  Py.replace old new (s +:+ rest) = s +:+ Py.replace old new rest.
Proof.
  destruct old as [|a old]; [discriminate |]. intros _. unfold Py.replace.
  induction s as [|c s IH]; intros Hs; [reflexivity |].
  pose proof (Hs EmptyString (String c s) rest eq_refl eq_refl) as Hpre.
  cbn [String.append Py.replace_from] in *. rewrite Hpre.
  f_equal. apply IH. now apply (no_start_tail _ c).
Qed.

(** A key whose first piece [x] does not occur in the token [t] does not
    start in [t] followed by "_". *)
Lemma no_start_token key x t :
  String.prefix x key = true -> nonempty x = true ->
  avoids is_underscore x = true -> Py.contains x t = false ->
  no_start key (t +:+ "_").
Proof.
  intros Hx Hne Hav Ht s1 s2 rest Heq Hs2.
  destruct (String.prefix key (s2 +:+ rest)) eqn:Hpre; [|reflexivity].
  exfalso. pose proof (prefix_trans _ _ _ Hx Hpre) as Hxs.
  destruct (append_split t "_" s1 s2 Heq) as [(m & -> & ->)|(m & -> & Hm)].
  - rewrite append_assoc in Hxs.
    change ("_" +:+ rest) with (String "_" rest) in Hxs.
    rewrite (prefix_gap is_underscore) in Hxs by (exact Hav || reflexivity).
    apply prefix_contains in Hxs.
    rewrite (contains_app_r x s1 m Hxs) in Ht. discriminate.
  - destruct m as [|c m].
    + cbn in Hm. subst s2.
      change ("_" +:+ rest) with (String "_" rest) in Hxs.
      rewrite (prefix_head_not is_underscore) in Hxs;
        [discriminate | now apply avoids_head_not | reflexivity].
    + destruct m; [|discriminate]. destruct s2; discriminate.
Qed.

End Occurrences.

(** ** Tokens joined by "_" *)

Section NameTokens.
Import Cifar_utils Codec.

Lemma join_cons t toks : join "_" (t :: toks) = t +:+ trail toks.
Proof.
  revert t. induction toks as [|u toks IH]; intros t.
  - cbn. now rewrite append_empty_r.
  - change (join "_" (t :: u :: toks)) with (t +:+ "_" +:+ join "_" (u :: toks)).
    now rewrite IH.
Qed.

Lemma join_lead_trail A t B :
  join "_" (A ++ t :: B) = lead A +:+ t +:+ trail B.
Proof.
  induction A as [|a A IH]; [apply join_cons |].
  cbn [app lead].
  assert (join "_" (a :: A ++ t :: B) = a +:+ "_" +:+ join "_" (A ++ t :: B))
    as -> by (destruct A; reflexivity).
  now rewrite IH, !append_assoc.
Qed.

Lemma trail_join toks : trail toks = join "_" ("" :: toks).
Proof. now rewrite join_cons. Qed.

Lemma lead_join A : A <> [] -> lead A = join "_" A +:+ "_".
Proof.
  induction A as [|a A IH]; [contradiction |]. intros _.
  destruct A as [|a' A]; [reflexivity |].
  change (lead (a :: a' :: A)) with (a +:+ "_" +:+ lead (a' :: A)).
  change (join "_" (a :: a' :: A)) with (a +:+ "_" +:+ join "_" (a' :: A)).
  rewrite IH by discriminate. now rewrite !append_assoc.
Qed.

Lemma string_forall_join (Q : ascii -> bool) toks :
  Q "_"%char = true -> forallb (string_forall Q) toks = true ->
  string_forall Q (join "_" toks) = true.
Proof.
  intros HQ. induction toks as [|t toks IH]; [reflexivity |].
  intros [Ht Htoks]%andb_true_iff.
  destruct toks as [|u toks]; [exact Ht |].
  change (join "_" (t :: u :: toks)) with (t +:+ "_" +:+ join "_" (u :: toks)).
  rewrite !string_forall_app, Ht, (IH Htoks). cbn. now rewrite HQ.
Qed.

(** An occurrence of a piece without "_" in the joined tokens lies in
    one token. *)
Lemma contains_join_In x toks :
  avoids is_underscore x = true -> nonempty x = true ->
  Py.contains x (join "_" toks) = true ->
  exists t, In t toks /\ Py.contains x t = true.
Proof.
  intros Hav Hne Hin. rewrite (contains_join x toks Hav Hne) in Hin.
  apply existsb_exists in Hin. exact Hin.
Qed.

Lemma contains_trail_In x toks :
  avoids is_underscore x = true -> nonempty x = true ->
  Py.contains x (trail toks) = true ->
  exists t, In t toks /\ Py.contains x t = true.
Proof.
  intros Hav Hne Hin. rewrite trail_join in Hin.
  apply contains_join_In in Hin as (t & [<-|Ht] & Hx); try assumption.
  - destruct x; discriminate.
  - now exists t.
Qed.

(** *** Tokens made of a stem and digits *)

Lemma plain_param stem z :
  In stem stems -> 0 <= z -> plain (stem +:+ Py.str z).
Proof.
  intros Hstem Hz. exists stem, (Py.str z). split; [exact Hstem |].
  split; [|reflexivity].
  now pose proof (str_digits z Hz) as [Hd _]%andb_true_iff.
Qed.

Lemma plain_marker g : plain (marker g).
Proof.
  exists (marker g), EmptyString. split; [|split].
  - destruct g; cbn; auto.
  - reflexivity.
  - now rewrite append_empty_r.
Qed.

Lemma tokens_plain g crop kernel width depth t :
  0 <= crop -> 0 <= kernel -> 0 <= width -> 0 <= depth ->
  In t (tokens g None crop kernel width depth) -> plain t.
Proof.
  intros Hc Hk Hw Hd. cbn [tokens app In].
  intros [<-|[<-|[<-|[<-|[<-|[]]]]]];
    first [apply plain_marker | apply plain_param; [cbn; auto 10 | assumption]].
Qed.

Lemma plain_forall (Q : ascii -> bool) t :
  plain t -> (forall c, Py.is_digit c = true -> Q c = true) ->
  forallb (string_forall Q) stems = true -> string_forall Q t = true.
Proof.
  intros (stem & ds & Hstem & Hds & ->) HQ Hall.
  rewrite forallb_forall in Hall.
  rewrite string_forall_app, (Hall stem Hstem).
  now apply (string_forall_impl Py.is_digit).
Qed.

Lemma plain_sep_free c t :
  plain t -> Py.is_digit c = false -> forallb (sep_free c) stems = true ->
  sep_free c t = true.
Proof.
  intros Ht Hc Hall. apply (plain_forall _ t Ht); [|exact Hall].
  intros a Ha. now apply is_digit_not.
Qed.

Lemma plain_contains x t :
  plain t -> mark_ok x = true -> Py.contains x t = false.
Proof.
  intros (stem & ds & Hstem & Hds & ->).
  unfold mark_ok. rewrite !andb_true_iff, forallb_forall.
  intros (((Hne & _) & Hdig) & Hall).
  assert (Py.contains x stem = false) as Hx.
  { apply negb_true_iff, Hall. now right. }
  destruct ds as [|d ds]; [now rewrite append_empty_r |].
  now rewrite (contains_gap_end Py.is_digit x stem (String d ds)).
Qed.

Lemma mark_all x : mark_ok x = true -> Py.contains x "all" = false.
Proof.
  unfold mark_ok. rewrite !andb_true_iff, forallb_forall.
  intros (_ & Hall). apply negb_true_iff, Hall. now left.
Qed.

Lemma mark_facts x :
  mark_ok x = true ->
  nonempty x = true /\ avoids is_underscore x = true.
Proof. unfold mark_ok. rewrite !andb_true_iff. tauto. Qed.

Lemma key_ok_facts key :
  key_ok key = true ->
  mark_ok (first_piece key) = true
  /\ Py.contains (first_piece key) key = true
  /\ nonempty key = true.
Proof.
  unfold key_ok. intros [Hm Hp]%andb_true_iff.
  split; [exact Hm |]. split; [now apply prefix_contains |].
  apply mark_facts in Hm as [Hne _].
  destruct key; [|reflexivity].
  destruct (first_piece ""); discriminate.
Qed.

(** No key starts in a run of plain tokens, each followed by "_". *)
Lemma no_start_lead key A :
  key_ok key = true -> (forall t, In t A -> plain t) ->
  no_start key (lead A).
Proof.
  intros Hkey. pose proof Hkey as [Hm Hp]%andb_true_iff.
  pose proof (mark_facts _ Hm) as [Hne Hav].
  induction A as [|t A IH]; intros HA; [apply no_start_nil |].
  cbn [lead]. rewrite <- append_assoc. apply no_start_app.
  - apply (no_start_token key (first_piece key)); try assumption.
    apply plain_contains; [apply HA; now left | exact Hm].
  - apply IH. intros u Hu. apply HA. now right.
Qed.

(** No key occurs in tokens that are plain or the placeholder. *)
Lemma key_absent_join key toks :
  key_ok key = true -> (forall t, In t toks -> plain t \/ t = "all") ->
  Py.contains key (join "_" toks) = false.
Proof.
  intros (Hm & Hx & _)%key_ok_facts Htoks.
  pose proof (mark_facts _ Hm) as [Hne Hav].
  destruct (Py.contains key (join "_" toks)) eqn:Hin; [|reflexivity].
  exfalso. pose proof (contains_trans _ _ _ Hx Hin) as Hxin.
  apply contains_join_In in Hxin as (t & Ht & Hxt); try assumption.
  destruct (Htoks t Ht) as [Hpl| ->].
  - rewrite (plain_contains _ t Hpl Hm) in Hxt. discriminate.
  - rewrite (mark_all _ Hm) in Hxt. discriminate.
Qed.

Lemma key_absent_trail key toks :
  key_ok key = true -> (forall t, In t toks -> plain t \/ t = "all") ->
  Py.contains key (trail toks) = false.
Proof.
  intros Hkey Htoks. rewrite trail_join.
  destruct (Py.contains key (join "_" ("" :: toks))) eqn:Hin; [|reflexivity].
  exfalso. pose proof Hkey as (Hm & Hx & _)%key_ok_facts.
  pose proof (mark_facts _ Hm) as [Hne Hav].
  pose proof (contains_trans _ _ _ Hx Hin) as Hxin.
  apply contains_join_In in Hxin as (t & [<-|Ht] & Hxt); try assumption.
  - destruct (first_piece key); discriminate.
  - destruct (Htoks t Ht) as [Hpl| ->].
    + rewrite (plain_contains _ t Hpl Hm) in Hxt. discriminate.
    + rewrite (mark_all _ Hm) in Hxt. discriminate.
Qed.

Lemma keys_ok key :
  In key (dict_keys coarse_class_to_idx) -> key_ok key = true.
Proof.
  assert (forallb key_ok (dict_keys coarse_class_to_idx) = true) as Hall
    by (vm_compute; reflexivity).
  rewrite forallb_forall in Hall. apply Hall.
Qed.

(** *** The placeholder *)

Lemma no_start_all_plain t : plain t -> no_start "_all_" ("_" +:+ t).
Proof.
  intros Ht s1 s2 rest Heq Hne.
  pose proof (plain_sep_free "_" t Ht eq_refl eq_refl) as Hsep.
  destruct s1 as [|c s1].
  - cbn in Heq. subst s2. destruct Ht as (stem & ds & Hstem & _ & ->).
    cbn [stems In] in Hstem.
    destruct Hstem as [<-|[<-|[<-|[<-|[<-|[<-|[<-|[]]]]]]]]; reflexivity.
  - cbn in Heq. injection Heq as _ ->.
    unfold sep_free in Hsep. rewrite string_forall_app in Hsep.
    apply andb_true_iff in Hsep as [_ Hs2].
    destruct s2 as [|b s2]; [discriminate |].
    cbn [string_forall] in Hs2. apply andb_true_iff in Hs2 as [Hb _].
    cbn [String.append]. apply prefix_cons_ne. intros <-. discriminate.
Qed.

Lemma no_start_all_trail toks :
  (forall t, In t toks -> plain t) -> no_start "_all_" (trail toks).
Proof.
  induction toks as [|t toks IH]; intros Htoks; [apply no_start_nil |].
  cbn [trail]. rewrite <- append_assoc. apply no_start_app.
  - apply no_start_all_plain, Htoks. now left.
  - apply IH. intros u Hu. apply Htoks. now right.
Qed.

Lemma no_start_all_join toks :
  (forall t, In t toks -> no_start "_all_" ("_" +:+ t)) ->
  no_start "_all_" (join "_" toks).
Proof.
  destruct toks as [|t toks]; intros Htoks; [apply no_start_nil |].
  rewrite join_cons. apply no_start_app.
  - apply (no_start_tail _ "_"%char), Htoks. now left.
  - assert (forall u, In u toks -> no_start "_all_" ("_" +:+ u)) as Hrest
      by (intros u Hu; apply Htoks; now right).
    clear Htoks. induction toks as [|u toks IH]; [apply no_start_nil |].
    cbn [trail]. rewrite <- append_assoc. apply no_start_app.
    + apply Hrest. now left.
    + apply IH. intros v Hv. apply Hrest. now right.
Qed.

(** *** From the path to the joined tokens *)

Lemma parse_name_of_tokens toks :
  forallb (sep_free "/") toks = true -> forallb (sep_free ".") toks = true ->
  Py.contains "model" (join "_" toks) = false ->
  Embeddings.parse_model_path (name_of_tokens toks)
  = Embeddings.superclass_to_idx (join "_" toks).
Proof.
  intros Hslash Hdot Hmodel.
  unfold Embeddings.parse_model_path, name_of_tokens.
  pose proof (string_forall_join _ toks eq_refl Hslash) as Hs.
  pose proof (string_forall_join _ toks eq_refl Hdot) as Hd.
  set (J := join "_" toks) in *.
  rewrite last_item_split_sep_free
    by (unfold sep_free in *; now rewrite !string_forall_app, Hs).
  cbn [bind]. rewrite <- append_assoc.
  rewrite (replace_skip_gap (fun c => negb (Ascii.eqb c "."))
             ".pt" "" ("model_" +:+ J) ".pt")
    by (reflexivity || (unfold sep_free in *; now rewrite string_forall_app, Hd)).
  change (Py.replace ".pt" "" ".pt") with "".
  rewrite append_empty_r, replace_prefix by reflexivity.
  cbn [String.append]. apply f_equal, replace_absent; [reflexivity |].
  destruct (Py.contains "model_" J) eqn:Hin; [|reflexivity].
  rewrite (contains_trans "model" "model_" J eq_refl Hin) in Hmodel.
  discriminate.
Qed.

(** *** The superclass token *)

Lemma table_split (n : nat) :
  (n < 20)%nat ->
  coarse_class_to_idx
  = firstn n coarse_class_to_idx
    ++ (nth n coarse_classes "", Z.of_nat n) :: skipn (S n) coarse_class_to_idx.
Proof.
  intros Hn. do 20 (destruct n as [|n]; [reflexivity |]). lia.
Qed.

Lemma names_ok (n : nat) : (n < 20)%nat -> name_ok n = true.
Proof.
  intros Hn.
  assert (forallb name_ok (seq 0 20) = true) as Hall
    by (vm_compute; reflexivity).
  rewrite forallb_forall in Hall. apply Hall, in_seq. lia.
Qed.

Lemma name_facts (n : nat) :
  (n < 20)%nat ->
  let name := nth n coarse_classes "" in
  (forall key, In key (dict_keys (firstn n coarse_class_to_idx)) ->
               no_start key (name +:+ "_"))
  /\ no_start "_all_" ("_" +:+ name)
  /\ Py.contains "model" name = false
  /\ sep_free "/" name = true /\ sep_free "." name = true
  /\ In name (dict_keys coarse_class_to_idx).
Proof.
  intros Hn name. pose proof (names_ok n Hn) as Hok.
  unfold name_ok in Hok. fold name in Hok.
  rewrite !andb_true_iff, forallb_forall, negb_true_iff in Hok.
  destruct Hok as (((((Hkeys & Hall) & Hmodel) & Hslash) & Hdot) & Heq).
  split; [|split; [|split; [|split; [|split]]]]; try assumption.
  - intros key Hkey. apply clear_no_start, Hkeys.
    unfold dict_keys in *. now rewrite firstn_map.
  - now apply clear_no_start.
  - apply String.eqb_eq in Heq. rewrite <- Heq. apply nth_In.
    change (length (dict_keys coarse_class_to_idx)) with 20%nat. exact Hn.
Qed.

(** The name of a superclass among plain tokens is replaced by its
    "class<idx>" token. *)
Lemma superclass_to_idx_name (n : nat) A B :
  (n < 20)%nat -> (forall t, In t (A ++ B) -> plain t) ->
  Embeddings.superclass_to_idx (join "_" (A ++ nth n coarse_classes "" :: B))
  = Ok (join "_" (A ++ ("class" +:+ Py.str (Z.of_nat n)) :: B)).
Proof.
  intros Hn Hplain.
  destruct (name_facts n Hn) as (Hkeys & Hall & _ & _ & _ & Hin).
  set (name := nth n coarse_classes "") in *.
  assert (forall t, In t A -> plain t) as HA
    by (intros t Ht; apply Hplain, in_or_app; now left).
  assert (forall t, In t B -> plain t \/ t = "all") as HB
    by (intros t Ht; left; apply Hplain, in_or_app; now right).
  apply (fun Hall' => superclass_to_idx_named _ _ _ _ _ _ Hall' (table_split n Hn)).
  - apply no_start_absent; [reflexivity |]. apply no_start_all_join.
    intros t [Ht|[<-|Ht]]%in_app_or; [| exact Hall |];
      apply no_start_all_plain, Hplain, in_or_app; auto.
  - rewrite join_lead_trail. apply contains_app_r, contains_self_app.
  - intros key Hkey. rewrite join_lead_trail.
    assert (key_ok key = true) as Hok.
    { apply keys_ok. unfold dict_keys in *.
      apply in_map_iff in Hkey as (item & <- & Hitem).
      apply in_map. rewrite <- (firstn_skipn n coarse_class_to_idx).
      apply in_or_app. now left. }
    rewrite (no_start_contains key (lead A) _ (no_start_lead key A Hok HA)).
    destruct B as [|b B].
    + cbn [trail]. rewrite append_empty_r.
      destruct (Py.contains key name) eqn:Hc; [|reflexivity].
      apply (contains_app_l key name "_") in Hc.
      rewrite no_start_absent in Hc;
        [discriminate | now apply key_ok_facts in Hok | now apply Hkeys].
    + cbn [trail]. rewrite <- append_assoc, <- join_cons.
      rewrite (no_start_contains key (name +:+ "_") _ (Hkeys key Hkey)).
      now apply key_absent_join.
  - rewrite !join_lead_trail.
    pose proof (keys_ok name Hin) as Hok.
    rewrite (no_start_replace name _ (lead A) _
               ltac:(now apply key_ok_facts in Hok)
               (no_start_lead name A Hok HA)).
    rewrite replace_prefix by (now apply key_ok_facts in Hok).
    rewrite (replace_absent name _ (trail B)
               ltac:(now apply key_ok_facts in Hok)
               (key_absent_trail name B Hok HB)).
    reflexivity.
Qed.

Lemma join_around A t B :
  A <> [] -> B <> [] ->
  join "_" (A ++ t :: B)
  = join "_" A +:+ ("_" +:+ t +:+ "_") +:+ join "_" B.
Proof.
  intros HA HB. rewrite join_lead_trail, (lead_join A HA).
  destruct B as [|b B]; [contradiction |].
  cbn [trail]. rewrite <- (join_cons b B). now rewrite !append_assoc.
Qed.

(** The placeholder between plain tokens is replaced by "class-1". *)
Lemma superclass_to_idx_placeholder A B :
  A <> [] -> B <> [] -> (forall t, In t (A ++ B) -> plain t) ->
  Embeddings.superclass_to_idx (join "_" (A ++ "all" :: B))
  = Ok (join "_" (A ++ "class-1" :: B)).
Proof.
  intros HA HB Hplain. rewrite !join_around by assumption.
  assert (no_start "_all_" (join "_" A)) as HsA.
  { apply no_start_all_join. intros t Ht.
    apply no_start_all_plain, Hplain, in_or_app. now left. }
  assert (Py.contains "_all_" (join "_" B) = false) as HcB.
  { apply no_start_absent; [reflexivity |]. apply no_start_all_join.
    intros t Ht. apply no_start_all_plain, Hplain, in_or_app. now right. }
  unfold Embeddings.superclass_to_idx.
  change ("_" +:+ "all" +:+ "_") with "_all_".
  rewrite (contains_app_r "_all_" (join "_" A) _ (contains_self_app _ _)).
  rewrite (no_start_replace "_all_" _ (join "_" A) _ eq_refl HsA).
  rewrite replace_prefix by reflexivity.
  now rewrite (replace_absent "_all_" _ _ eq_refl HcB).
Qed.

(** Without a superclass name and without "_all_" the scan of the names
    finds nothing. *)
Lemma superclass_to_idx_miss toks :
  (forall t, In t toks -> plain t \/ t = "all") ->
  Py.contains "_all_" (join "_" toks) = false ->
  Embeddings.superclass_to_idx (join "_" toks) = Err StopIteration.
Proof.
  intros Htoks Hall. rewrite (embeddings_superclass_to_idx_scan _ Hall).
  apply scan_superclass_none. intros key Hkey.
  apply key_absent_join; [now apply keys_ok | exact Htoks].
Qed.

Lemma no_all_plain toks :
  (forall t, In t toks -> plain t) ->
  Py.contains "_all_" (join "_" toks) = false.
Proof.
  intros Htoks. apply no_start_absent; [reflexivity |].
  apply no_start_all_join. intros t Ht. now apply no_start_all_plain, Htoks.
Qed.

Lemma no_all_first B :
  (forall t, In t B -> plain t) ->
  Py.contains "_all_" (join "_" ("all" :: B)) = false.
Proof.
  intros HB. rewrite join_cons. apply no_start_absent; [reflexivity |].
  apply no_start_app; [now apply clear_no_start |].
  now apply no_start_all_trail.
Qed.

Lemma no_all_last A :
  (forall t, In t A -> plain t) ->
  Py.contains "_all_" (join "_" (A ++ ["all"])) = false.
Proof.
  intros HA. destruct A as [|a A]; [reflexivity |].
  rewrite join_lead_trail, lead_join by discriminate.
  cbn [trail]. rewrite append_assoc.
  rewrite no_start_contains; [reflexivity |].
  apply no_start_all_join. intros t Ht. now apply no_start_all_plain, HA.
Qed.

(** *** [get_parameters] on joined tokens *)

Ltac convention_cases Hc :=
  cbn [convention_tokens In] in Hc;
  destruct Hc as [<-|[<-|[<-|[<-|[<-|[<-|[]]]]]]].

Lemma get_parameters_join (g : granularity)
    (cls crop kernel width depth : Z) (toks : list string) :
  (forall t, In t (convention_tokens g cls crop kernel width depth) ->
             In t toks) ->
  (forall t, In t toks ->
             In t (convention_tokens g cls crop kernel width depth)
             \/ plain_token t = true) ->
  Evaluate.get_parameters (join "_" toks)
  = Ok (marker g, cls, crop, kernel, width, depth).
Proof.
  intros Hin Hall.
  set (name := join "_" toks).
  assert (Hsep : forallb (sep_free "_") toks = true).
  { apply forallb_forall. intros t Ht.
    destruct (Hall t Ht) as [Hc|Hplain].
    - convention_cases Hc; rewrite ?token_sep_free0 by reflexivity;
        try reflexivity. now destruct g.
    - apply (plain_token_spec t Hplain). }
  assert (Hne : toks <> []).
  { intros ->. apply (Hin (marker g)). now left. }
  assert (Hsplit : Py.split "_" name = toks) by now apply split_join.
  destruct (last_item_split "." name) as [ext Hext].
  assert (Hparam : forall param z,
            In (param, z) [("class", cls); ("crop", crop); ("kernel", kernel);
                           ("width", width); ("depth", depth)] ->
            Evaluate.get_parameter name param = Ok (VInt z)).
  { intros param z Hpz.
    assert (Hp : In param ["class"; "crop"; "kernel"; "width"; "depth"]).
    { apply (in_map fst) in Hpz. exact Hpz. }
    rewrite (get_parameter_unfold name param ext toks Hp Hext Hsplit).
    assert (Hav : avoids is_num param = true /\ nonempty param = true).
    { cbn [In] in Hp.
      destruct Hp as [<-|[<-|[<-|[<-|[<-|[]]]]]]; split; reflexivity. }
    apply loop_any_position; try apply Hav; try reflexivity.
    - now apply (tokens_hold g cls crop kernel width depth).
    - apply Hin. cbn [In] in Hpz.
      destruct Hpz as [[= <- <-]|[[= <- <-]|[[= <- <-]|[[= <- <-]|
                      [[= <- <-]|[]]]]]]; cbn [convention_tokens In]; auto 10. }
  assert (Hmarker : forall p, p = "coarse" \/ p = "fine" ->
            Py.contains p name
            = existsb (Py.contains p) toks).
  { intros p [->| ->]; now apply contains_join. }
  assert (Hother : forall p, p = "coarse" \/ p = "fine" -> p <> marker g ->
            existsb (Py.contains p) toks = false).
  { intros p Hp Hneq. apply existsb_false. intros t Ht.
    destruct (Hall t Ht) as [Hc|Hplain].
    - convention_cases Hc; destruct Hp as [->| ->];
        rewrite ?contains_token by reflexivity;
        destruct g; try reflexivity; contradiction.
    - apply (plain_token_spec t Hplain).
      destruct Hp as [->| ->]; cbn [In]; auto 10. }
  assert (Hself : existsb (Py.contains (marker g)) toks = true).
  { apply existsb_exists. exists (marker g). split.
    - apply Hin. now left.
    - now destruct g. }
  assert (Hgran : Evaluate.get_granularity name = Ok (marker g)).
  { unfold Evaluate.get_granularity.
    rewrite !Hmarker by auto.
    destruct g; cbn [marker] in *.
    - now rewrite Hself.
    - rewrite (Hother "coarse") by (auto; discriminate). now rewrite Hself. }
  unfold Evaluate.get_parameters. rewrite Hgran. cbn [bind].
  rewrite (Hparam "class" cls), (Hparam "crop" crop),
    (Hparam "kernel" kernel), (Hparam "width" width),
    (Hparam "depth" depth) by (cbn [In]; auto 10).
  reflexivity.
Qed.
End NameTokens.

(** *** The round trip in any order of the tokens *)

Section RoundTripOrder.
Import Cifar_utils Codec.

Lemma filename_tokens g t crop kernel width depth :
  filename g t crop kernel width depth
  = name_of_tokens (tokens g (Some t) crop kernel width depth).
Proof.
  unfold filename, name_of_tokens, tokens. cbn [app join].
  now rewrite !append_assoc.
Qed.

Lemma name_token_facts sc :
  valid_superclass sc ->
  Py.contains "model" (name_token sc) = false
  /\ sep_free "/" (name_token sc) = true
  /\ sep_free "." (name_token sc) = true.
Proof.
  destruct sc as [|i]; [now intros _ |]. cbn [valid_superclass name_token].
  intros Hi.
  destruct (name_facts (Z.to_nat i) ltac:(lia)) as (_ & _ & Hm & Hs & Hd & _).
  auto.
Qed.

(** What the decoding needs of the tokens: plain tokens and at most one
    superclass token [s]. *)
Lemma main_decode_tokens toks s :
  Py.contains "model" s = false ->
  sep_free "/" s = true -> sep_free "." s = true ->
  (forall t, In t toks -> plain t \/ t = s) ->
  Embeddings.main_decode (name_of_tokens toks)
  = (let* model_filename := Embeddings.superclass_to_idx (join "_" toks) in
     Embeddings.get_parameters model_filename).
Proof.
  intros Hm Hs Hd Htoks. unfold Embeddings.main_decode.
  rewrite parse_name_of_tokens; [reflexivity | | |].
  - apply forallb_forall. intros t [Ht| ->]%Htoks; [|exact Hs].
    now apply plain_sep_free.
  - apply forallb_forall. intros t [Ht| ->]%Htoks; [|exact Hd].
    now apply plain_sep_free.
  - destruct (Py.contains "model" (join "_" toks)) eqn:Hin; [|reflexivity].
    apply contains_join_In in Hin as (t & Ht & Hin); try reflexivity.
    apply Htoks in Ht as [Ht| ->]; [|congruence].
    now rewrite (plain_contains "model" t Ht eq_refl) in Hin.
Qed.

(** The tokens around the superclass token. *)
Lemma tokens_around g s crop kernel width depth A B :
  Permutation (A ++ s :: B) (tokens g (Some s) crop kernel width depth) ->
  Permutation (A ++ B) (tokens g None crop kernel width depth).
Proof.
  intros Hperm.
  apply (Permutation_app_inv A B [marker g] _ s). exact Hperm.
Qed.

Lemma decode_class_token g cls crop kernel width depth A B :
  Permutation (A ++ B) (tokens g None crop kernel width depth) ->
  Embeddings.get_parameters (join "_" (A ++ ("class" +:+ Py.str cls) :: B))
  = Ok (marker g, cls, crop, kernel, width, depth).
Proof.
  intros Hperm. apply get_parameters_join.
  - intros t Ht. cbn [convention_tokens In] in Ht.
    destruct Ht as [<-|[<-|Ht]].
    + apply in_or_app.
      destruct (in_app_or A B (marker g)) as [H|H]; auto.
      * apply (Permutation_in _ (Permutation_sym Hperm)). now left.
      * right. now right.
    + apply in_or_app. right. now left.
    + apply in_or_app.
      destruct (in_app_or A B t) as [H|H]; auto.
      * apply (Permutation_in _ (Permutation_sym Hperm)). now right.
      * right. now right.
  - intros t Ht. left. cbn [convention_tokens In].
    apply in_app_or in Ht as [Ht|[<-|Ht]]; [| now right; left |].
    + pose proof (Permutation_in _ Hperm (in_or_app A B t (or_introl Ht))) as H.
      cbn [tokens app In] in H. tauto.
    + pose proof (Permutation_in _ Hperm (in_or_app A B t (or_intror Ht))) as H.
      cbn [tokens app In] in H. tauto.
Qed.

Lemma around_plain g crop kernel width depth A B :
  0 <= crop -> 0 <= kernel -> 0 <= width -> 0 <= depth ->
  Permutation (A ++ B) (tokens g None crop kernel width depth) ->
  forall t, In t (A ++ B) -> plain t.
Proof.
  intros Hc Hk Hw Hd Hperm t Ht.
  apply (tokens_plain g crop kernel width depth); try assumption.
  now apply (Permutation_in _ Hperm).
Qed.

(** C1, amended: for every tuple (granularity, superclass, crop, kernel,
    width, depth) whose superclass is "all" or an index in 0..19 and whose
    sizes are not negative, and for every order of the tokens: the name
    "model_<tokens joined by _>.pt" whose tokens are a granularity marker,
    "crop<c>", "kernel<k>", "width<w>", "depth<d>" and, for the superclass,
    its coarse class name, or the placeholder "all" standing between two
    other tokens, is decoded by [parse_model_path] followed by
    [get_parameters] (embeddings.py) to exactly that tuple, "all" being
    -1.  The other names of the convention are not decoded:
    [superclass_to_idx] raises StopIteration when the placeholder is the
    first or the last token, when the superclass token is "class<i>", and
    when there is no superclass token. *)
Theorem C1_round_trip (g : granularity) (sc : superclass)
    (crop kernel width depth : Z) (toks : list string) :
  valid_superclass sc ->
  0 <= crop -> 0 <= kernel -> 0 <= width -> 0 <= depth ->
  (Permutation toks (tokens g (Some (name_token sc)) crop kernel width depth) ->
   (sc = All -> hd "" toks <> "all" /\ List.last toks "" <> "all") ->
   Embeddings.main_decode (name_of_tokens toks)
   = Ok (marker g, class_id sc, crop, kernel, width, depth))
  /\ (Permutation toks (tokens g (Some "all") crop kernel width depth) ->
      hd "" toks = "all" \/ List.last toks "" = "all" ->
      Embeddings.main_decode (name_of_tokens toks) = Err StopIteration)
  /\ (Permutation toks
        (tokens g (Some (class_token sc)) crop kernel width depth) ->
      sc <> All ->
      Embeddings.main_decode (name_of_tokens toks) = Err StopIteration)
  /\ (Permutation toks (tokens g None crop kernel width depth) ->
      Embeddings.main_decode (name_of_tokens toks) = Err StopIteration).
Proof.
  intros Hsc Hc Hk Hw Hd.
  pose proof (name_token_facts sc Hsc) as (Hm & Hs & Hdot).
  split; [|split; [|split]].
  - intros Hperm Hinside.
    assert (In (name_token sc) toks) as Hin
      by (apply (Permutation_in _ (Permutation_sym Hperm)); right; now left).
    apply in_split in Hin as (A & B & ->).
    apply tokens_around in Hperm.
    pose proof (around_plain g crop kernel width depth A B Hc Hk Hw Hd Hperm)
      as Hplain.
    rewrite (main_decode_tokens _ (name_token sc) Hm Hs Hdot)
      by (intros t [Ht|[<-|Ht]]%in_app_or; auto;
          left; apply Hplain, in_or_app; auto).
    destruct sc as [|i]; cbn [name_token class_id valid_superclass] in *.
    + destruct (Hinside eq_refl) as [Hfirst Hlast].
      rewrite superclass_to_idx_placeholder; try assumption.
      * cbn [bind]. now apply (decode_class_token g (-1)).
      * intros ->. now apply Hfirst.
      * intros ->. apply Hlast. apply last_last.
    + rewrite superclass_to_idx_name by (assumption || lia).
      cbn [bind]. rewrite Z2Nat.id by lia. now apply decode_class_token.
  - intros Hperm Hedge.
    assert (toks <> []) as Hne
      by (intros ->; apply Permutation_nil in Hperm; discriminate).
    assert (exists A B, toks = A ++ "all" :: B /\ (A = [] \/ B = []))
      as (A & B & -> & HAB).
    { destruct Hedge as [Hfirst|Hlast].
      - destruct toks as [|t toks]; [contradiction |].
        cbn [hd] in Hfirst. subst t. exists [], toks. auto.
      - exists (removelast toks), []. split; [|auto].
        rewrite <- Hlast. now apply app_removelast_last. }
    apply tokens_around in Hperm.
    pose proof (around_plain g crop kernel width depth A B Hc Hk Hw Hd Hperm)
      as Hplain.
    rewrite (main_decode_tokens _ "all" eq_refl eq_refl eq_refl)
      by (intros t [Ht|[<-|Ht]]%in_app_or; auto;
          left; apply Hplain, in_or_app; auto).
    rewrite superclass_to_idx_miss; [reflexivity | |].
    + intros t [Ht|[<-|Ht]]%in_app_or; auto;
        left; apply Hplain, in_or_app; auto.
    + destruct HAB as [-> | ->].
      * apply no_all_first. intros t Ht. now apply Hplain.
      * apply no_all_last. intros t Ht. apply Hplain, in_or_app. now left.
  - intros Hperm Hnot. destruct sc as [|i]; [contradiction |].
    cbn [class_token valid_superclass] in *.
    assert (forall t, In t toks -> plain t) as Hplain.
    { intros t Ht. apply (Permutation_in _ Hperm) in Ht.
      cbn [tokens app In] in Ht.
      destruct Ht as [<-|[<-|Ht]];
        [apply plain_marker | apply plain_param; [cbn; auto 10 | lia] |].
      apply (tokens_plain g crop kernel width depth); try assumption.
      now right. }
    rewrite (main_decode_tokens _ "all" eq_refl eq_refl eq_refl) by auto.
    rewrite superclass_to_idx_miss; [reflexivity | auto |].
    now apply no_all_plain.
  - intros Hperm.
    assert (forall t, In t toks -> plain t) as Hplain.
    { intros t Ht. apply (Permutation_in _ Hperm) in Ht.
      now apply (tokens_plain g crop kernel width depth). }
    rewrite (main_decode_tokens _ "all" eq_refl eq_refl eq_refl) by auto.
    rewrite superclass_to_idx_miss; [reflexivity | auto |].
    now apply no_all_plain.
Qed.

(** C1 as stated fails: the name with the token "class7", in the order
    of the tuple ([encode] is [name_of_tokens] of the [tokens], by
    [filename_tokens]), is turned down by [superclass_to_idx], no coarse
    class name occurring in it, before [get_parameters] is reached.  So
    are the name that begins with the placeholder, "_all_" not occurring
    once "model_" is removed, and the name without a superclass token. *)
Lemma C1_counterexample_class_token :
  ~ (forall g sc crop kernel width depth,
       valid_superclass sc ->
       0 <= crop -> 0 <= kernel -> 0 <= width -> 0 <= depth ->
       Embeddings.main_decode (encode g sc crop kernel width depth)
       = Ok (marker g, class_id sc, crop, kernel, width, depth))
  /\ Embeddings.main_decode (encode Coarse (Index 7) 32 8 4 16)
     = Err StopIteration
  /\ Embeddings.main_decode
       "model_all_coarse_crop32_kernel8_width4_depth16.pt"
     = Err StopIteration
  /\ Embeddings.main_decode "model_coarse_crop32_kernel8_width4_depth16.pt"
     = Err StopIteration.
Proof.
  split; [|repeat split; vm_compute; reflexivity].
  intros H. specialize (H Coarse (Index 7) 32 8 4 16).
  assert (Hfail : Embeddings.main_decode (encode Coarse (Index 7) 32 8 4 16)
                  = Err StopIteration) by (vm_compute; reflexivity).
  rewrite Hfail in H. simpl in H.
  assert (Err StopIteration = Ok ("coarse", 7, 32, 8, 4, 16)) by (apply H; lia).
  discriminate.
Qed.

Lemma C1_round_trip_witness :
  Embeddings.main_decode "model_width4_depth16_fine_people_crop32_kernel8.pt"
  = Ok ("fine", 14, 32, 8, 4, 16)
  /\ Embeddings.main_decode "model_width4_depth16_fine_all_crop32_kernel8.pt"
     = Ok ("fine", -1, 32, 8, 4, 16)
  /\ Embeddings.main_decode "model_all_coarse_crop32_kernel8_width4_depth16.pt"
     = Err StopIteration.
Proof.
  split; [|split].
  - apply (proj1 (C1_round_trip Fine (Index 14) 32 8 4 16
                    ["width4"; "depth16"; "fine"; "people"; "crop32"; "kernel8"]
                    ltac:(cbn; lia) ltac:(lia) ltac:(lia) ltac:(lia)
                    ltac:(lia))).
    + apply (Permutation_app_comm ["width4"; "depth16"]
               ["fine"; "people"; "crop32"; "kernel8"]).
    + discriminate.
  - apply (proj1 (C1_round_trip Fine All 32 8 4 16
                    ["width4"; "depth16"; "fine"; "all"; "crop32"; "kernel8"]
                    I ltac:(lia) ltac:(lia) ltac:(lia) ltac:(lia))).
    + apply (Permutation_app_comm ["width4"; "depth16"]
               ["fine"; "all"; "crop32"; "kernel8"]).
    + intros _. split; discriminate.
  - apply (proj1 (proj2 (C1_round_trip Coarse All 32 8 4 16
                    ["all"; "coarse"; "crop32"; "kernel8"; "width4"; "depth16"]
                    I ltac:(lia) ltac:(lia) ltac:(lia) ltac:(lia)))).
    + apply perm_swap.
    + now left.
Defined.

End RoundTripOrder.
